(** * Shipwright: repository analysis, template generators, the content
    agent's completion loop and the orchestrator's fallback merge.

    A shallow embedding of
      - lib/github.ts              (the two read methods of GitHubClient)
      - lib/analyzer.ts            (RepoAnalyzer)
      - lib/generators/vercel-config.ts, env-template.ts, landing.ts
      - lib/agents/openai-agent.ts (runOpenAIAgent, its parser and its
                                    fallback)
      - lib/agents/blackbox-agent.ts (the result type)
      - lib/agents/orchestrator.ts (runOrchestrator, buildLandingPage,
                                    buildDefaultRecommendations)
    and, for the further properties at the end,
      - lib/github.ts              (getFileTree)
      - lib/agents/blackbox-agent.ts (runBlackboxAgent, callBlackbox and
                                    the default generators)
      - app/api/agent/route.ts     (the onStep handler of POST)

    Conventions.
      - A JavaScript string is a [string] of bytes (UTF-8).  Where the
        sources compare the length of a text with a number or cut a text
        at a position, the model counts UTF-16 code units on the bytes
        ([JS.length16], [JS.slice16]); case mapping is that of the ASCII
        letters.
      - [T | null] and [T | undefined] are [option T]; truthiness of a
        string is non-emptiness, an object or an array is always truthy.
      - A [Record<string, string>] is an association list in insertion
        order with distinct keys; the keys are property names that a
        JavaScript object keeps in insertion order (no array index, no
        __proto__).
      - The length of an array or of a string is a [nat]; the risk score
        and the counts it is computed from are [Z].
      - A promise that rejects is the [Throw] branch of [Completion];
        the thrown value is kept as the text [String(err)] gives.
      - A progress callback ([onStep]) is code of the caller.  The
        modules [OpenAIAgent] and [Orchestrator] record its calls and
        are the runs with a callback that returns; the module
        [Observed] has the runs with a callback that may throw. *)

From Stdlib Require Import ZArith Lia String Ascii List.
From Stdlib Require Import DecimalString DecimalNat DecimalFacts.
From stdpp Require Import base list strings.

Open Scope string_scope.
Open Scope list_scope.

(* ================================================================== *)
(** ** JavaScript primitives used by the sources                       *)
(* ================================================================== *)

Module JS.

(** The double quote, the backslash and the line feed. *)
Definition dq : string := String (ascii_of_nat 34) EmptyString.
Definition bs : string := String (ascii_of_nat 92) EmptyString.
Definition nl : string := String (ascii_of_nat 10) EmptyString.

(** [!!s] for a string. *)
Definition truthy (s : string) : bool :=
  match s with EmptyString => false | String _ _ => true end.

(** [!!x] for [x : string | null | undefined]. *)
Definition truthyOpt (x : option string) : bool :=
  match x with Some s => truthy s | None => false end.

(** [a || b] on strings. *)
Definition or_else (a : option string) (b : string) : string :=
  match a with
  | Some s => if truthy s then s else b
  | None => b
  end.

(** [String(n)] for a non-negative integer. *)
Definition String_of_nat (n : nat) : string :=
  NilZero.string_of_uint (Nat.to_uint n).

(** [String(n)] for an integer. *)
Definition String_of_Z (z : Z) : string :=
  match z with
  | Z0 => "0"
  | Zpos p => String_of_nat (Pos.to_nat p)
  | Zneg p => "-" +:+ String_of_nat (Pos.to_nat p)
  end.

(** [String(b)] for a boolean. *)
Definition String_of_bool (b : bool) : string := if b then "true" else "false".

(** [s.includes(sub)]. *)
Fixpoint includes (s sub : string) : bool :=
  String.prefix sub s ||
  match s with
  | EmptyString => false
  | String _ s' => includes s' sub
  end.

(** [s.toLowerCase()] on ASCII letters. *)
Definition lower_ascii (c : ascii) : ascii :=
  let n := nat_of_ascii c in
  if ((65 <=? n) && (n <=? 90))%nat then ascii_of_nat (n + 32) else c.

Fixpoint toLowerCase (s : string) : string :=
  match s with
  | EmptyString => EmptyString
  | String c s' => String (lower_ascii c) (toLowerCase s')
  end.

(** [s.split("\n")]. *)
Fixpoint split_lines_aux (cur : string) (s : string) : list string :=
  match s with
  | EmptyString => [String.rev cur]
  | String c s' =>
      if (nat_of_ascii c =? 10)%nat
      then String.rev cur :: split_lines_aux EmptyString s'
      else split_lines_aux (String c cur) s'
  end.

Definition split_lines (s : string) : list string :=
  split_lines_aux EmptyString s.

(** [arr.join(sep)]. *)
Definition join (sep : string) (l : list string) : string :=
  String.concat sep l.

(** [s.replace(pat, by)] with a string pattern: the first occurrence only. *)
Fixpoint drop (n : nat) (s : string) : string :=
  match n, s with
  | O, _ => s
  | S n', String _ s' => drop n' s'
  | S _, EmptyString => EmptyString
  end.

Fixpoint replace_first (pat by_ s : string) : string :=
  if String.prefix pat s then by_ +:+ drop (String.length pat) s
  else match s with
       | EmptyString => EmptyString
       | String c s' => String c (replace_first pat by_ s')
       end.

(** [s.length] and [s.slice(0, n)] count UTF-16 code units.  On the bytes
    of UTF-8 text a code unit begins at every byte that is no
    continuation byte, and the first byte of a four-byte sequence begins
    two, a surrogate pair. *)
Definition isContinuation (c : ascii) : bool :=
  let n := nat_of_ascii c in ((128 <=? n) && (n <? 192))%nat.

Definition units (c : ascii) : nat :=
  let n := nat_of_ascii c in
  if (n <? 128)%nat then 1%nat
  else if (n <? 192)%nat then 0%nat
  else if (n <? 240)%nat then 1%nat
  else 2%nat.

Fixpoint length16 (s : string) : nat :=
  match s with
  | EmptyString => 0%nat
  | String c s' => (units c + length16 s')%nat
  end.

(** The byte at position [i], or the zero byte. *)
Definition byteAt (i : nat) (s : string) : ascii :=
  match String.get i s with
  | Some c => c
  | None => zero
  end.

(** The high surrogate of the character that a four-byte sequence
    encodes, alone: a slice that ends between the two code units of the
    character keeps it.  With [top] the bits of the code point above the
    tenth, the code unit is 0xD800 + (top - 64); it is written as the
    three bytes that encode it, 0xED first. *)
Definition highSurrogate (b1 b2 b3 : ascii) : string :=
  let top :=
    ((nat_of_ascii b1 mod 8) * 256 + (nat_of_ascii b2 mod 64) * 4
     + (nat_of_ascii b3 mod 64) / 16)%nat in
  let w := (top - 64)%nat in
  String (ascii_of_nat 237)
    (String (ascii_of_nat (128 + (32 + w / 64) mod 64))
       (String (ascii_of_nat (128 + w mod 64)) EmptyString)).

(** [s.slice(0, n)]. *)
Fixpoint slice16 (n : nat) (s : string) : string :=
  match s with
  | EmptyString => EmptyString
  | String c s' =>
      if isContinuation c then String c (slice16 n s')
      else
        match n with
        | O => EmptyString
        | S n' =>
            if (units c =? 2)%nat then
              match n' with
              | O => highSurrogate c (byteAt 0 s') (byteAt 1 s')
              | S n'' => String c (slice16 n'' s')
              end
            else String c (slice16 n' s')
        end
  end.

(** The regular-expression class [\s] on UTF-8 text: strip the longest
    prefix of white space.  One-byte members are TAB, LF, VT, FF, CR and
    SPACE; the others are U+00A0, U+1680, U+2000..U+200A, U+2028, U+2029,
    U+202F, U+205F, U+3000 and U+FEFF in their UTF-8 encodings. *)
Definition ws1 (c : ascii) : bool :=
  let n := nat_of_ascii c in
  ((9 <=? n) && (n <=? 13) || (n =? 32))%nat.

Definition ws2 (c1 c2 : ascii) : bool :=
  ((nat_of_ascii c1 =? 194) && (nat_of_ascii c2 =? 160))%nat.

Definition ws3 (c1 c2 c3 : ascii) : bool :=
  let a := nat_of_ascii c1 in
  let b := nat_of_ascii c2 in
  let c := nat_of_ascii c3 in
  ((a =? 225) && (b =? 154) && (c =? 128)
   || (a =? 226) && (b =? 128)
      && ((128 <=? c) && (c <=? 138) || (c =? 168) || (c =? 169) || (c =? 175))
   || (a =? 226) && (b =? 129) && (c =? 159)
   || (a =? 227) && (b =? 128) && (c =? 128)
   || (a =? 239) && (b =? 187) && (c =? 191))%nat.

Fixpoint skip_ws (s : string) : string :=
  match s with
  | EmptyString => s
  | String c1 s1 =>
      if ws1 c1 then skip_ws s1
      else match s1 with
           | EmptyString => s
           | String c2 s2 =>
               if ws2 c1 c2 then skip_ws s2
               else match s2 with
                    | EmptyString => s
                    | String c3 s3 => if ws3 c1 c2 c3 then skip_ws s3 else s
                    end
           end
  end.

(** The longest prefix whose characters satisfy [p], and the rest. *)
Fixpoint span (p : ascii -> bool) (s : string) : string * string :=
  match s with
  | EmptyString => (EmptyString, EmptyString)
  | String c s' =>
      if p c then let '(a, b) := span p s' in (String c a, b)
      else (EmptyString, s)
  end.

(** Objects used as [Record<string, string>]. *)
Definition Rec := list (string * string).

(** [o[k]]. *)
Fixpoint prop (o : Rec) (k : string) : option string :=
  match o with
  | [] => None
  | (k', v) :: o' => if (k' =? k)%string then Some v else prop o' k
  end.

(** [o[k] = v]: the value changes in place when the key exists, a new key
    goes last. *)
Fixpoint assign (o : Rec) (k v : string) : Rec :=
  match o with
  | [] => [(k, v)]
  | (k', v') :: o' =>
      if (k' =? k)%string then (k', v) :: o' else (k', v') :: assign o' k v
  end.

(** [{ ...o, ...src }] for one more source; [undefined] spreads nothing. *)
Definition spread (o : Rec) (src : option Rec) : Rec :=
  match src with
  | None => o
  | Some r => fold_left (fun acc kv => assign acc (fst kv) (snd kv)) r o
  end.

(** [Object.keys(o).length]. *)
Definition keys (o : Rec) : list string := map fst o.

(** JSON.stringify of a string: the quoted form with the escapes of
    ECMA-262 QuoteJSONString. *)
Definition hex_digit (n : nat) : ascii :=
  if (n <? 10)%nat then ascii_of_nat (48 + n) else ascii_of_nat (87 + n).

Definition escape_char (c : ascii) : string :=
  let n := nat_of_ascii c in
  if (n =? 34)%nat then bs +:+ dq
  else if (n =? 92)%nat then bs +:+ bs
  else if (n =? 8)%nat then bs +:+ "b"
  else if (n =? 12)%nat then bs +:+ "f"
  else if (n =? 10)%nat then bs +:+ "n"
  else if (n =? 13)%nat then bs +:+ "r"
  else if (n =? 9)%nat then bs +:+ "t"
  else if (n <? 32)%nat
       then bs +:+ "u00" +:+ String (hex_digit (n / 16)) (String (hex_digit (n mod 16)) EmptyString)
  else String c EmptyString.

Fixpoint escape (s : string) : string :=
  match s with
  | EmptyString => EmptyString
  | String c s' => escape_char c +:+ escape s'
  end.

Definition quote (s : string) : string := dq +:+ escape s +:+ dq.

(** A JSON value built from strings, arrays and objects: what the
    sources serialize. *)
#[local] Set Warnings "-register-all".
Inductive json : Type :=
  | JStr (s : string)
  | JArr (items : list json)
  | JObj (fields : list (string * json)).

Definition JRec (r : Rec) : json :=
  JObj (map (fun kv => (fst kv, JStr (snd kv))) r).

(** [JSON.stringify(v)]. *)
Fixpoint stringify (v : json) : string :=
  match v with
  | JStr s => quote s
  | JArr items => "[" +:+ join "," (map stringify items) +:+ "]"
  | JObj fields =>
      "{" +:+ join "," (map (fun kv => quote (fst kv) +:+ ":" +:+ stringify (snd kv)) fields) +:+ "}"
  end.

(** [JSON.stringify(v, null, 2)]: [ind] is the current indentation. *)
Fixpoint stringify_pretty (ind : string) (v : json) : string :=
  match v with
  | JStr s => quote s
  | JArr items =>
      match items with
      | [] => "[]"
      | _ =>
          let ind' := ind +:+ "  " in
          "[" +:+ nl +:+ ind'
          +:+ join ("," +:+ nl +:+ ind') (map (stringify_pretty ind') items)
          +:+ nl +:+ ind +:+ "]"
      end
  | JObj fields =>
      match fields with
      | [] => "{}"
      | _ =>
          let ind' := ind +:+ "  " in
          "{" +:+ nl +:+ ind'
          +:+ join ("," +:+ nl +:+ ind')
                (map (fun kv => quote (fst kv) +:+ ": " +:+ stringify_pretty ind' (snd kv)) fields)
          +:+ nl +:+ ind +:+ "}"
      end
  end.

End JS.

(* ================================================================== *)
(** ** types/index.ts                                                  *)
(* ================================================================== *)

Module Types.

Record RepoAnalysis := {
  framework : string;
  packageManager : string;
  backendType : string;
  hasDocker : bool;
  envVarsDetected : list string;
  buildScript : option string;
  missingConfigs : list string;
  deploymentRiskScore : Z;
  description : string;
}.

Inductive AgentStepStatus := pending | running | done | error.

Inductive Provider := openai | blackbox | template.

End Types.

Import Types.

(* ================================================================== *)
(** ** lib/github.ts: the read-only accessor                           *)
(* ================================================================== *)

(** One entry of a directory listing. *)
Record DirEntry := { entry_type : string; entry_path : string }.

(** What [getRepoContents] gives for a path that exists: the listing of a
    directory, or the record of a single file. *)
Inductive RepoContents :=
  | Listing (entries : list DirEntry)
  | SingleFile (path content : string).

(** [GitHubClient] for a fixed owner and repository.  Both methods fail
    soft in the source (every error is caught and gives [null]), so a
    client is a pair of total functions of the path.  [getFileContent]
    is also called with [args.path] of a tool call, which may be
    [undefined]: its path is an [option]. *)
Record GitHubClient := {
  getFileContent : option string -> option string;
  getRepoContents : string -> option RepoContents;
}.

(* ================================================================== *)
(** ** lib/analyzer.ts                                                 *)
(* ================================================================== *)

Record PackageJson := {
  dependencies : option JS.Rec;
  devDependencies : option JS.Rec;
  scripts : option JS.Rec;
}.

(** [packageJson?.scripts?.name]. *)
Definition script (packageJson : option PackageJson) (name : string) : option string :=
  match packageJson with
  | Some pj => match scripts pj with Some s => JS.prop s name | None => None end
  | None => None
  end.

(** [{ ...packageJson.dependencies, ...packageJson.devDependencies }]. *)
Definition mergedDeps (pj : PackageJson) : JS.Rec :=
  JS.spread (JS.spread [] (dependencies pj)) (devDependencies pj).

(** [!packageJson?.dependencies && !packageJson?.devDependencies]. *)
Definition noDependencyMaps (packageJson : option PackageJson) : bool :=
  match packageJson with
  | None => true
  | Some pj =>
      match dependencies pj, devDependencies pj with
      | None, None => true
      | _, _ => false
      end
  end.

(** [JSON.stringify(packageJson || {})].  A manifest is modelled by the
    three members the analyzer reads, written in the order they are
    declared: the text is that of the source for a manifest without
    other members, and the search for next.config in it agrees with the
    source for every manifest whose other members do not hold that
    text. *)
Definition PackageJson_to_json (pj : PackageJson) : JS.json :=
  let member (k : string) (o : option JS.Rec) :=
    match o with Some r => [(k, JS.JRec r)] | None => [] end in
  JS.JObj (member "dependencies" (dependencies pj)
           ++ member "devDependencies" (devDependencies pj)
           ++ member "scripts" (scripts pj)).

Definition stringifyPackageJson (packageJson : option PackageJson) : string :=
  match packageJson with
  | Some pj => JS.stringify (PackageJson_to_json pj)
  | None => JS.stringify (JS.JObj [])
  end.

Definition detectFramework (packageJson : option PackageJson) : string :=
  match packageJson with
  | None => "Unknown"
  | Some pj =>
      if noDependencyMaps packageJson then "Unknown"
      else
        let deps := mergedDeps pj in
        let has k := JS.truthyOpt (JS.prop deps k) in
        if has "next" then "Next.js"
        else if has "react" then "React"
        else if has "vue" then "Vue"
        else if has "svelte" then "Svelte"
        else if has "nuxt" then "Nuxt"
        else if has "gatsby" then "Gatsby"
        else if has "remix" then "Remix"
        else if has "astro" then "Astro"
        else "Node.js"
  end.

Definition detectPackageManager (packageJson : option PackageJson) : string :=
  match packageJson with
  | None => "npm"
  | Some _ => "npm"
  end.

Definition detectBackendType (packageJson : option PackageJson) : string :=
  match packageJson with
  | None => "Frontend"
  | Some pj =>
      if noDependencyMaps packageJson then "Frontend"
      else
        let deps := mergedDeps pj in
        let has k := JS.truthyOpt (JS.prop deps k) in
        if has "express" then "Express"
        else if has "fastify" then "Fastify"
        else if has "hapi" then "Hapi"
        else if has "koa" then "Koa"
        else if has "@nestjs/core" then "NestJS"
        else if has "fastapi" then "FastAPI"
        else if has "rails" then "Rails"
        else if has "django" then "Django"
        else "Frontend"
  end.

Definition checkMissingConfigs
    (packageJson : option PackageJson) (framework : string) (hasDocker : bool)
    : list string :=
  let missing := [] in
  let missing :=
    if negb (JS.truthyOpt (script packageJson "build"))
    then missing ++ ["build script"] else missing in
  let missing :=
    if negb (JS.truthyOpt (script packageJson "start"))
    then missing ++ ["start script"] else missing in
  let missing :=
    if negb hasDocker && negb (JS.truthyOpt (script packageJson "dev"))
    then missing ++ ["dev script"] else missing in
  if (framework =? "Next.js")%string then
    let content := stringifyPackageJson packageJson in
    if negb (JS.includes content "next.config")
    then missing ++ ["next.config.js"] else missing
  else missing.

Record RiskParams := {
  rp_framework : string;
  rp_buildScript : option string;
  rp_hasDocker : bool;
  rp_envVarsCount : Z;
  rp_missingConfigsCount : Z;
}.

Definition calculateRiskScore (params : RiskParams) : Z :=
  let score := 0%Z in
  let score := if negb (JS.truthyOpt (rp_buildScript params)) then (score + 20)%Z else score in
  let score := if negb (rp_hasDocker params) then (score + 10)%Z else score in
  let score :=
    if (rp_missingConfigsCount params >? 0)%Z
    then (score + rp_missingConfigsCount params * 5)%Z else score in
  let score := if (rp_envVarsCount params >? 5)%Z then (score + 15)%Z else score in
  Z.min score 100.

(** The line pattern of [detectEnvVars]: at the start of the line one of
    A..Z or underscore, then any number of A..Z, 0..9 or underscore (the
    captured name), then any white space, then an equals sign.  The three
    parts range over disjoint characters, so the greedy match never
    backtracks. *)
Definition isUpper (c : ascii) : bool :=
  let n := nat_of_ascii c in ((65 <=? n) && (n <=? 90))%nat.
Definition isDigit (c : ascii) : bool :=
  let n := nat_of_ascii c in ((48 <=? n) && (n <=? 57))%nat.
Definition isUnderscore (c : ascii) : bool := (nat_of_ascii c =? 95)%nat.
Definition isNameStart (c : ascii) : bool := isUpper c || isUnderscore c.
Definition isNameChar (c : ascii) : bool := isUpper c || isDigit c || isUnderscore c.

Definition matchEnvLine (line : string) : option string :=
  match line with
  | EmptyString => None
  | String c rest =>
      if isNameStart c then
        let '(name, after) := JS.span isNameChar rest in
        match JS.skip_ws after with
        | String e _ => if (nat_of_ascii e =? 61)%nat then Some (String c name) else None
        | EmptyString => None
        end
      else None
  end.

(** [vars.add(name)] on a [Set] kept in insertion order. *)
Definition Set_add (vars : list string) (name : string) : list string :=
  if existsb (String.eqb name) vars then vars else vars ++ [name].

Definition envFiles : list string := [".env.example"; ".env.local"; ".env"].

Section Analyzer.

(** [JSON.parse] at the type [PackageJson]; [None] when it throws or
    gives [null]. *)
Variable JSON_parse : string -> option PackageJson.
Variable client : GitHubClient.

Definition getPackageJson : option PackageJson :=
  match getFileContent client (Some "package.json") with
  | None => None
  | Some content => if JS.truthy content then JSON_parse content else None
  end.

Definition hasDockerfile : bool :=
  match getFileContent client (Some "Dockerfile") with
  | None => false
  | Some _ => true
  end.

Definition detectEnvVars : list string :=
  fold_left
    (fun vars file =>
       match getFileContent client (Some file) with
       | Some content =>
           if JS.truthy content then
             fold_left
               (fun vars line =>
                  match matchEnvLine line with
                  | Some name => Set_add vars name
                  | None => vars
                  end)
               (JS.split_lines content) vars
           else vars
       | None => vars
       end)
    envFiles [].

Definition analyze : RepoAnalysis :=
  let packageJson := getPackageJson in
  let hasDocker := hasDockerfile in
  let envVars := detectEnvVars in
  let framework := detectFramework packageJson in
  let packageManager := detectPackageManager packageJson in
  let backendType := detectBackendType packageJson in
  let buildScript :=
    match script packageJson "build" with
    | Some s => if JS.truthy s then Some s else None
    | None => None
    end in
  let missingConfigs := checkMissingConfigs packageJson framework hasDocker in
  let riskScore :=
    calculateRiskScore
      {| rp_framework := framework;
         rp_buildScript := buildScript;
         rp_hasDocker := hasDocker;
         rp_envVarsCount := Z.of_nat (length envVars);
         rp_missingConfigsCount := Z.of_nat (length missingConfigs) |} in
  {| framework := framework;
     packageManager := packageManager;
     backendType := backendType;
     hasDocker := hasDocker;
     envVarsDetected := envVars;
     buildScript := buildScript;
     missingConfigs := missingConfigs;
     deploymentRiskScore := riskScore;
     description :=
       framework +:+ " project with " +:+ packageManager +:+ " and " +:+ backendType |}.

End Analyzer.

(** A repository given by its files: every other path is absent. *)
Definition clientOfFiles (files : JS.Rec) : GitHubClient :=
  {| getFileContent :=
       fun path => match path with Some p => JS.prop files p | None => None end;
     getRepoContents := fun _ => None |}.

Definition manifest_next_text : string :=
  "{" +:+ JS.quote "dependencies" +:+ ":{" +:+ JS.quote "next" +:+ ":"
  +:+ JS.quote "14.0.0" +:+ "}}".

Definition manifest_next : PackageJson :=
  {| dependencies := Some [("next", "14.0.0")]; devDependencies := None; scripts := None |}.

Definition env_sample : string :=
  "API_KEY=123" +:+ JS.nl +:+ "malformed line" +:+ JS.nl +:+ "DB_HOST=localhost".


(* ================================================================== *)
(** ** lib/generators/vercel-config.ts                                 *)
(* ================================================================== *)

Definition getOutputDirectory (framework : string) : string :=
  if (framework =? "Next.js")%string then ".next"
  else if (framework =? "React")%string || (framework =? "Vite")%string then "dist"
  else if (framework =? "Gatsby")%string then "public"
  else if (framework =? "Nuxt")%string then "dist"
  else "dist".

Definition getFrameworkConfig (framework : string) : string :=
  if (framework =? "Next.js")%string then "nextjs"
  else if (framework =? "React")%string then "react"
  else if (framework =? "Vue")%string then "vue"
  else if (framework =? "Svelte")%string then "svelte"
  else if (framework =? "Astro")%string then "astro"
  else "".

(** The [reduce] of [generateVercelConfig]: [acc[envVar] = "@" + envVar]. *)
Definition envPlaceholders (envVars : list string) : JS.Rec :=
  fold_left (fun acc envVar => JS.assign acc envVar ("@" +:+ envVar)) envVars [].

(** The object [generateVercelConfig] serializes. *)
Definition vercelConfigObject (analysis : RepoAnalysis) : list (string * JS.json) :=
  let config :=
    [ ("buildCommand",
       JS.JStr
         match buildScript analysis with
         | Some s =>
             if JS.truthy s
             then "npm run " +:+ JS.replace_first "npm run " "" s
             else "npm run build"
         | None => "npm run build"
         end);
      ("outputDirectory", JS.JStr (getOutputDirectory (framework analysis)));
      ("framework", JS.JStr (getFrameworkConfig (framework analysis))) ] in
  if (0 <? length (envVarsDetected analysis))%nat
  then config ++ [("env", JS.JRec (envPlaceholders (envVarsDetected analysis)))]
  else config.

Definition generateVercelConfig (analysis : RepoAnalysis) : string :=
  JS.stringify_pretty "" (JS.JObj (vercelConfigObject analysis)).

(** The object [generateVercelJsonFile] serializes for Next.js, after the
    [undefined] members are filtered out. *)
Definition vercelJsonFileObject (analysis : RepoAnalysis) : list (string * JS.json) :=
  (if JS.truthyOpt (buildScript analysis)
   then [("buildCommand", JS.JStr "npm run build")] else [])
  ++ [ ("outputDirectory", JS.JStr ".next");
       ("installCommand", JS.JStr "npm install");
       ("devCommand", JS.JStr "npm run dev");
       ("framework", JS.JStr "nextjs") ].

Definition generateVercelJsonFile (analysis : RepoAnalysis) : string :=
  if negb (framework analysis =? "Next.js")%string then ""
  else JS.stringify_pretty "" (JS.JObj (vercelJsonFileObject analysis)).

Definition generatePackageJsonScripts (analysis : RepoAnalysis) : JS.Rec :=
  let scripts : JS.Rec := [] in
  if negb (JS.truthyOpt (buildScript analysis)) then
    if (framework analysis =? "Next.js")%string then
      [("build", "next build"); ("start", "next start"); ("dev", "next dev")]
    else if (framework analysis =? "React")%string then
      [("build", "vite build"); ("start", "npm run build && npm run preview"); ("dev", "vite")]
    else scripts
  else scripts.

(* ================================================================== *)
(** ** lib/generators/env-template.ts                                  *)
(* ================================================================== *)

Definition getEnvVarHint (envVar : string) : string :=
  let lowerVar := JS.toLowerCase envVar in
  if JS.includes lowerVar "key" then "your-key-here"
  else if JS.includes lowerVar "secret" then "your-secret-here"
  else if JS.includes lowerVar "url" || JS.includes lowerVar "uri" then "https://example.com"
  else if JS.includes lowerVar "token" then "your-token-here"
  else if JS.includes lowerVar "id" then "your-id-here"
  else if JS.includes lowerVar "password" || JS.includes lowerVar "pwd" then "your-password-here"
  else if JS.includes lowerVar "host" || JS.includes lowerVar "db" then "localhost"
  else if JS.includes lowerVar "port" then "3000"
  else if JS.includes lowerVar "env" then "development"
  else "".

Definition generateEnvTemplate (analysis : RepoAnalysis) : string :=
  if (length (envVarsDetected analysis) =? 0)%nat then
    "# Add your environment variables here" +:+ JS.nl
  else
    let lines :=
      map (fun envVar => envVar +:+ "=" +:+ getEnvVarHint envVar)
          (envVarsDetected analysis) in
    "# Environment variables" +:+ JS.nl
    +:+ "# Copy this file to .env.local and fill in the values" +:+ JS.nl +:+ JS.nl
    +:+ JS.join JS.nl lines
    +:+ JS.nl.

(* ================================================================== *)
(** ** lib/generators/landing.ts                                       *)
(* ================================================================== *)

Definition generateLandingPage
    (repoName : string) (analysis : RepoAnalysis) (description' : option string)
    : string :=
  "<!DOCTYPE html>
<html lang=" +:+ JS.dq +:+ "en" +:+ JS.dq +:+ ">
<head>
  <meta charset=" +:+ JS.dq +:+ "UTF-8" +:+ JS.dq +:+ ">
  <meta name=" +:+ JS.dq +:+ "viewport" +:+ JS.dq +:+ " content=" +:+ JS.dq +:+ "width=device-width, initial-scale=1.0" +:+ JS.dq +:+ ">
  <title>"
  +:+ repoName
  +:+ "</title>
  <style>
    * {
      margin: 0;
      padding: 0;
      box-sizing: border-box;
    }

    body {
      font-family: -apple-system, BlinkMacSystemFont, 'Segoe UI', Roboto, Oxygen, Ubuntu, Cantarell, sans-serif;
      line-height: 1.6;
      color: #333;
      background: linear-gradient(135deg, #667eea 0%, #764ba2 100%);
      min-height: 100vh;
    }

    header {
      background: rgba(0, 0, 0, 0.5);
      backdrop-filter: blur(10px);
      color: white;
      padding: 1rem 0;
      position: sticky;
      top: 0;
      z-index: 100;
    }

    nav {
      max-width: 1200px;
      margin: 0 auto;
      padding: 0 2rem;
      display: flex;
      justify-content: space-between;
      align-items: center;
    }

    nav h1 {
      font-size: 1.5rem;
      font-weight: bold;
    }

    nav a {
      color: white;
      text-decoration: none;
      margin-left: 2rem;
      transition: opacity 0.3s;
    }

    nav a:hover {
      opacity: 0.8;
    }

    .hero {
      max-width: 1200px;
      margin: 0 auto;
      padding: 6rem 2rem;
      text-align: center;
      color: white;
    }

    .hero h1 {
      font-size: 3.5rem;
      margin-bottom: 1rem;
      font-weight: bold;
    }

    .hero p {
      font-size: 1.25rem;
      margin-bottom: 2rem;
      opacity: 0.9;
    }

    .cta-buttons {
      display: flex;
      gap: 1rem;
      justify-content: center;
      margin-top: 2rem;
    }

    .btn {
      padding: 0.75rem 2rem;
      font-size: 1rem;
      border: none;
      border-radius: 0.5rem;
      cursor: pointer;
      font-weight: 600;
      transition: all 0.3s;
      text-decoration: none;
      display: inline-block;
    }

    .btn-primary {
      background: white;
      color: #667eea;
    }

    .btn-primary:hover {
      transform: translateY(-2px);
      box-shadow: 0 10px 20px rgba(0, 0, 0, 0.2);
    }

    .btn-secondary {
      background: transparent;
      color: white;
      border: 2px solid white;
    }

    .btn-secondary:hover {
      background: white;
      color: #667eea;
    }

    .features {
      background: white;
      padding: 4rem 2rem;
    }

    .features-container {
      max-width: 1200px;
      margin: 0 auto;
    }

    .features h2 {
      text-align: center;
      font-size: 2.5rem;
      margin-bottom: 3rem;
      color: #333;
    }

    .features-grid {
      display: grid;
      grid-template-columns: repeat(auto-fit, minmax(300px, 1fr));
      gap: 2rem;
    }

    .feature-card {
      padding: 2rem;
      background: #f8f9fa;
      border-radius: 0.5rem;
      box-shadow: 0 4px 6px rgba(0, 0, 0, 0.1);
    }

    .feature-card h3 {
      font-size: 1.5rem;
      margin-bottom: 1rem;
      color: #667eea;
    }

    .feature-card p {
      color: #666;
    }

    .tech-stack {
      background: #f8f9fa;
      padding: 2rem;
      border-radius: 0.5rem;
      margin: 2rem 0;
    }

    .tech-stack h3 {
      margin-bottom: 1rem;
      color: #333;
    }

    .tech-badges {
      display: flex;
      gap: 0.5rem;
      flex-wrap: wrap;
    }

    .badge {
      background: #667eea;
      color: white;
      padding: 0.5rem 1rem;
      border-radius: 0.25rem;
      font-size: 0.875rem;
      font-weight: 600;
    }

    footer {
      background: rgba(0, 0, 0, 0.5);
      color: white;
      text-align: center;
      padding: 2rem;
      margin-top: 4rem;
    }
  </style>
</head>
<body>
  <header>
    <nav>
      <h1>"
  +:+ repoName
  +:+ "</h1>
      <div>
        <a href=" +:+ JS.dq +:+ "#features" +:+ JS.dq +:+ ">Features</a>
        <a href=" +:+ JS.dq +:+ "#tech" +:+ JS.dq +:+ ">Tech Stack</a>
      </div>
    </nav>
  </header>

  <section class=" +:+ JS.dq +:+ "hero" +:+ JS.dq +:+ ">
    <h1>"
  +:+ repoName
  +:+ "</h1>
    <p>"
  +:+ JS.or_else description' (description analysis)
  +:+ "</p>
    <div class=" +:+ JS.dq +:+ "cta-buttons" +:+ JS.dq +:+ ">
      <a href=" +:+ JS.dq +:+ "https://github.com" +:+ JS.dq +:+ " class=" +:+ JS.dq +:+ "btn btn-primary" +:+ JS.dq +:+ ">View on GitHub</a>
      <a href=" +:+ JS.dq +:+ "#" +:+ JS.dq +:+ " class=" +:+ JS.dq +:+ "btn btn-secondary" +:+ JS.dq +:+ ">Get Started</a>
    </div>
  </section>

  <section class=" +:+ JS.dq +:+ "features" +:+ JS.dq +:+ ">
    <div class=" +:+ JS.dq +:+ "features-container" +:+ JS.dq +:+ ">
      <h2 id=" +:+ JS.dq +:+ "features" +:+ JS.dq +:+ ">Features</h2>
      <div class=" +:+ JS.dq +:+ "features-grid" +:+ JS.dq +:+ ">
        <div class=" +:+ JS.dq +:+ "feature-card" +:+ JS.dq +:+ ">
          <h3>⚡ Fast</h3>
          <p>Optimized for performance with modern best practices</p>
        </div>
        <div class=" +:+ JS.dq +:+ "feature-card" +:+ JS.dq +:+ ">
          <h3>🔧 Flexible</h3>
          <p>Easy to configure and extend for your needs</p>
        </div>
        <div class=" +:+ JS.dq +:+ "feature-card" +:+ JS.dq +:+ ">
          <h3>📦 Production Ready</h3>
          <p>Deploy with confidence to production environments</p>
        </div>
      </div>

      <div id=" +:+ JS.dq +:+ "tech" +:+ JS.dq +:+ " class=" +:+ JS.dq +:+ "tech-stack" +:+ JS.dq +:+ ">
        <h3>Tech Stack</h3>
        <div class=" +:+ JS.dq +:+ "tech-badges" +:+ JS.dq +:+ ">
          <span class=" +:+ JS.dq +:+ "badge" +:+ JS.dq +:+ ">"
  +:+ framework analysis
  +:+ "</span>
          <span class=" +:+ JS.dq +:+ "badge" +:+ JS.dq +:+ ">"
  +:+ packageManager analysis
  +:+ "</span>
          <span class=" +:+ JS.dq +:+ "badge" +:+ JS.dq +:+ ">"
  +:+ backendType analysis
  +:+ "</span>
          "
  +:+ (if hasDocker analysis then "<span class=" +:+ JS.dq +:+ "badge" +:+ JS.dq +:+ ">Docker</span>" else "")
  +:+ "
        </div>
      </div>
    </div>
  </section>

  <footer>
    <p>&copy; 2024 "
  +:+ repoName
  +:+ ". Built with Shipwright.</p>
  </footer>
</body>
</html>".

(* ================================================================== *)
(** ** Promises and agent runs                                         *)
(* ================================================================== *)

(** How an awaited call ends. *)
Inductive Completion (A : Type) : Type :=
  | Return (a : A)
  | Throw (err : string).
Arguments Return {A} a.
Arguments Throw {A} err.

(** What the orchestrator sees of one agent run: the calls of the
    progress callback [(label, detail)] in order, then the result or the
    exception. *)
Record AgentRun (R : Type) := {
  progress : list (string * option string);
  outcome : Completion R;
}.
Arguments progress {R} _.
Arguments outcome {R} _.

(* ================================================================== *)
(** ** The regular expressions of parseAgentResponse                   *)
(* ================================================================== *)

Module RE.

(** Match [pat] (lower-case letters and other ASCII) at the start of [s]
    under the flag [i]. *)
Fixpoint prefix_ci (pat s : string) : bool :=
  match pat, s with
  | EmptyString, _ => true
  | String p pat', String c s' => Ascii.eqb (JS.lower_ascii c) p && prefix_ci pat' s'
  | String _ _, EmptyString => false
  end.

(** The leftmost start position at which [m] matches. *)
Fixpoint search {A : Type} (m : string -> option A) (s : string) : option A :=
  match m s with
  | Some a => Some a
  | None =>
      match s with
      | EmptyString => None
      | String _ s' => search m s'
      end
  end.

(** The text before and after the first occurrence of [sep]. *)
Fixpoint split_at (sep s : string) : option (string * string) :=
  if String.prefix sep s then Some (EmptyString, JS.drop (String.length sep) s)
  else match s with
       | EmptyString => None
       | String c s' =>
           match split_at sep s' with
           | Some (a, b) => Some (String c a, b)
           | None => None
           end
       end.

(** The longest run of characters that are white space or satisfy [p],
    one entry per character (a white-space character may take up to three
    bytes), and the rest of the text. *)
Fixpoint class_run (p : ascii -> bool) (s : string) : list string * string :=
  match s with
  | EmptyString => ([], s)
  | String c1 s1 =>
      if p c1 || JS.ws1 c1 then
        let '(r, t) := class_run p s1 in (String c1 EmptyString :: r, t)
      else match s1 with
           | EmptyString => ([], s)
           | String c2 s2 =>
               if JS.ws2 c1 c2 then
                 let '(r, t) := class_run p s2 in
                 (String c1 (String c2 EmptyString) :: r, t)
               else match s2 with
                    | EmptyString => ([], s)
                    | String c3 s3 =>
                        if JS.ws3 c1 c2 c3 then
                          let '(r, t) := class_run p s3 in
                          (String c1 (String c2 (String c3 EmptyString)) :: r, t)
                        else ([], s)
                    end
           end
  end.

(** [s.trim()]. *)
Definition blank (s : string) : bool := negb (JS.truthy (JS.skip_ws s)).

Fixpoint trimEnd (s : string) : string :=
  match s with
  | EmptyString => EmptyString
  | String c s' => if blank s then EmptyString else String c (trimEnd s')
  end.

Definition trim (s : string) : string := trimEnd (JS.skip_ws s).

(** [s.split(/[,\n]/)]. *)
Fixpoint split_on_aux (p : ascii -> bool) (cur s : string) : list string :=
  match s with
  | EmptyString => [String.rev cur]
  | String c s' =>
      if p c then String.rev cur :: split_on_aux p EmptyString s'
      else split_on_aux p (String c cur) s'
  end.

Definition split_on (p : ascii -> bool) (s : string) : list string :=
  split_on_aux p EmptyString s.

Definition charIs (n : nat) (c : ascii) : bool := (nat_of_ascii c =? n)%nat.
Definition isNewline := charIs 10.
Definition isQuote := charIs 34.
Definition isColon := charIs 58.
Definition isOpenBracket := charIs 91.
Definition isCloseBracket := charIs 93.

(** The last entry of [l] that satisfies [ok]. *)
Definition last_such (ok : string -> bool) (l : list string) : option string :=
  fold_left (fun acc ch => if ok ch then Some ch else acc) l None.

End RE.

(* ================================================================== *)
(** ** lib/agents/openai-agent.ts                                      *)
(* ================================================================== *)

Module OpenAIAgent.

(** One entry of [message.tool_calls]; [fn_name] and [fn_arguments] are
    [function.name] and [function.arguments]. *)
Record ToolCall := {
  tc_id : string;
  tc_type : string;
  fn_name : string;
  fn_arguments : string;
}.

(** [response.choices[0].message]. *)
Record AssistantMessage := {
  content : option string;
  tool_calls : option (list ToolCall);
}.

(** The transcript. *)
Inductive Message :=
  | SystemMessage (text : string)
  | UserMessage (text : string)
  | AssistantTurn (message : AssistantMessage)
  | ToolMessage (tool_call_id text : string).

Record OpenAIAgentResult := {
  readme : string;
  landingPageCopy : string;
  deploymentRecommendations : list string;
  enhancedDescription : string;
}.

Definition maxIterations : nat := 8.

Definition executeTool (name : string) (args : JS.Rec) (github : GitHubClient) : string :=
  if (name =? "read_repo_file")%string then
    let notFound :=
      "File not found: "
      +:+ match JS.prop args "path" with Some p => p | None => "undefined" end in
    match getFileContent github (JS.prop args "path") with
    | Some text =>
        if JS.truthy text then
          if (3000 <? JS.length16 text)%nat
          then JS.slice16 3000 text +:+ JS.nl +:+ "...[truncated]"
          else text
        else notFound
    | None => notFound
    end
  else if (name =? "list_repo_files")%string then
    match getRepoContents github (JS.or_else (JS.prop args "path") "") with
    | Some (Listing contents) =>
        JS.join JS.nl
          (map (fun f =>
                  (if (entry_type f =? "dir")%string then "📁" else "📄")
                  +:+ " " +:+ entry_path f)
               contents)
    | Some (SingleFile _ _) => "Directory not found or empty"
    | None => "Directory not found or empty"
    end
  else "Unknown tool".

Definition systemPrompt (owner repo : string) (analysis : RepoAnalysis) : string :=
  "You are Shipwright AI, an expert developer assistant that helps ship GitHub repositories to production.

You have access to tools to read files from the repository " +:+ JS.dq
  +:+ owner
  +:+ "/"
  +:+ repo
  +:+ JS.dq +:+ ".
Use them to understand the actual codebase before generating content.

Repository analysis already done:
- Framework: "
  +:+ framework analysis
  +:+ "
- Package Manager: "
  +:+ packageManager analysis
  +:+ "
- Backend: "
  +:+ backendType analysis
  +:+ "
- Has Docker: "
  +:+ JS.String_of_bool (hasDocker analysis)
  +:+ "
- Env vars detected: "
  +:+ JS.or_else (Some (JS.join ", " (envVarsDetected analysis))) "none"
  +:+ "
- Missing configs: "
  +:+ JS.or_else (Some (JS.join ", " (missingConfigs analysis))) "none"
  +:+ "
- Risk score: "
  +:+ JS.String_of_Z (deploymentRiskScore analysis)
  +:+ "/100

Your job:
1. Explore the repo (read key files like README, main entry points, config files)
2. Generate a professional, accurate README.md
3. Generate compelling landing page copy (hero headline, subheadline, 3 feature bullets)
4. Provide 3 specific deployment recommendations

Be concise and cost-efficient with tool calls — max 5 tool calls total.".

Definition userPrompt (owner repo : string) : string :=
  "Analyze the repository " +:+ JS.dq
  +:+ owner
  +:+ "/"
  +:+ repo
  +:+ JS.dq +:+ " and generate:
1. A professional README.md (markdown format)
2. Landing page copy: { headline, subheadline, features: [3 items] }
3. Three deployment recommendations

Start by exploring the repo structure, then read 1-2 key files.".

Definition generateFallbackReadme (analysis : RepoAnalysis) (repoName : string) : string :=
  "# "
  +:+ repoName
  +:+ "

"
  +:+ description analysis
  +:+ "

## Tech Stack
- **Framework**: "
  +:+ framework analysis
  +:+ "
- **Package Manager**: "
  +:+ packageManager analysis
  +:+ "
- **Backend**: "
  +:+ backendType analysis
  +:+ "

## Getting Started

```bash
"
  +:+ packageManager analysis
  +:+ " install
"
  +:+ packageManager analysis
  +:+ " run dev
```

## Deployment

Deploy to Vercel with one click. Ensure all environment variables are configured.
".

Definition generateFallbackResult (analysis : RepoAnalysis) (repoName : string)
    : OpenAIAgentResult :=
  {| readme := generateFallbackReadme analysis repoName;
     landingPageCopy :=
       JS.stringify
         (JS.JObj
            [ ("headline", JS.JStr ("Ship " +:+ repoName +:+ " to production"));
              ("subheadline", JS.JStr (framework analysis +:+ " app ready for deployment"));
              ("features",
               JS.JArr [JS.JStr "Fast deployment"; JS.JStr "Production ready";
                        JS.JStr "Easy configuration"]) ]);
     deploymentRecommendations :=
       [ "Ensure all environment variables are configured";
         "Run `" +:+ packageManager analysis +:+ " run build` before deploying";
         "Set NODE_ENV=production in your deployment environment" ];
     enhancedDescription := description analysis |}.

(** *** parseAgentResponse *)

(** The fenced README: three backquotes, the word markdown in any case
    and a line feed, then lazily anything up to the next three
    backquotes.  The result is the whole match and the captured body. *)
Definition fenceOpen : string := "```markdown" +:+ JS.nl.

Definition matchFence (s : string) : option (string * string) :=
  if RE.prefix_ci fenceOpen s then
    match RE.split_at "```" (JS.drop (String.length fenceOpen) s) with
    | Some (body, _) =>
        Some (substring 0 (String.length fenceOpen) s +:+ body +:+ "```", body)
    | None => None
    end
  else None.

(** No character, or a line terminator (LF, CR, U+2028, U+2029), comes
    first: the dot of a pattern does not match there. *)
Definition noDotAt (s : string) : bool :=
  match s with
  | EmptyString => true
  | String c1 s1 =>
      RE.charIs 10 c1 || RE.charIs 13 c1
      || match s1 with
         | String c2 (String c3 _) =>
             RE.charIs 226 c1 && RE.charIs 128 c2 && (RE.charIs 168 c3 || RE.charIs 169 c3)
         | _ => false
         end
  end.

(** The heading: a hash, a space, one character or more on the line, then
    everything to the end of the text. *)
Definition matchHeading (s : string) : option string :=
  match s with
  | String h (String sp t) =>
      if RE.charIs 35 h && RE.charIs 32 sp && negb (noDotAt t) then Some s else None
  | _ => None
  end.

(** A label in any case, then one or more of colon, white space and
    double quote, then the capture: one or more characters other than
    line feed and double quote.  When the run of separators reaches the
    end of the text the match backtracks, and the capture is the last
    separator after the first that the capture admits. *)
Definition matchLabelled (label : string) (s : string) : option string :=
  if RE.prefix_ci label s then
    let '(run, rest) :=
      RE.class_run (fun c => RE.isColon c || RE.isQuote c)
                   (JS.drop (String.length label) s) in
    match run with
    | [] => None
    | _ :: later =>
        match rest with
        | String _ _ =>
            Some (fst (JS.span (fun c => negb (RE.isNewline c || RE.isQuote c)) rest))
        | EmptyString =>
            RE.last_such
              (fun ch => negb (ch =? JS.nl)%string && negb (ch =? JS.dq)%string) later
        end
    end
  else None.

(** The word feature in any case with an optional s, then one or more of
    colon, white space and opening bracket, then the capture: one or more
    characters other than the closing bracket.  When the run of
    separators is followed by a closing bracket or by the end of the
    text, the capture is the last separator after the first. *)
Definition matchFeatures (s : string) : option string :=
  if RE.prefix_ci "feature" s then
    let t := JS.drop 7 s in
    let t :=
      match t with
      | String c t' => if RE.charIs 115 (JS.lower_ascii c) then t' else t
      | EmptyString => t
      end in
    let '(run, rest) := RE.class_run (fun c => RE.isColon c || RE.isOpenBracket c) t in
    match run with
    | [] => None
    | _ :: later =>
        let backtrack := last later in
        match rest with
        | String c _ =>
            if RE.isCloseBracket c then backtrack
            else Some (fst (JS.span (fun c => negb (RE.isCloseBracket c)) rest))
        | EmptyString => backtrack
        end
    end
  else None.

(** The longest prefix of [l] that ends with an entry satisfying [ok]. *)
Fixpoint upto_last (ok : string -> bool) (l : list string) : option (list string) :=
  match l with
  | [] => None
  | x :: l' =>
      match upto_last ok l' with
      | Some r => Some (x :: r)
      | None => if ok x then Some [x] else None
      end
  end.

(** One numbered line: a digit, a dot, one or more white-space
    characters, then one or more characters other than line feed.  The
    result is the whole match. *)
Definition matchRec (s : string) : option string :=
  match s with
  | String d (String dot t) =>
      if isDigit d && RE.charIs 46 dot then
        let '(run, rest) := RE.class_run (fun _ => false) t in
        match run with
        | [] => None
        | first :: later =>
            match rest with
            | String _ _ =>
                Some (String d (String dot
                        (JS.join "" run
                         +:+ fst (JS.span (fun c => negb (RE.isNewline c)) rest))))
            | EmptyString =>
                match upto_last (fun ch => negb (ch =? JS.nl)%string) later with
                | Some r => Some (String d (String dot (first +:+ JS.join "" r)))
                | None => None
                end
            end
        end
      else None
  | _ => None
  end.

(** [content.match(re)] with the flag [g]: every match from left to
    right, the search resuming where the last match ended.  [skip] counts
    the characters of the last match still to pass. *)
Fixpoint matchAll (m : string -> option string) (skip : nat) (s : string) : list string :=
  match s with
  | EmptyString => []
  | String _ s' =>
      match skip with
      | S k => matchAll m k s'
      | O =>
          match m s with
          | Some m0 => m0 :: matchAll m (String.length m0 - 1) s'
          | None => matchAll m 0 s'
          end
      end
  end.

Definition parseAgentResponse
    (text : string) (analysis : RepoAnalysis) (repoName : string)
    : OpenAIAgentResult :=
  let readme :=
    match RE.search matchFence text with
    | Some (m0, m1) => if JS.truthy m1 then m1 else m0
    | None =>
        match RE.search matchHeading text with
        | Some m0 => m0
        | None => generateFallbackReadme analysis repoName
        end
    end in
  let headlineMatch := RE.search (matchLabelled "headline") text in
  let subheadlineMatch := RE.search (matchLabelled "subheadline") text in
  let featuresMatch := RE.search matchFeatures text in
  let landingPageCopy :=
    JS.stringify
      (JS.JObj
         [ ("headline",
            JS.JStr (JS.or_else (option_map RE.trim headlineMatch)
                                ("Ship " +:+ repoName +:+ " to production")));
           ("subheadline",
            JS.JStr (JS.or_else (option_map RE.trim subheadlineMatch)
                                (framework analysis +:+ " app ready for deployment")));
           ("features",
            JS.JArr
              (map JS.JStr
                 match featuresMatch with
                 | Some m1 =>
                     map RE.trim
                       (firstn 3
                          (RE.split_on (fun c => RE.charIs 44 c || RE.isNewline c) m1))
                 | None => ["Fast deployment"; "Production ready"; "Easy configuration"]
                 end)) ]) in
  let recMatches := matchAll matchRec 0 text in
  let deploymentRecommendations :=
    map (fun r => RE.trim (JS.skip_ws (JS.drop 2 r))) (firstn 3 recMatches) in
  {| readme := RE.trim readme;
     landingPageCopy := landingPageCopy;
     deploymentRecommendations :=
       if (0 <? length deploymentRecommendations)%nat
       then deploymentRecommendations
       else
         [ "Ensure all environment variables are set in your deployment platform";
           "Run `" +:+ packageManager analysis +:+ " run build` before deploying";
           "Set NODE_ENV=production in your deployment environment" ];
     enhancedDescription :=
       framework analysis +:+ " application — " +:+ description analysis |}.

(** *** runOpenAIAgent *)

(** The state of one run: the transcript, the round counter and the
    progress callbacks made so far. *)
Record LoopState := {
  messages : list Message;
  iterations : nat;
  reported : list (string * option string);
}.

Definition push (m : Message) (st : LoopState) : LoopState :=
  {| messages := messages st ++ [m];
     iterations := iterations st;
     reported := reported st |}.

Definition onStep (label : string) (detail : option string) (st : LoopState) : LoopState :=
  {| messages := messages st;
     iterations := iterations st;
     reported := reported st ++ [(label, detail)] |}.

Definition tick (st : LoopState) : LoopState :=
  {| messages := messages st;
     iterations := S (iterations st);
     reported := reported st |}.

Section Run.

(** [JSON.parse] of a tool call's arguments at the type
    [Record<string, string>], with the read of [args.path] that follows
    it in a run with a callback: it throws on text that is not JSON, and
    on [null], of which no property can be read
    ([Observed.parseArguments] below).  The runs of this section are
    those with a callback that returns; [Observed.runOpenAIAgent] takes
    the callback as it is, or none. *)
Variable JSON_parse : string -> Completion JS.Rec.
Variable github : GitHubClient.
Variables owner repo : string.
Variable analysis : RepoAnalysis.

(** The [for] loop over [message.tool_calls]: the state after it, and the
    exception when [JSON.parse] throws. *)
Fixpoint runToolCalls (calls : list ToolCall) (st : LoopState)
    : LoopState * option string :=
  match calls with
  | [] => (st, None)
  | toolCall :: calls' =>
      if negb (tc_type toolCall =? "function")%string then runToolCalls calls' st
      else
        match JSON_parse (fn_arguments toolCall) with
        | Throw err => (st, Some err)
        | Return args =>
            let st :=
              onStep ("Reading " +:+ JS.or_else (JS.prop args "path") "repo files")
                     (Some ("Tool: " +:+ fn_name toolCall)) st in
            let result := executeTool (fn_name toolCall) args github in
            runToolCalls calls' (push (ToolMessage (tc_id toolCall) result) st)
        end
  end.

(** The [while] loop.  [script] holds the answers of the completion
    endpoint to the requests still to come, each an assistant message or
    a rejected request; a script that has run out answers with a
    rejected request. *)
Fixpoint agentLoop (script : list (Completion AssistantMessage)) (st : LoopState)
    : LoopState * Completion OpenAIAgentResult :=
  if (iterations st <? maxIterations)%nat then
    let st := tick st in
    match script with
    | [] => (st, Throw "Error: Connection error.")
    | Throw err :: _ => (st, Throw err)
    | Return message :: script' =>
        let st := push (AssistantTurn message) st in
        match tool_calls message with
        | None | Some [] =>
            (onStep "OpenAI generation complete" (Some "Parsing response") st,
             Return (parseAgentResponse (JS.or_else (content message) "") analysis repo))
        | Some calls =>
            match runToolCalls calls st with
            | (st', Some err) => (st', Throw err)
            | (st', None) => agentLoop script' st'
            end
        end
    end
  else (st, Return (generateFallbackResult analysis repo)).

Definition initialState : LoopState :=
  onStep "Connecting to OpenAI" (Some "Using gpt-4o-mini")
    {| messages :=
         [ SystemMessage (systemPrompt owner repo analysis);
           UserMessage (userPrompt owner repo) ];
       iterations := 0;
       reported := [] |}.

Definition runLoop (script : list (Completion AssistantMessage))
    : LoopState * Completion OpenAIAgentResult :=
  agentLoop script initialState.

(** The number of completion requests of a run. *)
Definition rounds (script : list (Completion AssistantMessage)) : nat :=
  iterations (fst (runLoop script)).

Definition runOpenAIAgent (script : list (Completion AssistantMessage))
    : AgentRun OpenAIAgentResult :=
  let '(st, result) := runLoop script in
  {| progress := reported st; outcome := result |}.

End Run.

End OpenAIAgent.

(* ================================================================== *)
(** ** lib/agents/blackbox-agent.ts: the result type                   *)
(* ================================================================== *)

Module BlackboxAgent.

Record BlackboxAgentResult := {
  codeInsights : string;
  vercelConfig : string;
  envTemplate : string;
  riskAssessment : string;
  suggestedScripts : JS.Rec;
}.

End BlackboxAgent.

(* ================================================================== *)
(** ** lib/agents/orchestrator.ts                                      *)
(* ================================================================== *)

Module Orchestrator.

Import OpenAIAgent BlackboxAgent.

Record AgentStep := {
  id : string;
  label : string;
  status : AgentStepStatus;
  detail : option string;
}.

Record AgentResult := {
  analysis : RepoAnalysis;
  aiReadme : string;
  aiLandingPage : string;
  vercelJson : string;
  packageJsonScripts : JS.Rec;
  envTemplate : string;
  deploymentRecommendations : list string;
  steps : list AgentStep;
  provider : Provider;
}.

Record OrchestratorOptions := {
  owner : string;
  repo : string;
  githubToken : string;
  description : option string;
}.

Record LandingCopy := {
  headline : option string;
  subheadline : option string;
  features : option (list string);
}.

(** [["⚡", "🔧", "📦"][i] || "✨"]. *)
Definition featureIcon (i : nat) : string :=
  JS.or_else (["⚡"; "🔧"; "📦"] !! i) "✨".

Definition featureCard (i : nat) (f : string) : string :=
  "
        <div class=" +:+ JS.dq +:+ "feature-card" +:+ JS.dq +:+ ">
          <h3>"
  +:+ featureIcon i
  +:+ " "
  +:+ f
  +:+ "</h3>
          <p>Built with modern best practices for production environments.</p>
        </div>".

Definition landingPageHtml
    (repoName headline subheadline : string) (features : list string)
    (analysis : RepoAnalysis) : string :=
  "<!DOCTYPE html>
<html lang=" +:+ JS.dq +:+ "en" +:+ JS.dq +:+ ">
<head>
  <meta charset=" +:+ JS.dq +:+ "UTF-8" +:+ JS.dq +:+ ">
  <meta name=" +:+ JS.dq +:+ "viewport" +:+ JS.dq +:+ " content=" +:+ JS.dq +:+ "width=device-width, initial-scale=1.0" +:+ JS.dq +:+ ">
  <title>"
  +:+ repoName
  +:+ "</title>
  <style>
    *{margin:0;padding:0;box-sizing:border-box}
    body{font-family:-apple-system,BlinkMacSystemFont,'Segoe UI',Roboto,sans-serif;line-height:1.6;color:#333;background:linear-gradient(135deg,#667eea 0%,#764ba2 100%);min-height:100vh}
    header{background:rgba(0,0,0,.5);backdrop-filter:blur(10px);color:#fff;padding:1rem 0;position:sticky;top:0;z-index:100}
    nav{max-width:1200px;margin:0 auto;padding:0 2rem;display:flex;justify-content:space-between;align-items:center}
    nav h1{font-size:1.5rem;font-weight:700}
    .hero{max-width:1200px;margin:0 auto;padding:6rem 2rem;text-align:center;color:#fff}
    .hero h1{font-size:3.5rem;margin-bottom:1rem;font-weight:700}
    .hero p{font-size:1.25rem;margin-bottom:2rem;opacity:.9;max-width:600px;margin-left:auto;margin-right:auto}
    .badge{display:inline-block;background:rgba(255,255,255,.2);color:#fff;padding:.25rem .75rem;border-radius:9999px;font-size:.875rem;margin:.25rem}
    .cta{display:flex;gap:1rem;justify-content:center;margin-top:2rem;flex-wrap:wrap}
    .btn{padding:.75rem 2rem;font-size:1rem;border:none;border-radius:.5rem;cursor:pointer;font-weight:600;transition:all .3s;text-decoration:none;display:inline-block}
    .btn-primary{background:#fff;color:#667eea}
    .btn-primary:hover{transform:translateY(-2px);box-shadow:0 10px 20px rgba(0,0,0,.2)}
    .btn-secondary{background:transparent;color:#fff;border:2px solid #fff}
    .btn-secondary:hover{background:#fff;color:#667eea}
    .features{background:#fff;padding:4rem 2rem}
    .features-container{max-width:1200px;margin:0 auto}
    .features h2{text-align:center;font-size:2.5rem;margin-bottom:3rem;color:#333}
    .features-grid{display:grid;grid-template-columns:repeat(auto-fit,minmax(280px,1fr));gap:2rem}
    .feature-card{padding:2rem;background:#f8f9fa;border-radius:.5rem;box-shadow:0 4px 6px rgba(0,0,0,.1)}
    .feature-card h3{font-size:1.25rem;margin-bottom:.75rem;color:#667eea}
    .tech-stack{background:#f8f9fa;padding:2rem;border-radius:.5rem;margin:2rem 0;text-align:center}
    footer{background:rgba(0,0,0,.5);color:#fff;text-align:center;padding:2rem;margin-top:4rem}
  </style>
</head>
<body>
  <header>
    <nav>
      <h1>"
  +:+ repoName
  +:+ "</h1>
      <div>
        <a href=" +:+ JS.dq +:+ "#features" +:+ JS.dq +:+ " style=" +:+ JS.dq +:+ "color:#fff;text-decoration:none;margin-left:2rem" +:+ JS.dq +:+ ">Features</a>
        <a href=" +:+ JS.dq +:+ "#tech" +:+ JS.dq +:+ " style=" +:+ JS.dq +:+ "color:#fff;text-decoration:none;margin-left:2rem" +:+ JS.dq +:+ ">Tech</a>
      </div>
    </nav>
  </header>
  <section class=" +:+ JS.dq +:+ "hero" +:+ JS.dq +:+ ">
    <h1>"
  +:+ headline
  +:+ "</h1>
    <p>"
  +:+ subheadline
  +:+ "</p>
    <div>
      <span class=" +:+ JS.dq +:+ "badge" +:+ JS.dq +:+ ">"
  +:+ framework analysis
  +:+ "</span>
      <span class=" +:+ JS.dq +:+ "badge" +:+ JS.dq +:+ ">"
  +:+ packageManager analysis
  +:+ "</span>
      <span class=" +:+ JS.dq +:+ "badge" +:+ JS.dq +:+ ">"
  +:+ backendType analysis
  +:+ "</span>
      "
  +:+ (if hasDocker analysis then "<span class=" +:+ JS.dq +:+ "badge" +:+ JS.dq +:+ ">Docker</span>" else "")
  +:+ "
    </div>
    <div class=" +:+ JS.dq +:+ "cta" +:+ JS.dq +:+ ">
      <a href=" +:+ JS.dq +:+ "https://github.com/"
  +:+ repoName
  +:+ JS.dq +:+ " class=" +:+ JS.dq +:+ "btn btn-primary" +:+ JS.dq +:+ ">View on GitHub</a>
      <a href=" +:+ JS.dq +:+ "#features" +:+ JS.dq +:+ " class=" +:+ JS.dq +:+ "btn btn-secondary" +:+ JS.dq +:+ ">Learn More</a>
    </div>
  </section>
  <section class=" +:+ JS.dq +:+ "features" +:+ JS.dq +:+ ">
    <div class=" +:+ JS.dq +:+ "features-container" +:+ JS.dq +:+ ">
      <h2 id=" +:+ JS.dq +:+ "features" +:+ JS.dq +:+ ">Features</h2>
      <div class=" +:+ JS.dq +:+ "features-grid" +:+ JS.dq +:+ ">
        "
  +:+ JS.join "" (imap featureCard features)
  +:+ "
      </div>
      <div id=" +:+ JS.dq +:+ "tech" +:+ JS.dq +:+ " class=" +:+ JS.dq +:+ "tech-stack" +:+ JS.dq +:+ ">
        <h3 style=" +:+ JS.dq +:+ "margin-bottom:1rem;color:#333" +:+ JS.dq +:+ ">Tech Stack</h3>
        <span class=" +:+ JS.dq +:+ "badge" +:+ JS.dq +:+ " style=" +:+ JS.dq +:+ "background:#667eea" +:+ JS.dq +:+ ">"
  +:+ framework analysis
  +:+ "</span>
        <span class=" +:+ JS.dq +:+ "badge" +:+ JS.dq +:+ " style=" +:+ JS.dq +:+ "background:#667eea" +:+ JS.dq +:+ ">"
  +:+ packageManager analysis
  +:+ "</span>
        <span class=" +:+ JS.dq +:+ "badge" +:+ JS.dq +:+ " style=" +:+ JS.dq +:+ "background:#667eea" +:+ JS.dq +:+ ">"
  +:+ backendType analysis
  +:+ "</span>
        "
  +:+ (if hasDocker analysis then "<span class=" +:+ JS.dq +:+ "badge" +:+ JS.dq +:+ " style=" +:+ JS.dq +:+ "background:#667eea" +:+ JS.dq +:+ ">Docker</span>" else "")
  +:+ "
      </div>
    </div>
  </section>
  <footer>
    <p>&copy; 2024 "
  +:+ repoName
  +:+ ". Shipped with <a href=" +:+ JS.dq +:+ "https://shipwright.dev" +:+ JS.dq +:+ " style=" +:+ JS.dq +:+ "color:#a78bfa" +:+ JS.dq +:+ ">Shipwright</a>.</p>
  </footer>
</body>
</html>".

Definition defaultFeatures : list string :=
  ["Fast and performant"; "Production ready"; "Easy to deploy"].

Definition buildDefaultRecommendationsRules (analysis : RepoAnalysis) : list string :=
  let recs := [] in
  let recs :=
    if existsb (String.eqb "build script") (missingConfigs analysis)
    then recs ++ ["Add a build script to package.json: " +:+ JS.dq +:+ "build" +:+ JS.dq
                  +:+ ": " +:+ JS.dq
                  +:+ (if (framework analysis =? "Next.js")%string
                       then "next build" else "vite build")
                  +:+ JS.dq]
    else recs in
  let recs :=
    if (0 <? length (envVarsDetected analysis))%nat
    then recs ++ ["Configure " +:+ JS.String_of_nat (length (envVarsDetected analysis))
                  +:+ " environment variable(s) in your deployment platform"]
    else recs in
  let recs :=
    if negb (hasDocker analysis)
    then recs ++ ["Consider adding a Dockerfile for containerized deployments"]
    else recs in
  if (deploymentRiskScore analysis >? 50)%Z
  then recs ++ ["High risk score detected — review missing configurations before deploying"]
  else recs.

Definition recommendationDefaults : list string :=
  [ "Set NODE_ENV=production in your deployment environment";
    "Enable automatic deployments from your main branch";
    "Configure health check endpoints for production monitoring" ].

(** [while (recs.length < 3) recs.push(defaults[recs.length])]: every
    round makes the list longer by one, so three rounds are enough from
    any list ([padRecommendations_exits] below); under the guard the
    index is below 3 and [defaults] has an entry there. *)
Fixpoint padRecommendations (rounds : nat) (recs : list string) : list string :=
  match rounds with
  | O => recs
  | S rounds' =>
      if (length recs <? 3)%nat
      then padRecommendations rounds'
             (recs ++ [default "undefined" (recommendationDefaults !! length recs)])
      else recs
  end.

Definition buildDefaultRecommendations (analysis : RepoAnalysis) : list string :=
  firstn 3 (padRecommendations 3 (buildDefaultRecommendationsRules analysis)).

(** *** The step list and the callback *)

(** [steps] is the array of the run, [stepCounter] its counter and
    [emitted] the arguments of [onStep] so far, each as it was when the
    callback was called.  A step object is shared between the array and
    the local variable that names it: a step is referred to by its index
    in [steps]. *)
Record OState := {
  st_steps : list AgentStep;
  stepCounter : nat;
  emitted : list AgentStep;
}.

Definition initial : OState :=
  {| st_steps := []; stepCounter := 0; emitted := [] |}.

Definition addStep (label : string) (status : AgentStepStatus) (detail : option string)
    (st : OState) : nat * OState :=
  let counter := S (stepCounter st) in
  let step :=
    {| id := JS.String_of_nat counter; label := label; status := status; detail := detail |} in
  (length (st_steps st),
   {| st_steps := st_steps st ++ [step];
      stepCounter := counter;
      emitted := emitted st ++ [step] |}).

(** Mutate the step at index [i] and call [onStep] with it. *)
Definition mutateStep (i : nat) (f : AgentStep -> AgentStep) (st : OState) : OState :=
  match st_steps st !! i with
  | Some step =>
      {| st_steps := <[i := f step]> (st_steps st);
         stepCounter := stepCounter st;
         emitted := emitted st ++ [f step] |}
  | None => st
  end.

Definition completeStep (step : nat) (detail' : option string) (st : OState) : OState :=
  mutateStep step
    (fun s => {| id := id s; label := label s; status := done;
                 detail := if JS.truthyOpt detail' then detail' else detail s |})
    st.

Definition failStep (step : nat) (detail' : string) (st : OState) : OState :=
  mutateStep step
    (fun s => {| id := id s; label := label s; status := error; detail := Some detail' |})
    st.

(** The progress callback handed to an agent:
    [step.label = label; if (detail) step.detail = detail; onStep?.(step)]. *)
Definition relabelStep (step : nat) (st : OState) (call : string * option string) : OState :=
  mutateStep step
    (fun s => {| id := id s; label := fst call; status := status s;
                 detail := if JS.truthyOpt (snd call) then snd call else detail s |})
    st.

Section Run.

(** [generateReadme] of lib/generators/readme.ts. *)
Variable generateReadme : string -> RepoAnalysis -> option string -> string.
(** [JSON.parse] at the type [LandingCopy], an object as both producers
    of the landing copy serialize one; [None] when it throws. *)
Variable JSON_parse : string -> option LandingCopy.
(** [new RepoAnalyzer(githubToken).analyze(owner, repo)]. *)
Variable analyze : string -> string -> string -> Completion RepoAnalysis.
(** The two agents, called with owner, repo, analysis and token. *)
Variable runBlackboxAgent :
  string -> string -> RepoAnalysis -> string -> AgentRun BlackboxAgentResult.
Variable runOpenAIAgent :
  string -> string -> RepoAnalysis -> string -> AgentRun OpenAIAgentResult.

Definition buildLandingPage
    (repoName : string) (analysis : RepoAnalysis)
    (landingPageCopyJson : option string) (description' : option string)
    : string :=
  let copy := {| headline := None; subheadline := None; features := None |} in
  let copy :=
    match landingPageCopyJson with
    | Some text =>
        if JS.truthy text
        then match JSON_parse text with Some parsed => parsed | None => copy end
        else copy
    | None => copy
    end in
  let headline := JS.or_else (headline copy) repoName in
  let subheadline :=
    JS.or_else (subheadline copy) (JS.or_else description' (Types.description analysis)) in
  let features :=
    match features copy with Some l => l | None => defaultFeatures end in
  landingPageHtml repoName headline subheadline features analysis.

(** One agent stage: add the step, replay the agent's progress callbacks,
    then complete or fail the step. *)
Definition agentStage {R : Type}
    (label doneDetail : string) (run : AgentRun R) (st : OState)
    : option R * OState :=
  let '(step, st) := addStep label running None st in
  let st := fold_left (relabelStep step) (progress run) st in
  match outcome run with
  | Return result => (Some result, completeStep step (Some doneDetail) st)
  | Throw err => (None, failStep step ("Falling back to templates: " +:+ err) st)
  end.

Definition merge
    (options : OrchestratorOptions) (analysis : RepoAnalysis)
    (blackboxResult : option BlackboxAgentResult)
    (openaiResult : option OpenAIAgentResult)
    (st : OState) : OState * AgentResult :=
  let '(mergeStep, st) := addStep "Assembling final output" running None st in
  let provider :=
    match openaiResult, blackboxResult with
    | Some _, Some _ => openai
    | Some _, None => openai
    | None, Some _ => blackbox
    | None, None => template
    end in
  let aiReadme :=
    JS.or_else (option_map readme openaiResult)
               (generateReadme (repo options) analysis (description options)) in
  let aiLandingPage :=
    buildLandingPage (repo options) analysis
      (option_map landingPageCopy openaiResult) (description options) in
  let vercelJson :=
    JS.or_else (option_map vercelConfig blackboxResult) (generateVercelJsonFile analysis) in
  let envTemplate :=
    JS.or_else (option_map BlackboxAgent.envTemplate blackboxResult)
               (generateEnvTemplate analysis) in
  let packageJsonScripts :=
    match blackboxResult with
    | Some r =>
        if (0 <? length (JS.keys (suggestedScripts r)))%nat
        then suggestedScripts r
        else generatePackageJsonScripts analysis
    | None => generatePackageJsonScripts analysis
    end in
  let deploymentRecommendations :=
    match openaiResult with
    | Some r => OpenAIAgent.deploymentRecommendations r
    | None => buildDefaultRecommendations analysis
    end in
  let st :=
    completeStep mergeStep
      (Some ("Generated via "
             +:+ match provider with
                 | openai => "openai"
                 | blackbox => "blackbox"
                 | template => "template"
                 end)) st in
  (st,
   {| analysis := analysis;
      aiReadme := aiReadme;
      aiLandingPage := aiLandingPage;
      vercelJson := vercelJson;
      packageJsonScripts := packageJsonScripts;
      envTemplate := envTemplate;
      deploymentRecommendations := deploymentRecommendations;
      steps := st_steps st;
      provider := provider |}).

(** The final state (the step array and the calls of [onStep]) and the
    result of the promise, for a caller whose [onStep] returns from
    every call, or who gives none.  [Observed.runOrchestrator] below is
    the run with a callback that may throw. *)
Definition runOrchestrator (options : OrchestratorOptions)
    : OState * Completion AgentResult :=
  let st := initial in
  let '(analysisStep, st) := addStep "Analyzing repository structure" running None st in
  match analyze (githubToken options) (owner options) (repo options) with
  | Throw err =>
      (failStep analysisStep err st,
       Throw ("Error: Repository analysis failed: " +:+ err))
  | Return analysis =>
      let st :=
        completeStep analysisStep
          (Some (framework analysis +:+ " · Risk: "
                 +:+ JS.String_of_Z (deploymentRiskScore analysis) +:+ "%")) st in
      let '(blackboxResult, st) :=
        agentStage "Blackbox AI: Deep code analysis" "Config & env template generated"
          (runBlackboxAgent (owner options) (repo options) analysis (githubToken options))
          st in
      let '(openaiResult, st) :=
        agentStage "OpenAI: Generating README & landing page" "README & landing page ready"
          (runOpenAIAgent (owner options) (repo options) analysis (githubToken options))
          st in
      let '(st, result) := merge options analysis blackboxResult openaiResult st in
      (st, Return result)
  end.

End Run.

End Orchestrator.

(* ================================================================== *)
(** ** Definitions used to state the properties                        *)
(* ================================================================== *)

(** A [JSON.parse] known at one text only. *)
Definition JSON_parse_at {A : Type} (text : string) (value : A) : string -> option A :=
  fun t => if (t =? text)%string then Some value else None.

(** A member of a serialized object. *)
Fixpoint member (k : string) (fields : list (string * JS.json)) : option JS.json :=
  match fields with
  | [] => None
  | (k', v) :: fields' => if (k' =? k)%string then Some v else member k fields'
  end.

(** The priority list of [detectFramework], in the order of its tests. *)
Definition frameworkMarkers : list (string * string) :=
  [ ("next", "Next.js"); ("react", "React"); ("vue", "Vue"); ("svelte", "Svelte");
    ("nuxt", "Nuxt"); ("gatsby", "Gatsby"); ("remix", "Remix"); ("astro", "Astro") ].

(** First match wins: the name of the first marker with a truthy entry in
    [deps], else Node.js. *)
Definition firstMarker (deps : JS.Rec) : string :=
  match find (fun m => JS.truthyOpt (JS.prop deps (fst m))) frameworkMarkers with
  | Some m => snd m
  | None => "Node.js"
  end.

(** A manifest with scripts only, and no dependency map. *)
Definition manifest_scripts_only : PackageJson :=
  {| dependencies := None; devDependencies := None; scripts := Some [("test", "jest")] |}.

(** The analysis of a React project without a build script. *)
Definition analysis_react : RepoAnalysis :=
  {| framework := "React"; packageManager := "npm"; backendType := "Frontend";
     hasDocker := false; envVarsDetected := []; buildScript := None;
     missingConfigs := ["build script"; "start script"; "dev script"];
     deploymentRiskScore := 45; description := "React project with npm and Frontend" |}.

(** A manifest with the meta-framework and its UI library together, and
    one with an unrelated dependency only. *)
Definition manifest_next_react : PackageJson :=
  {| dependencies := Some [("react", "18.2.0"); ("next", "14.0.0")];
     devDependencies := None; scripts := None |}.

Definition manifest_lodash : PackageJson :=
  {| dependencies := Some [("lodash", "4.17.21")];
     devDependencies := None; scripts := None |}.

(** The analysis of a repository with two env vars. *)
Definition analysis_env : RepoAnalysis :=
  {| framework := "Vue"; packageManager := "npm"; backendType := "Frontend";
     hasDocker := true; envVarsDetected := ["API_KEY"; "DB_HOST"]; buildScript := Some "vite build";
     missingConfigs := ["start script"];
     deploymentRiskScore := 5; description := "Vue project with npm and Frontend" |}.

(** The analysis of a repository without a manifest. *)
Definition analysis_unknown : RepoAnalysis :=
  analyze (fun _ => None) (clientOfFiles []).

(** A response with at least one tool call: a round without a final
    answer. *)
Definition hasToolCalls (r : Completion OpenAIAgent.AssistantMessage) : Prop :=
  match r with
  | Return m =>
      match OpenAIAgent.tool_calls m with
      | Some (_ :: _) => True
      | _ => False
      end
  | Throw _ => False
  end.

(** A round without a final answer whose function calls all carry
    arguments that [JSON.parse] accepts. *)
Definition toolRound (JSON_parse : string -> Completion JS.Rec)
    (r : Completion OpenAIAgent.AssistantMessage) : Prop :=
  match r with
  | Return m =>
      match OpenAIAgent.tool_calls m with
      | Some (c :: calls) =>
          Forall (fun tc =>
                    OpenAIAgent.tc_type tc = "function" ->
                    exists args, JSON_parse (OpenAIAgent.fn_arguments tc) = Return args)
                 (c :: calls)
      | _ => False
      end
  | Throw _ => False
  end.

(** A [JSON.parse] that knows the empty object and rejects every other
    text. *)
Definition JSON_parse_empty_object (text : string) : Completion JS.Rec :=
  if (text =? "{}")%string then Return []
  else Throw "SyntaxError: Unexpected end of JSON input".

(** A round that lists the root directory, and a round whose tool call
    carries a cut-off argument text. *)
Definition round_list_root : Completion OpenAIAgent.AssistantMessage :=
  Return {| OpenAIAgent.content := None;
            OpenAIAgent.tool_calls :=
              Some [ {| OpenAIAgent.tc_id := "call_1";
                        OpenAIAgent.tc_type := "function";
                        OpenAIAgent.fn_name := "list_repo_files";
                        OpenAIAgent.fn_arguments := "{}" |} ] |}.

Definition round_cut_off : Completion OpenAIAgent.AssistantMessage :=
  Return {| OpenAIAgent.content := None;
            OpenAIAgent.tool_calls :=
              Some [ {| OpenAIAgent.tc_id := "call_8";
                        OpenAIAgent.tc_type := "function";
                        OpenAIAgent.fn_name := "read_repo_file";
                        OpenAIAgent.fn_arguments := "{" |} ] |}.

Definition script_tools_only : list (Completion OpenAIAgent.AssistantMessage) :=
  repeat round_list_root 8.

Definition script_cut_off : list (Completion OpenAIAgent.AssistantMessage) :=
  repeat round_list_root 7 ++ [round_cut_off].

(** What the merge sees of an agent's outcome. *)
Definition resultOf {R : Type} (c : Completion R) : option R :=
  match c with
  | Return r => Some r
  | Throw _ => None
  end.

(** [later] may follow [earlier] as the status of one step: it is the
    same, or it is done or error. *)
Definition statusStep (earlier later : AgentStepStatus) : Prop :=
  later = earlier \/ later = done \/ later = error.

Definition finished (s : Orchestrator.AgentStep) : Prop :=
  Orchestrator.status s = done \/ Orchestrator.status s = error.

(** [generateReadme] is not among the sources and the theorems take it as
    a parameter.  The closed examples use this stand-in: a heading with
    the repo name, then the description. *)
Definition generateReadme_standin
    (repoName : string) (analysis : RepoAnalysis) (description' : option string) : string :=
  "# " +:+ repoName +:+ JS.nl +:+ JS.nl +:+ JS.or_else description' (description analysis).

(** The collaborators of the closed examples: an analyzer that returns
    the analysis of the Next.js manifest, and agents that fail or
    succeed. *)
Definition analysis_next : RepoAnalysis :=
  analyze (JSON_parse_at manifest_next_text manifest_next)
          (clientOfFiles [("package.json", manifest_next_text)]).

Definition analyzer_next (token owner repo : string) : Completion RepoAnalysis :=
  Return analysis_next.

Definition analyzer_down (token owner repo : string) : Completion RepoAnalysis :=
  Throw "HttpError: Bad credentials".

Definition blackbox_down (owner repo : string) (analysis : RepoAnalysis) (token : string)
    : AgentRun BlackboxAgent.BlackboxAgentResult :=
  {| progress := [("Blackbox AI: Reading repository", Some "Fetching key files")];
     outcome := Throw "TypeError: fetch failed" |}.

Definition openai_down (owner repo : string) (analysis : RepoAnalysis) (token : string)
    : AgentRun OpenAIAgent.OpenAIAgentResult :=
  {| progress := [("Connecting to OpenAI", Some "Using gpt-4o-mini")];
     outcome := Throw "Error: Connection error." |}.

(** A final answer whose fenced README holds white space only. *)
Definition answer_blank_readme : string :=
  "```markdown" +:+ JS.nl +:+ " " +:+ JS.nl +:+ "```".

(** The content agent of the sources, answered at once with
    [answer_blank_readme]. *)
Definition openai_blank_readme (owner repo : string) (analysis : RepoAnalysis) (token : string)
    : AgentRun OpenAIAgent.OpenAIAgentResult :=
  OpenAIAgent.runOpenAIAgent JSON_parse_empty_object (clientOfFiles []) owner repo analysis
    [ Return {| OpenAIAgent.content := Some answer_blank_readme;
                OpenAIAgent.tool_calls := None |} ].

(** The content agent of the sources, answered at once with a README, a
    headline and one recommendation. *)
Definition answer_plain : string :=
  "# shop" +:+ JS.nl +:+ "A small shop." +:+ JS.nl
  +:+ "headline: Open your shop" +:+ JS.nl
  +:+ "1. Set the env vars".

Definition openai_plain (owner repo : string) (analysis : RepoAnalysis) (token : string)
    : AgentRun OpenAIAgent.OpenAIAgentResult :=
  OpenAIAgent.runOpenAIAgent JSON_parse_empty_object (clientOfFiles []) owner repo analysis
    [ Return {| OpenAIAgent.content := Some answer_plain;
                OpenAIAgent.tool_calls := None |} ].

Definition options_shop : Orchestrator.OrchestratorOptions :=
  {| Orchestrator.owner := "acme";
     Orchestrator.repo := "shop";
     Orchestrator.githubToken := "token";
     Orchestrator.description := None |}.

(** A [JSON.parse] for landing copy that rejects every text. *)
Definition JSON_parse_none (text : string) : option Orchestrator.LandingCopy := None.

(** One event may come after another: when both are of the same step, the
    later status follows the earlier one. *)
Definition follows (e e' : Orchestrator.AgentStep) : Prop :=
  Orchestrator.id e' = Orchestrator.id e ->
  statusStep (Orchestrator.status e) (Orchestrator.status e').

(** The invariant of the step array and of the calls of [onStep]: the
    ids count up from 1; every event is of a step of the array; statuses
    follow each other along the events and up to the array; the first
    event of a step shows it running; no status is pending. *)
Record StepInv (st : Orchestrator.OState) : Prop := {
  inv_ids :
    map Orchestrator.id (Orchestrator.st_steps st)
    = map JS.String_of_nat (seq 1 (Orchestrator.stepCounter st));
  inv_known :
    forall e, In e (Orchestrator.emitted st) ->
      In (Orchestrator.id e) (map Orchestrator.id (Orchestrator.st_steps st));
  inv_trace :
    forall i j e e', (i < j)%nat ->
      Orchestrator.emitted st !! i = Some e ->
      Orchestrator.emitted st !! j = Some e' -> follows e e';
  inv_current :
    forall s e, In s (Orchestrator.st_steps st) -> In e (Orchestrator.emitted st) ->
      follows e s;
  inv_created :
    forall i e, Orchestrator.emitted st !! i = Some e ->
      (forall j e', (j < i)%nat -> Orchestrator.emitted st !! j = Some e' ->
         Orchestrator.id e' <> Orchestrator.id e) ->
      Orchestrator.status e = running;
  inv_reported :
    forall s, In s (Orchestrator.st_steps st) ->
      exists e, In e (Orchestrator.emitted st) /\ Orchestrator.id e = Orchestrator.id s;
  inv_no_pending :
    forall e, In e (Orchestrator.emitted st) -> Orchestrator.status e <> pending;
  inv_no_pending_steps :
    forall s, In s (Orchestrator.st_steps st) -> Orchestrator.status s <> pending;
}.

(** *** Definitions for the further properties *)

(** Every character of [s] satisfies [p]. *)
Fixpoint allChars (p : ascii -> bool) (s : string) : bool :=
  match s with
  | EmptyString => true
  | String c s' => p c && allChars p s'
  end.

(** A name as the line pattern of [detectEnvVars] captures it. *)
Definition wellFormedName (s : string) : bool :=
  match s with
  | EmptyString => false
  | String c s' => isNameStart c && allChars isNameChar s'
  end.

(** [o?.[k]] for an object that may be absent. *)
Definition propOpt (o : option JS.Rec) (k : string) : option string :=
  match o with
  | Some r => JS.prop r k
  | None => None
  end.

Definition distinctKeys (o : option JS.Rec) : Prop :=
  match o with
  | Some r => NoDup (JS.keys r)
  | None => True
  end.

(** The priority list of [detectBackendType], in the order of its tests. *)
Definition backendMarkers : list (string * string) :=
  [ ("express", "Express"); ("fastify", "Fastify"); ("hapi", "Hapi"); ("koa", "Koa");
    ("@nestjs/core", "NestJS"); ("fastapi", "FastAPI"); ("rails", "Rails");
    ("django", "Django") ].

Definition firstBackendMarker (deps : JS.Rec) : string :=
  match find (fun m => JS.truthyOpt (JS.prop deps (fst m))) backendMarkers with
  | Some m => snd m
  | None => "Frontend"
  end.

Definition manifest_overridden : PackageJson :=
  {| dependencies := Some [("next", "13.0.0"); ("express", "4.18.2")];
     devDependencies := Some [("next", "14.0.0")];
     scripts := None |}.

Definition noNewline (s : string) : bool := allChars (fun c => negb (RE.isNewline c)) s.

(** The invariant of the two loops of [detectEnvVars]. *)
Definition goodVars (vars : list string) : Prop :=
  NoDup vars /\ Forall (fun v => wellFormedName v = true) vars.

(** The answer of a round without tool calls. *)
Definition finalAnswer (m : OpenAIAgent.AssistantMessage) : Prop :=
  match OpenAIAgent.tool_calls m with
  | None | Some [] => True
  | Some (_ :: _) => False
  end.

(** The tool messages of a round: one for every function call, in the
    order of the calls, each with the id of its call. *)
Definition toolMessages (JSON_parse : string -> Completion JS.Rec) (github : GitHubClient)
    (calls : list OpenAIAgent.ToolCall) : list OpenAIAgent.Message :=
  flat_map
    (fun tc =>
       if (OpenAIAgent.tc_type tc =? "function")%string then
         match JSON_parse (OpenAIAgent.fn_arguments tc) with
         | Return args =>
             [OpenAIAgent.ToolMessage (OpenAIAgent.tc_id tc)
                (OpenAIAgent.executeTool (OpenAIAgent.fn_name tc) args github)]
         | Throw _ => []
         end
       else [])
    calls.

Definition answer_message : OpenAIAgent.AssistantMessage :=
  {| OpenAIAgent.content := Some answer_plain; OpenAIAgent.tool_calls := None |}.

Definition analysis_scripted : RepoAnalysis :=
  {| framework := "Next.js"; packageManager := "npm"; backendType := "Frontend";
     hasDocker := false; envVarsDetected := []; buildScript := Some "npm run compile";
     missingConfigs := ["start script"; "dev script"];
     deploymentRiskScore := 20; description := "Next.js project with npm and Frontend" |}.

Definition long_file : string :=
  JS.join "" (repeat "0123456789" 301).

(** A file of 2000 accented letters: 2000 code units in 4000 bytes. *)
Definition accented_file : string :=
  JS.join "" (repeat "é" 2000).

(** The id a tool message answers. *)
Definition answered (m : OpenAIAgent.Message) : option string :=
  match m with
  | OpenAIAgent.ToolMessage tool_call_id _ => Some tool_call_id
  | _ => None
  end.

Definition isFunctionCall (tc : OpenAIAgent.ToolCall) : bool :=
  (OpenAIAgent.tc_type tc =? "function")%string.

(** Two tool calls of one round, the first of another type than
    function. *)
Definition calls_mixed : list OpenAIAgent.ToolCall :=
  [ {| OpenAIAgent.tc_id := "call_a"; OpenAIAgent.tc_type := "custom";
       OpenAIAgent.fn_name := "search"; OpenAIAgent.fn_arguments := "" |};
    {| OpenAIAgent.tc_id := "call_b"; OpenAIAgent.tc_type := "function";
       OpenAIAgent.fn_name := "list_repo_files"; OpenAIAgent.fn_arguments := "{}" |} ].

Definition isAscii (c : ascii) : bool := (nat_of_ascii c <? 128)%nat.

(* ================================================================== *)
(** ** app/api/agent/route.ts: the step array of the response          *)
(* ================================================================== *)

Module AgentRoute.

Import Orchestrator.

(** The handler that POST passes to [runOrchestrator] as [onStep], on
    the route's own array [steps]: the first entry with the id of the
    step takes the label, the status and the detail of the step; when
    there is none, a copy of the step is pushed. *)
Fixpoint onStep (steps : list AgentStep) (step : AgentStep) : list AgentStep :=
  match steps with
  | [] =>
      [ {| id := id step; label := label step; status := status step;
           detail := detail step |} ]
  | existing :: steps' =>
      if (id existing =? id step)%string
      then {| id := id existing; label := label step; status := status step;
              detail := detail step |} :: steps'
      else existing :: onStep steps' step
  end.

(** The array after the calls [events] of the handler. *)
Definition recorded (events : list AgentStep) : list AgentStep :=
  fold_left onStep events [].

End AgentRoute.

(** The handler of the route, fed with the calls of [onStep] so far, has
    rebuilt the step array of the orchestrator. *)
Definition Recorded (st : Orchestrator.OState) : Prop :=
  AgentRoute.recorded (Orchestrator.emitted st) = Orchestrator.st_steps st.

Definition providerName (p : Provider) : string :=
  match p with
  | openai => "openai"
  | blackbox => "blackbox"
  | template => "template"
  end.

(** A code-insight agent and a content agent that return. *)
Definition blackbox_up (owner repo : string) (analysis : RepoAnalysis) (token : string)
    : AgentRun BlackboxAgent.BlackboxAgentResult :=
  {| progress := [("Blackbox AI: Reading repository", Some "Fetching key files")];
     outcome :=
       Return {| BlackboxAgent.codeInsights := "Small code base.";
                 BlackboxAgent.vercelConfig := "{}";
                 BlackboxAgent.envTemplate := "";
                 BlackboxAgent.riskAssessment := "";
                 BlackboxAgent.suggestedScripts := [("build", "next build")] |} |}.

(* ================================================================== *)
(** ** lib/github.ts: getFileTree                                      *)
(* ================================================================== *)

(** [traverse(path, depth)] of [getFileTree], on the array [files].
    [levels] counts the depths still open, [maxDepth - depth + 1]: none
    is left when [depth > maxDepth], and a directory is entered when
    [depth < maxDepth], that is when more than one is left.  A pushed
    record is given by its path; its type is always file and its
    content is the name of the entry, which no caller reads. *)
Fixpoint traverse (client : GitHubClient) (levels : nat) (path : string)
    (files : list string) : list string :=
  match levels with
  | O => files
  | S deeper =>
      match getRepoContents client path with
      | Some (Listing contents) =>
          fold_left
            (fun files item =>
               if (entry_type item =? "dir")%string && (0 <? deeper)%nat
               then traverse client deeper (entry_path item) files
               else if (entry_type item =? "file")%string
                    then files ++ [entry_path item]
                    else files)
            contents files
      | _ => files
      end
  end.

Definition getFileTree (client : GitHubClient) (maxDepth : nat) : list string :=
  traverse client (S maxDepth) "" [].

(* ================================================================== *)
(** ** lib/agents/blackbox-agent.ts: the agent                         *)
(* ================================================================== *)

Module Blackbox.

Import BlackboxAgent.

(** The body of a response at the type [BlackboxResponse]. *)
Record ChoiceMessage := { content : option string }.
Record Choice := { message : option ChoiceMessage }.
Record BlackboxResponse := {
  choices : option (list Choice);
  response : option string;
}.

(** What [fetch] resolves to: [ok], [status] and the outcomes of
    [text()] and of [json()]. *)
Record HttpResponse := {
  ok : bool;
  status : nat;
  text : Completion string;
  json : Completion BlackboxResponse;
}.

(** A value of [JSON.parse] at the type [unknown].  Of a number the
    sources test only whether it is falsy. *)
#[local] Set Warnings "-register-all".
Inductive unknown : Type :=
  | UNull
  | UBoolean (b : bool)
  | UNumber (zero : bool)
  | UString (s : string)
  | UArray (items : list unknown)
  | UObject (fields : list (string * unknown)).

(** [!!v]. *)
Definition truthy (v : unknown) : bool :=
  match v with
  | UNull => false
  | UBoolean b => b
  | UNumber zero => negb zero
  | UString s => JS.truthy s
  | UArray _ | UObject _ => true
  end.

(** [v[k]] for a key that no prototype defines; [None] is [undefined]. *)
Fixpoint lookup (fields : list (string * unknown)) (k : string) : option unknown :=
  match fields with
  | [] => None
  | (k', v) :: fields' => if (k' =? k)%string then Some v else lookup fields' k
  end.

Definition get (v : unknown) (k : string) : option unknown :=
  match v with
  | UObject fields => lookup fields k
  | _ => None
  end.

(** [typeof x === "string" ? x : ""]. *)
Definition stringOr (x : option unknown) : string :=
  match x with
  | Some (UString s) => s
  | _ => ""
  end.

(** [x && typeof x === "object" && !Array.isArray(x) ? (x as
    Record<string, string>) : {}].  The cast is taken at its word: the
    keys stay in their order with the values that are strings; a value
    of another type, which the declared type rules out, shows as the
    empty text. *)
Definition recordOr (x : option unknown) : JS.Rec :=
  match x with
  | Some (UObject fields) => map (fun kv => (fst kv, stringOr (Some (snd kv)))) fields
  | _ => []
  end.

(** The pattern of an opening brace, anything, and a closing brace,
    greedy: the text from the first opening brace to the last closing
    brace after it. *)
Definition isOpenBrace (c : ascii) : bool := RE.charIs 123 c.
Definition isCloseBrace (c : ascii) : bool := RE.charIs 125 c.

Fixpoint fromFirst (p : ascii -> bool) (s : string) : option string :=
  match s with
  | EmptyString => None
  | String c s' => if p c then Some s else fromFirst p s'
  end.

Fixpoint uptoLast (p : ascii -> bool) (s : string) : option string :=
  match s with
  | EmptyString => None
  | String c s' =>
      match uptoLast p s' with
      | Some r => Some (String c r)
      | None => if p c then Some (String c EmptyString) else None
      end
  end.

Definition matchBraces (s : string) : option string :=
  match fromFirst isOpenBrace s with
  | Some t => uptoLast isCloseBrace t
  | None => None
  end.

(** [s.replace(re, "")] for three backquotes, lower-case letters and an
    optional line feed, under the flag [g]: every match is dropped, the
    search resuming where the match ended.  [skip] counts the characters
    of the last match still to pass. *)
Definition isLower (c : ascii) : bool :=
  let n := nat_of_ascii c in ((97 <=? n) && (n <=? 122))%nat.

Definition fenceLength (s : string) : option nat :=
  if String.prefix "```" s then
    let '(letters, rest) := JS.span isLower (JS.drop 3 s) in
    Some (3 + String.length letters
          + match rest with
            | String c _ => if RE.isNewline c then 1 else 0
            | EmptyString => 0
            end)%nat
  else None.

Fixpoint stripFences (skip : nat) (s : string) : string :=
  match s with
  | EmptyString => EmptyString
  | String c s' =>
      match skip with
      | S k => stripFences k s'
      | O =>
          match fenceLength s with
          | Some n => stripFences (n - 1) s'
          | None => String c (stripFences 0 s')
          end
      end
  end.

(** [map[framework] || ""] and [map[framework] || "dist"], for a
    framework that no prototype defines. *)
Definition getVercelFramework (framework : string) : string :=
  JS.or_else
    (JS.prop [ ("Next.js", "nextjs"); ("React", "react"); ("Vue", "vue");
               ("Svelte", "svelte"); ("Astro", "astro"); ("Nuxt", "nuxtjs");
               ("Gatsby", "gatsby") ] framework)
    "".

Definition getOutputDir (framework : string) : string :=
  JS.or_else
    (JS.prop [ ("Next.js", ".next"); ("React", "dist"); ("Vue", "dist");
               ("Svelte", "build"); ("Astro", "dist"); ("Nuxt", ".output");
               ("Gatsby", "public") ] framework)
    "dist".

(** [Object.fromEntries(entries)]. *)
Definition fromEntries (entries : list (string * string)) : JS.Rec :=
  fold_left (fun acc kv => JS.assign acc (fst kv) (snd kv)) entries [].

(** The object [generateDefaultVercelConfig] serializes. *)
Definition defaultVercelConfigObject (analysis : RepoAnalysis) : list (string * JS.json) :=
  let config :=
    [ ("framework", JS.JStr (getVercelFramework (framework analysis)));
      ("buildCommand", JS.JStr (JS.or_else (buildScript analysis) "npm run build"));
      ("outputDirectory", JS.JStr (getOutputDir (framework analysis)));
      ("installCommand", JS.JStr (packageManager analysis +:+ " install"));
      ("devCommand", JS.JStr (packageManager analysis +:+ " run dev")) ] in
  if (0 <? length (envVarsDetected analysis))%nat
  then config
       ++ [("env",
            JS.JRec (fromEntries (map (fun v => (v, "@" +:+ JS.toLowerCase v))
                                      (envVarsDetected analysis))))]
  else config.

Definition generateDefaultVercelConfig (analysis : RepoAnalysis) : string :=
  JS.stringify_pretty "" (JS.JObj (defaultVercelConfigObject analysis)).

Definition generateDefaultEnvTemplate (analysis : RepoAnalysis) : string :=
  let lines :=
    [ "# Environment Variables";
      "# Copy this file to .env.local and fill in the values";
      "" ] in
  let lines := lines ++ map (fun v => v +:+ "=") (envVarsDetected analysis) in
  let lines :=
    if (length (envVarsDetected analysis) =? 0)%nat
    then lines ++ ["# No environment variables detected"]
    else lines in
  JS.join JS.nl lines.

Definition analysisPrompt
    (owner repo : string) (analysis : RepoAnalysis)
    (fileList : string) (packageJsonContent : option string) (entryContent : string)
    : string :=
  "You are a senior DevOps engineer analyzing a GitHub repository for deployment readiness.

Repository: "
  +:+ owner
  +:+ "/"
  +:+ repo
  +:+ "
Framework: "
  +:+ framework analysis
  +:+ "
Package Manager: "
  +:+ packageManager analysis
  +:+ "
Backend: "
  +:+ backendType analysis
  +:+ "
Has Docker: "
  +:+ JS.String_of_bool (hasDocker analysis)
  +:+ "
Detected env vars: "
  +:+ JS.or_else (Some (JS.join ", " (envVarsDetected analysis))) "none"
  +:+ "
Missing configs: "
  +:+ JS.or_else (Some (JS.join ", " (missingConfigs analysis))) "none"
  +:+ "
Risk score: "
  +:+ JS.String_of_Z (deploymentRiskScore analysis)
  +:+ "/100

File structure:
"
  +:+ JS.slice16 1000 fileList
  +:+ "

"
  +:+ (match packageJsonContent with
       | Some text =>
           if JS.truthy text then "package.json:" +:+ JS.nl +:+ JS.slice16 1500 text else ""
       | None => ""
       end)
  +:+ "

"
  +:+ (if JS.truthy entryContent then "Main entry file:" +:+ JS.nl +:+ entryContent else "")
  +:+ "

Provide a JSON response with exactly this structure:
{
  " +:+ JS.dq +:+ "codeInsights" +:+ JS.dq +:+ ": " +:+ JS.dq +:+ "2-3 sentences about the codebase quality and deployment readiness" +:+ JS.dq +:+ ",
  " +:+ JS.dq +:+ "riskAssessment" +:+ JS.dq +:+ ": " +:+ JS.dq +:+ "specific risks and how to mitigate them" +:+ JS.dq +:+ ",
  " +:+ JS.dq +:+ "suggestedScripts" +:+ JS.dq +:+ ": { " +:+ JS.dq +:+ "build" +:+ JS.dq +:+ ": " +:+ JS.dq +:+ "..." +:+ JS.dq +:+ ", " +:+ JS.dq +:+ "start" +:+ JS.dq +:+ ": " +:+ JS.dq +:+ "..." +:+ JS.dq +:+ ", " +:+ JS.dq +:+ "dev" +:+ JS.dq +:+ ": " +:+ JS.dq +:+ "..." +:+ JS.dq +:+ " }
}".

Definition vercelPrompt (analysis : RepoAnalysis) : string :=
  "Generate a production-ready vercel.json for this project:
Framework: "
  +:+ framework analysis
  +:+ "
Build script: "
  +:+ JS.or_else (buildScript analysis) "npm run build"
  +:+ "
Env vars: "
  +:+ JS.or_else (Some (JS.join ", " (envVarsDetected analysis))) "none"
  +:+ "

Return ONLY valid JSON for vercel.json, no explanation.".

Definition envPrompt (analysis : RepoAnalysis) : string :=
  "Generate a .env.example file for a "
  +:+ framework analysis
  +:+ " project.
Known env vars: "
  +:+ JS.or_else (Some (JS.join ", " (envVarsDetected analysis))) "none"
  +:+ "
Backend: "
  +:+ backendType analysis
  +:+ "

Return ONLY the .env.example content with helpful comments, no explanation.".

Definition entryFiles : list string :=
  ["src/index.ts"; "src/index.js"; "index.ts"; "index.js"; "src/app.ts"; "src/main.ts"].

(** What the analysis stage leaves in its three variables. *)
Record Insights := {
  insights : string;
  risks : string;
  scripts : JS.Rec;
}.

Section Run.

(** [JSON.parse]; [None] when it throws. *)
Variable JSON_parse : string -> option unknown.
Variable github : GitHubClient.
(** [process.env.BLACKBOX_API_KEY]. *)
Variable apiKey : option string.
(** [fetch] on the endpoint, as a function of the content of the one
    message and of [max_tokens]; [Throw] when the request fails. *)
Variable fetch : string -> nat -> Completion HttpResponse.

Definition callBlackbox (prompt : string) (maxTokens : nat) : Completion string :=
  if negb (JS.truthyOpt apiKey) then Throw "Error: BLACKBOX_API_KEY is not set"
  else
    match fetch prompt maxTokens with
    | Throw err => Throw err
    | Return r =>
        if negb (ok r) then
          match text r with
          | Throw err => Throw err
          | Return body =>
              Throw ("Error: Blackbox API error " +:+ JS.String_of_nat (status r)
                     +:+ ": " +:+ body)
          end
        else
          match json r with
          | Throw err => Throw err
          | Return data =>
              let first :=
                match choices data with
                | Some (choice :: _) =>
                    match message choice with
                    | Some m => content m
                    | None => None
                    end
                | _ => None
                end in
              if JS.truthyOpt first then Return (default "" first)
              else if JS.truthyOpt (response data) then Return (default "" (response data))
              else Throw "Error: Unexpected Blackbox API response format"
          end
    end.

(** [null] is [UNull]. *)
Definition extractJSON (text : string) : unknown :=
  match JSON_parse text with
  | Some v => v
  | None =>
      match matchBraces text with
      | Some m =>
          match JSON_parse m with
          | Some v => v
          | None => UNull
          end
      | None => UNull
      end
  end.

(** The loop over [entryFiles]. *)
Fixpoint readEntry (files : list string) : string :=
  match files with
  | [] => ""
  | file :: files' =>
      match getFileContent github (Some file) with
      | Some text => if JS.truthy text then JS.slice16 2000 text else readEntry files'
      | None => readEntry files'
      end
  end.

Definition runBlackboxAgent (owner repo : string) (analysis : RepoAnalysis)
    : AgentRun BlackboxAgentResult :=
  let log := [("Blackbox AI: Reading repository", Some "Fetching key files")] in
  let fileTree := getFileTree github 1 in
  let fileList := JS.join JS.nl fileTree in
  let packageJsonContent := getFileContent github (Some "package.json") in
  let entryContent := readEntry entryFiles in
  let log := log ++ [("Blackbox AI: Analyzing code", Some "Deep dependency analysis")] in
  let '(log, found) :=
    match callBlackbox
            (analysisPrompt owner repo analysis fileList packageJsonContent entryContent)
            1500 with
    | Return analysisResponse =>
        let parsed := extractJSON analysisResponse in
        if truthy parsed then
          (log,
           {| insights := stringOr (get parsed "codeInsights");
              risks := stringOr (get parsed "riskAssessment");
              scripts := recordOr (get parsed "suggestedScripts") |})
        else
          (log,
           {| insights := JS.slice16 300 analysisResponse; risks := ""; scripts := [] |})
    | Throw err =>
        (log ++ [("Blackbox AI: Analysis warning", Some err)],
         {| insights :=
              framework analysis +:+ " project analyzed. "
              +:+ (if (0 <? length (missingConfigs analysis))%nat
                   then "Some configurations are missing."
                   else "Configuration looks good.");
            risks := "";
            scripts := [] |})
    end in
  let log :=
    log ++ [("Blackbox AI: Generating Vercel config", Some "Creating deployment config")] in
  let vercelConfig :=
    match callBlackbox (vercelPrompt analysis) 500 with
    | Return vercelResponse =>
        match matchBraces vercelResponse with
        | Some m => m
        | None => generateDefaultVercelConfig analysis
        end
    | Throw _ => generateDefaultVercelConfig analysis
    end in
  let log :=
    log ++ [("Blackbox AI: Generating env template", Some "Creating .env.example")] in
  let envTemplate :=
    match callBlackbox (envPrompt analysis) 400 with
    | Return answer => RE.trim (stripFences 0 answer)
    | Throw _ => generateDefaultEnvTemplate analysis
    end in
  {| progress := log;
     outcome :=
       Return {| codeInsights := insights found;
                 vercelConfig := vercelConfig;
                 envTemplate := envTemplate;
                 riskAssessment := risks found;
                 suggestedScripts := scripts found |} |}.

End Run.

End Blackbox.

(** A [fetch] that never reaches the endpoint, and one that is answered
    with a fenced config and a fenced env file. *)
Definition fetch_down (prompt : string) (maxTokens : nat)
    : Completion Blackbox.HttpResponse :=
  Throw "TypeError: fetch failed".

Definition answer_of (s : string) : Completion Blackbox.HttpResponse :=
  Return {| Blackbox.ok := true; Blackbox.status := 200;
            Blackbox.text := Return s;
            Blackbox.json :=
              Return {| Blackbox.choices :=
                          Some [ {| Blackbox.message :=
                                      Some {| Blackbox.content := Some s |} |} ];
                        Blackbox.response := None |} |}.

Definition fetch_fenced (prompt : string) (maxTokens : nat)
    : Completion Blackbox.HttpResponse :=
  if (maxTokens =? 500)%nat then
    answer_of ("Here is the file:" +:+ JS.nl +:+ "```json" +:+ JS.nl
               +:+ "{ " +:+ JS.dq +:+ "framework" +:+ JS.dq +:+ ": " +:+ JS.dq +:+ "nextjs"
               +:+ JS.dq +:+ " }" +:+ JS.nl +:+ "```")
  else if (maxTokens =? 400)%nat then
    answer_of ("```env" +:+ JS.nl +:+ "API_KEY=" +:+ JS.nl +:+ "```")
  else answer_of "The code base is small.".

Definition JSON_parse_nothing (text : string) : option Blackbox.unknown := None.

(** The code-insight agent as the orchestrator calls it: the client is
    made from the token, for the owner and the repository of the call. *)
Definition codeInsightAgent
    (JSON_parse : string -> option Blackbox.unknown)
    (clientFor : string -> string -> string -> GitHubClient)
    (apiKey : option string)
    (fetch : string -> nat -> Completion Blackbox.HttpResponse)
    (owner repo : string) (analysis : RepoAnalysis) (githubToken : string)
    : AgentRun BlackboxAgent.BlackboxAgentResult :=
  Blackbox.runBlackboxAgent JSON_parse (clientFor githubToken owner repo) apiKey fetch
    owner repo analysis.

(** A repository given by its directory listings. *)
Definition clientOfListings (listings : list (string * list DirEntry)) : GitHubClient :=
  {| getFileContent := fun _ => None;
     getRepoContents :=
       fun path =>
         match find (fun l => (fst l =? path)%string) listings with
         | Some l => Some (Listing (snd l))
         | None => None
         end |}.

Definition listings_nested : list (string * list DirEntry) :=
  [ ("", [ {| entry_type := "file"; entry_path := "README.md" |};
           {| entry_type := "dir"; entry_path := "src" |};
           {| entry_type := "file"; entry_path := "package.json" |} ]);
    ("src", [ {| entry_type := "file"; entry_path := "src/index.ts" |};
              {| entry_type := "dir"; entry_path := "src/lib" |} ]);
    ("src/lib", [ {| entry_type := "file"; entry_path := "src/lib/util.ts" |} ]) ].

(** What one entry of a listing adds to the array of [getFileTree], when
    [deeper] depths are open below the listing. *)
Definition visit (client : GitHubClient) (deeper : nat) (item : DirEntry) : list string :=
  if (entry_type item =? "dir")%string && (0 <? deeper)%nat
  then traverse client deeper (entry_path item) []
  else if (entry_type item =? "file")%string then [entry_path item] else [].

(** The names [detectFramework] and [detectBackendType] can give. *)
Definition frameworkNames : list string :=
  "Unknown" :: "Node.js" :: map snd frameworkMarkers.

Definition backendNames : list string :=
  "Frontend" :: map snd backendMarkers.

Definition isBackquote (c : ascii) : bool := RE.charIs 96 c.

(* ================================================================== *)
(** ** The progress callbacks                                          *)
(* ================================================================== *)

(** [runOpenAIAgent] and [runOrchestrator] above are the runs with a
    callback that returns from every call.  [Observed] has the same runs
    with the callback of the caller as it is: a function of the calls
    made so far, the current one last, that returns ([None]) or throws
    ([Some] the thrown value, as the text [String(err)] gives). *)
Module Observed.

Import OpenAIAgent.

Definition AgentCallback := list (string * option string) -> option string.

(** What reading a property of [null] throws. *)
Definition nullPath : string :=
  "TypeError: Cannot read properties of null (reading 'path')".

(** [JSON.parse(text) as Record<string, string>] and the read of
    [args.path] that follows it in the tool loop of a run with a
    callback: text that is not JSON makes [JSON.parse] throw, and the
    value [null] makes the read throw.  Every other value is read as
    [Blackbox.recordOr] reads one. *)
Definition parseArguments (parse : string -> Completion Blackbox.unknown) (text : string)
    : Completion JS.Rec :=
  match parse text with
  | Throw err => Throw err
  | Return Blackbox.UNull => Throw nullPath
  | Return args => Return (Blackbox.recordOr (Some args))
  end.

Section Agent.

(** [JSON.parse]; it throws on text that is not JSON. *)
Variable parse : string -> Completion Blackbox.unknown.
Variable github : GitHubClient.
Variables owner repo : string.
Variable analysis : RepoAnalysis.
(** The parameter [onStep], which is optional. *)
Variable onStep : option AgentCallback.

(** [onStep?.(label, detail)]: without a callback nothing is called. *)
Definition report (label : string) (detail : option string) (st : LoopState)
    : LoopState * option string :=
  match onStep with
  | None => (st, None)
  | Some callback =>
      let st := OpenAIAgent.onStep label detail st in (st, callback (reported st))
  end.

(** [args.path]. *)
Definition path (args : Blackbox.unknown) : Completion (option string) :=
  match args with
  | Blackbox.UNull => Throw nullPath
  | _ => Return (JS.prop (Blackbox.recordOr (Some args)) "path")
  end.

(** [executeTool] on arguments that may be [null]: the two tools read
    [args.path] inside the [try], so the exception becomes the text of
    the tool message. *)
Definition executeTool (name : string) (args : Blackbox.unknown) : string :=
  match args with
  | Blackbox.UNull =>
      if (name =? "read_repo_file")%string || (name =? "list_repo_files")%string
      then "Tool error: " +:+ nullPath
      else "Unknown tool"
  | _ => OpenAIAgent.executeTool name (Blackbox.recordOr (Some args)) github
  end.

(** The [for] loop over [message.tool_calls].  The arguments of
    [onStep?.(...)] are evaluated only when a callback is given. *)
Fixpoint runToolCalls (calls : list ToolCall) (st : LoopState)
    : LoopState * option string :=
  match calls with
  | [] => (st, None)
  | toolCall :: calls' =>
      if negb (tc_type toolCall =? "function")%string then runToolCalls calls' st
      else
        match parse (fn_arguments toolCall) with
        | Throw err => (st, Some err)
        | Return args =>
            let reading :=
              match onStep with
              | None => (st, None)
              | Some _ =>
                  match path args with
                  | Throw err => (st, Some err)
                  | Return p =>
                      report ("Reading " +:+ JS.or_else p "repo files")
                             (Some ("Tool: " +:+ fn_name toolCall)) st
                  end
              end in
            match reading with
            | (st, Some err) => (st, Some err)
            | (st, None) =>
                let result := executeTool (fn_name toolCall) args in
                runToolCalls calls' (push (ToolMessage (tc_id toolCall) result) st)
            end
        end
  end.

(** The [while] loop, on the script of the answers of the completion
    endpoint. *)
Fixpoint agentLoop (script : list (Completion AssistantMessage)) (st : LoopState)
    : LoopState * Completion OpenAIAgentResult :=
  if (iterations st <? maxIterations)%nat then
    let st := tick st in
    match script with
    | [] => (st, Throw "Error: Connection error.")
    | Throw err :: _ => (st, Throw err)
    | Return message :: script' =>
        let st := push (AssistantTurn message) st in
        match tool_calls message with
        | None | Some [] =>
            match report "OpenAI generation complete" (Some "Parsing response") st with
            | (st, Some err) => (st, Throw err)
            | (st, None) =>
                (st, Return (parseAgentResponse (JS.or_else (content message) "")
                               analysis repo))
            end
        | Some calls =>
            match runToolCalls calls st with
            | (st', Some err) => (st', Throw err)
            | (st', None) => agentLoop script' st'
            end
        end
    end
  else (st, Return (generateFallbackResult analysis repo)).

Definition runLoop (script : list (Completion AssistantMessage))
    : LoopState * Completion OpenAIAgentResult :=
  match report "Connecting to OpenAI" (Some "Using gpt-4o-mini")
          {| messages :=
               [ SystemMessage (systemPrompt owner repo analysis);
                 UserMessage (userPrompt owner repo) ];
             iterations := 0;
             reported := [] |} with
  | (st, Some err) => (st, Throw err)
  | (st, None) => agentLoop script st
  end.

(** The number of completion requests of a run. *)
Definition rounds (script : list (Completion AssistantMessage)) : nat :=
  iterations (fst (runLoop script)).

Definition runOpenAIAgent (script : list (Completion AssistantMessage))
    : AgentRun OpenAIAgentResult :=
  let '(st, result) := runLoop script in
  {| progress := reported st; outcome := result |}.

End Agent.

Import Orchestrator.

(** The [onStep] of [OrchestratorOptions]; an absent callback is the
    one that always returns. *)
Definition Callback := list AgentStep -> option string.

Section Run.

Variable generateReadme : string -> RepoAnalysis -> option string -> string.
Variable JSON_parse : string -> option LandingCopy.
Variable analyze : string -> string -> string -> Completion RepoAnalysis.
(** The two agents as they run with a callback that returns.  Neither
    agent of the sources calls its callback inside a [try]: with a
    callback that throws, an agent makes its progress calls up to the
    first that throws and rejects with what was thrown. *)
Variable runBlackboxAgent :
  string -> string -> RepoAnalysis -> string -> AgentRun BlackboxAgent.BlackboxAgentResult.
Variable runOpenAIAgent :
  string -> string -> RepoAnalysis -> string -> AgentRun OpenAIAgentResult.
Variable onStep : Callback.

(** [onStep?.(step)], after the step has been recorded by [addStep] or
    [mutateStep]. *)
Definition notify (st : OState) : option string := onStep (emitted st).

(** The progress calls of an agent, each through the closure that
    relabels the step and calls [onStep], up to the first that throws. *)
Fixpoint replay (step : nat) (calls : list (string * option string)) (st : OState)
    : OState * option string :=
  match calls with
  | [] => (st, None)
  | call :: calls' =>
      let st := relabelStep step st call in
      match notify st with
      | Some err => (st, Some err)
      | None => replay step calls' st
      end
  end.

(** One agent stage.  [addStep] stands before the [try], so a callback
    that throws there rejects the run; the result of the agent is
    assigned before [completeStep], so it stays when the callback throws
    there and the step is failed; a callback that throws in the [catch]
    block rejects the run. *)
Definition agentStage {R : Type}
    (label doneDetail : string) (run : AgentRun R) (st : OState)
    : OState * Completion (option R) :=
  let '(step, st) := addStep label running None st in
  match notify st with
  | Some err => (st, Throw err)
  | None =>
      let '(st, interrupted) := replay step (progress run) st in
      let caught (result : option R) (err : string) (st : OState) :=
        let st := failStep step ("Falling back to templates: " +:+ err) st in
        match notify st with
        | Some err' => (st, Throw err')
        | None => (st, Return result)
        end in
      match interrupted with
      | Some err => caught None err st
      | None =>
          match outcome run with
          | Throw err => caught None err st
          | Return result =>
              let st := completeStep step (Some doneDetail) st in
              match notify st with
              | Some err => caught (Some result) err st
              | None => (st, Return (Some result))
              end
          end
      end
  end.

Definition runOrchestrator (options : OrchestratorOptions)
    : OState * Completion AgentResult :=
  let '(analysisStep, st) :=
    addStep "Analyzing repository structure" running None initial in
  match notify st with
  | Some err => (st, Throw err)
  | None =>
      let caught (err : string) (st : OState) :=
        let st := failStep analysisStep err st in
        match notify st with
        | Some err' => (st, Throw err')
        | None => (st, Throw ("Error: Repository analysis failed: " +:+ err))
        end in
      match analyze (githubToken options) (owner options) (repo options) with
      | Throw err => caught err st
      | Return analysis =>
          let st :=
            completeStep analysisStep
              (Some (framework analysis +:+ " · Risk: "
                     +:+ JS.String_of_Z (deploymentRiskScore analysis) +:+ "%")) st in
          match notify st with
          | Some err => caught err st
          | None =>
              match agentStage "Blackbox AI: Deep code analysis"
                      "Config & env template generated"
                      (runBlackboxAgent (owner options) (repo options) analysis
                         (githubToken options)) st with
              | (st, Throw err) => (st, Throw err)
              | (st, Return blackboxResult) =>
                  match agentStage "OpenAI: Generating README & landing page"
                          "README & landing page ready"
                          (runOpenAIAgent (owner options) (repo options) analysis
                             (githubToken options)) st with
                  | (st, Throw err) => (st, Throw err)
                  | (st, Return openaiResult) =>
                      (* addStep and, after the merge, completeStep *)
                      let added := snd (addStep "Assembling final output" running None st) in
                      match notify added with
                      | Some err => (added, Throw err)
                      | None =>
                          let '(st, result) :=
                            merge generateReadme JSON_parse options analysis
                              blackboxResult openaiResult st in
                          match notify st with
                          | Some err => (st, Throw err)
                          | None => (st, Return result)
                          end
                      end
                  end
              end
          end
      end
  end.

End Run.

End Observed.

(** Arguments that are objects, or other JSON than [null]. *)
Definition objectRound (parse : string -> Completion Blackbox.unknown)
    (r : Completion OpenAIAgent.AssistantMessage) : Prop :=
  match r with
  | Return m =>
      match OpenAIAgent.tool_calls m with
      | Some (c :: calls) =>
          Forall (fun tc =>
                    OpenAIAgent.tc_type tc = "function" ->
                    exists args,
                      parse (OpenAIAgent.fn_arguments tc) = Return args
                      /\ args <> Blackbox.UNull)
                 (c :: calls)
      | _ => False
      end
  | Throw _ => False
  end.

(** A progress callback returns from every call. *)
Definition returns {A : Type} (callback : list A -> option string) : Prop :=
  forall calls, callback calls = None.

Definition returnsIfGiven (onStep : option Observed.AgentCallback) : Prop :=
  match onStep with
  | Some callback => returns callback
  | None => True
  end.

(** A callback that throws in its [n]-th call and in no other. *)
Definition throwsAt {A : Type} (n : nat) (err : string) (calls : list A) : option string :=
  if (length calls =? n)%nat then Some err else None.

(** [JSON.parse] that knows the empty object and [null]. *)
Definition parse_empty_or_null (text : string) : Completion Blackbox.unknown :=
  if (text =? "{}")%string then Return (Blackbox.UObject [])
  else if (text =? "null")%string then Return Blackbox.UNull
  else Throw "SyntaxError: Unexpected end of JSON input".

Definition round_null_arguments : Completion OpenAIAgent.AssistantMessage :=
  Return {| OpenAIAgent.content := None;
            OpenAIAgent.tool_calls :=
              Some [ {| OpenAIAgent.tc_id := "call_1";
                        OpenAIAgent.tc_type := "function";
                        OpenAIAgent.fn_name := "read_repo_file";
                        OpenAIAgent.fn_arguments := "null" |} ] |}.

(** A numbered line of an answer: a digit, a dot, a space and the text.
    The text is one the pattern of the recommendations reads whole: it
    begins with a visible ASCII character and holds no line feed. *)
Definition numberedLine (item : ascii * string) : string :=
  String (fst item) (String "."%char (String " "%char (snd item))).

Definition isVisible (c : ascii) : bool :=
  let n := nat_of_ascii c in ((33 <=? n) && (n <? 127))%nat.

Definition numbered (item : ascii * string) : bool :=
  isDigit (fst item)
  && match snd item with
     | EmptyString => false
     | String c s => isVisible c && noNewline s
     end.

(* ================================================================== *)
(** * Properties                                                       *)
(* ================================================================== *)

(** ** Worked examples *)

Example matchEnvLine_spaced : matchEnvLine "FOO_1  = x" = Some "FOO_1".
Proof. reflexivity. Qed.

Example matchEnvLine_lower_case : matchEnvLine "foo=1" = None.
Proof. reflexivity. Qed.

Example matchEnvLine_indented : matchEnvLine " FOO=1" = None.
Proof. reflexivity. Qed.

Example matchEnvLine_export : matchEnvLine "export FOO=1" = None.
Proof. reflexivity. Qed.

Example detectEnvVars_union :
  detectEnvVars
    (clientOfFiles [ (".env", "B=2" +:+ JS.nl +:+ "A=3");
                     (".env.example", "A=1" +:+ JS.nl +:+ "# note" +:+ JS.nl +:+ "C = 4") ])
  = ["A"; "C"; "B"].
Proof. reflexivity. Qed.

Example detectFramework_dev_dependency :
  detectFramework
    (Some {| dependencies := Some [("express", "4.18.2")];
             devDependencies := Some [("vue", "3.4.0")];
             scripts := None |})
  = "Vue".
Proof. reflexivity. Qed.

Example detectFramework_empty_version :
  detectFramework
    (Some {| dependencies := Some [("next", ""); ("react", "18.2.0")];
             devDependencies := None; scripts := None |})
  = "React".
Proof. reflexivity. Qed.

Example calculateRiskScore_capped :
  calculateRiskScore
    {| rp_framework := "Unknown"; rp_buildScript := None; rp_hasDocker := false;
       rp_envVarsCount := 9; rp_missingConfigsCount := 40 |}
  = 100%Z.
Proof. reflexivity. Qed.

Example generateVercelJsonFile_next :
  generateVercelJsonFile analysis_next
  = "{" +:+ JS.nl
    +:+ "  " +:+ JS.quote "outputDirectory" +:+ ": " +:+ JS.quote ".next" +:+ "," +:+ JS.nl
    +:+ "  " +:+ JS.quote "installCommand" +:+ ": " +:+ JS.quote "npm install" +:+ "," +:+ JS.nl
    +:+ "  " +:+ JS.quote "devCommand" +:+ ": " +:+ JS.quote "npm run dev" +:+ "," +:+ JS.nl
    +:+ "  " +:+ JS.quote "framework" +:+ ": " +:+ JS.quote "nextjs" +:+ JS.nl
    +:+ "}".
Proof. reflexivity. Qed.

Example generateEnvTemplate_two_vars :
  generateEnvTemplate analysis_env
  = "# Environment variables
# Copy this file to .env.local and fill in the values

API_KEY=your-key-here
DB_HOST=localhost
".
Proof. reflexivity. Qed.

Example generatePackageJsonScripts_react :
  generatePackageJsonScripts analysis_react
  = [("build", "vite build"); ("start", "npm run build && npm run preview"); ("dev", "vite")].
Proof. reflexivity. Qed.

Example parseAgentResponse_plain :
  let o := OpenAIAgent.parseAgentResponse answer_plain analysis_next "shop" in
  OpenAIAgent.readme o = answer_plain
  /\ OpenAIAgent.deploymentRecommendations o = ["Set the env vars"]
  /\ OpenAIAgent.landingPageCopy o
     = JS.stringify
         (JS.JObj [ ("headline", JS.JStr "Open your shop");
                    ("subheadline", JS.JStr "Next.js app ready for deployment");
                    ("features",
                     JS.JArr [JS.JStr "Fast deployment"; JS.JStr "Production ready";
                              JS.JStr "Easy configuration"]) ]).
Proof. repeat split; reflexivity. Qed.

Example parseAgentResponse_blank_fence :
  OpenAIAgent.readme (OpenAIAgent.parseAgentResponse answer_blank_readme analysis_next "shop")
  = "".
Proof. reflexivity. Qed.

Example matchFeatures_list :
  RE.search OpenAIAgent.matchFeatures "Features: [fast, small , safe, more]"
  = Some "fast, small , safe, more".
Proof. reflexivity. Qed.

Example matchFeatures_backtracks :
  RE.search OpenAIAgent.matchFeatures "features: ]" = Some " ".
Proof. reflexivity. Qed.

Example matchAll_numbered_lines :
  OpenAIAgent.matchAll OpenAIAgent.matchRec 0
    ("1. one" +:+ JS.nl +:+ "x 2.  two  " +:+ JS.nl +:+ "3.three")
  = ["1. one"; "2.  two  "].
Proof. reflexivity. Qed.

Example buildDefaultRecommendations_next :
  Orchestrator.buildDefaultRecommendations analysis_next
  = [ "Add a build script to package.json: " +:+ JS.quote "build" +:+ ": "
      +:+ JS.quote "next build";
      "Consider adding a Dockerfile for containerized deployments";
      "Configure health check endpoints for production monitoring" ].
Proof. reflexivity. Qed.

(** The padding loop of buildDefaultRecommendations leaves by its own
    guard within three rounds. *)
Lemma padRecommendations_exits (recs : list string) :
  (3 <= length (Orchestrator.padRecommendations 3 recs))%nat.
Proof.
  cbn [Orchestrator.padRecommendations].
  repeat match goal with
         | |- context [(length ?l <? 3)%nat] =>
             destruct (Nat.ltb_spec (length l) 3); [| lia]
         end.
  rewrite !length_app in *. simpl in *. lia.
Qed.

(** ** Analyzer *)

Lemma calculateRiskScore_bounds (params : RiskParams) :
  (0 <= calculateRiskScore params <= 100)%Z.
Proof.
  unfold calculateRiskScore.
  destruct (JS.truthyOpt (rp_buildScript params)), (rp_hasDocker params); simpl;
    destruct (Z.gtb_spec (rp_missingConfigsCount params) 0);
    destruct (Z.gtb_spec (rp_envVarsCount params) 5); lia.
Qed.

(** C9.  For every input of the risk-score computation (build script
    present or not, Docker or not, any env var count, any missing-config
    count) the score is an integer between 0 and 100; so is the
    deploymentRiskScore of every analysis. *)
Theorem calculateRiskScore_range :
  (forall params : RiskParams, (0 <= calculateRiskScore params <= 100)%Z)
  /\ (forall JSON_parse client,
        (0 <= deploymentRiskScore (analyze JSON_parse client) <= 100)%Z).
Proof.
  split; [exact calculateRiskScore_bounds |].
  intros JSON_parse client. unfold analyze. cbn [deploymentRiskScore].
  apply calculateRiskScore_bounds.
Qed.


(** C4 as stated fails: in its scenario the score is 50, so the stated
    analysis with the score 40 is not what [analyze] returns. *)
Lemma next_manifest_score_is_not_40 :
  let a := analyze (JSON_parse_at manifest_next_text manifest_next)
                   (clientOfFiles [("package.json", manifest_next_text)]) in
  deploymentRiskScore a = 50%Z
  /\ ~ (framework a = "Next.js"
        /\ hasDocker a = false
        /\ envVarsDetected a = []
        /\ missingConfigs a = ["build script"; "start script"; "dev script"; "next.config.js"]
        /\ deploymentRiskScore a = 40%Z).
Proof.
  split; [reflexivity |].
  intros (_ & _ & _ & _ & H). vm_compute in H. discriminate H.
Qed.

(** C4, amended.  For the manifest with the single dependency next at
    14.0.0, no Dockerfile and no env files, the analysis has framework
    Next.js, no Docker, no env vars, the four missing configs build
    script, start script, dev script and next.config.js, and the risk
    score 20 + 10 + 4 * 5 = 50. *)
Theorem next_manifest_scenario (JSON_parse : string -> option PackageJson) :
  JSON_parse manifest_next_text = Some manifest_next ->
  let a := analyze JSON_parse (clientOfFiles [("package.json", manifest_next_text)]) in
  framework a = "Next.js"
  /\ hasDocker a = false
  /\ envVarsDetected a = []
  /\ missingConfigs a = ["build script"; "start script"; "dev script"; "next.config.js"]
  /\ deploymentRiskScore a = 50%Z.
Proof.
  intros H a.
  assert (Hpj : getPackageJson JSON_parse
                  (clientOfFiles [("package.json", manifest_next_text)])
                = Some manifest_next).
  { unfold getPackageJson. cbn [getFileContent clientOfFiles].
    change (JS.prop [("package.json", manifest_next_text)] "package.json")
      with (Some manifest_next_text).
    cbv iota beta. rewrite H. reflexivity. }
  subst a. unfold analyze. rewrite Hpj. repeat split; reflexivity.
Qed.

Lemma next_manifest_scenario_witness :
  let a := analyze (JSON_parse_at manifest_next_text manifest_next)
                   (clientOfFiles [("package.json", manifest_next_text)]) in
  framework a = "Next.js"
  /\ hasDocker a = false
  /\ envVarsDetected a = []
  /\ missingConfigs a = ["build script"; "start script"; "dev script"; "next.config.js"]
  /\ deploymentRiskScore a = 50%Z.
Proof.
  apply (next_manifest_scenario (JSON_parse_at manifest_next_text manifest_next)).
  reflexivity.
Defined.

(** C6 as stated fails: a manifest that exists and matches no framework
    marker, but has neither dependency map, gives Unknown and not
    Node.js. *)
Lemma manifest_without_dependency_maps_is_unknown :
  Forall (fun m => JS.truthyOpt (JS.prop (mergedDeps manifest_scripts_only) (fst m)) = false)
         frameworkMarkers
  /\ detectFramework (Some manifest_scripts_only) = "Unknown"
  /\ detectFramework (Some manifest_scripts_only) <> "Node.js".
Proof.
  split; [repeat constructor |]. split; [reflexivity |]. discriminate.
Qed.

Lemma mergedDeps_without_maps pj :
  noDependencyMaps (Some pj) = true -> mergedDeps pj = [].
Proof.
  unfold noDependencyMaps, mergedDeps.
  destruct (dependencies pj), (devDependencies pj); intros H; try discriminate H.
  reflexivity.
Qed.

(** [detectFramework] is the priority list [frameworkMarkers] read with
    first match wins. *)
Lemma detectFramework_firstMarker pj :
  detectFramework (Some pj)
  = if noDependencyMaps (Some pj) then "Unknown" else firstMarker (mergedDeps pj).
Proof.
  unfold detectFramework, firstMarker.
  destruct (noDependencyMaps (Some pj)); [reflexivity |].
  cbn [find frameworkMarkers fst snd].
  repeat match goal with
         | |- context [JS.truthyOpt ?x] => destruct (JS.truthyOpt x); [reflexivity |]
         end.
  reflexivity.
Qed.

(** C6, amended.  Framework detection is a fixed priority list with first
    match wins.  A manifest whose merged dependency map has a non-empty
    entry for next gives Next.js, whatever else it holds (react
    included).  A manifest with at least one of dependencies and
    devDependencies and no non-empty marker entry gives Node.js.  Unknown
    is the result when no manifest exists and also when the manifest has
    neither dependencies nor devDependencies. *)
Theorem detectFramework_priority (pj : PackageJson) :
  detectFramework None = "Unknown"
  /\ detectFramework (Some pj)
     = (if noDependencyMaps (Some pj) then "Unknown" else firstMarker (mergedDeps pj))
  /\ (JS.truthyOpt (JS.prop (mergedDeps pj) "next") = true ->
      detectFramework (Some pj) = "Next.js")
  /\ (noDependencyMaps (Some pj) = false ->
      Forall (fun m => JS.truthyOpt (JS.prop (mergedDeps pj) (fst m)) = false)
             frameworkMarkers ->
      detectFramework (Some pj) = "Node.js")
  /\ (detectFramework (Some pj) = "Unknown" <-> noDependencyMaps (Some pj) = true).
Proof.
  split; [reflexivity |]. split; [apply detectFramework_firstMarker |].
  rewrite detectFramework_firstMarker.
  split; [| split].
  - intros Hnext.
    destruct (noDependencyMaps (Some pj)) eqn:Hmaps.
    + rewrite (mergedDeps_without_maps pj Hmaps) in Hnext. discriminate Hnext.
    + unfold firstMarker. cbn [find frameworkMarkers fst snd]. rewrite Hnext. reflexivity.
  - intros -> Hnone. unfold firstMarker.
    destruct (find _ frameworkMarkers) as [m |] eqn:Hfind; [| reflexivity].
    apply find_some in Hfind as [Hin Htrue].
    rewrite Forall_forall in Hnone. rewrite (Hnone m) in Htrue; [discriminate Htrue |].
    apply list_elem_of_In. exact Hin.
  - destruct (noDependencyMaps (Some pj)); [tauto |].
    split; [| discriminate].
    unfold firstMarker. cbn [find frameworkMarkers fst snd].
    repeat match goal with
           | |- context [JS.truthyOpt ?x] => destruct (JS.truthyOpt x); [discriminate |]
           end.
    discriminate.
Qed.

Lemma detectFramework_priority_witness :
  detectFramework (Some manifest_next_react) = "Next.js"
  /\ detectFramework (Some manifest_lodash) = "Node.js".
Proof.
  split.
  - apply (detectFramework_priority manifest_next_react). reflexivity.
  - apply (detectFramework_priority manifest_lodash); [reflexivity | repeat constructor].
Defined.

(** ** Template generators *)

Lemma prop_assign (o : JS.Rec) (k v k' : string) :
  JS.prop (JS.assign o k v) k' = if (k =? k')%string then Some v else JS.prop o k'.
Proof.
  induction o as [| [k0 v0] o IH]; simpl.
  - reflexivity.
  - destruct (String.eqb_spec k0 k) as [-> | Hne]; simpl.
    + destruct (String.eqb_spec k k'); reflexivity.
    + rewrite IH. destruct (String.eqb_spec k0 k') as [-> | Hne'].
      * destruct (String.eqb_spec k k'); [congruence | reflexivity].
      * reflexivity.
Qed.

Lemma prop_placeholders (vars : list string) (acc : JS.Rec) (k : string) :
  JS.prop (fold_left (fun acc envVar => JS.assign acc envVar ("@" +:+ envVar)) vars acc) k
  = if existsb (String.eqb k) vars then Some ("@" +:+ k) else JS.prop acc k.
Proof.
  revert acc. induction vars as [| v vars IH]; intros acc; simpl.
  - reflexivity.
  - rewrite IH, prop_assign.
    destruct (existsb (String.eqb k) vars).
    + rewrite orb_true_r. reflexivity.
    + rewrite orb_false_r, String.eqb_sym.
      destruct (String.eqb_spec k v) as [-> | _]; reflexivity.
Qed.

Lemma stringify_pretty_object_nonempty (ind : string) (fields : list (string * JS.json)) :
  JS.stringify_pretty ind (JS.JObj fields) <> "".
Proof. destruct fields; discriminate. Qed.

Lemma vercelConfig_tables (analysis : RepoAnalysis) :
  member "outputDirectory" (vercelConfigObject analysis)
    = Some (JS.JStr (getOutputDirectory (framework analysis)))
  /\ member "framework" (vercelConfigObject analysis)
     = Some (JS.JStr (getFrameworkConfig (framework analysis))).
Proof.
  unfold vercelConfigObject.
  destruct (0 <? length (envVarsDetected analysis))%nat; split; reflexivity.
Qed.

Lemma vercelConfig_env (analysis : RepoAnalysis) :
  member "env" (vercelConfigObject analysis)
  = match envVarsDetected analysis with
    | [] => None
    | _ :: _ => Some (JS.JRec (envPlaceholders (envVarsDetected analysis)))
    end.
Proof.
  unfold vercelConfigObject.
  destruct (envVarsDetected analysis); reflexivity.
Qed.

Lemma generateVercelJsonFile_empty (analysis : RepoAnalysis) :
  generateVercelJsonFile analysis = "" <-> framework analysis <> "Next.js".
Proof.
  unfold generateVercelJsonFile.
  destruct (String.eqb_spec (framework analysis) "Next.js") as [Heq | Hne]; simpl.
  - split; [| congruence].
    intros H. exfalso. revert H. apply stringify_pretty_object_nonempty.
  - split; [intros _; exact Hne | reflexivity].
Qed.

(** C5 as stated fails for both generators.  The generator the
    orchestrator uses emits nothing for React, a framework both lookup
    tables know; the generator that reads the lookup tables emits a
    config for a repository whose framework is unknown. *)
Lemma vercel_generators_recognized_and_empty :
  getFrameworkConfig (framework analysis_react) = "react"
  /\ getOutputDirectory (framework analysis_react) = "dist"
  /\ generateVercelJsonFile analysis_react = ""
  /\ framework analysis_unknown = "Unknown"
  /\ getFrameworkConfig (framework analysis_unknown) = ""
  /\ generateVercelConfig analysis_unknown <> "".
Proof. repeat split; try reflexivity. discriminate. Qed.

(** C5, amended.  [generateVercelConfig] maps the framework to its output
    directory and platform identifier through the two lookup tables, has
    the member env exactly when env vars were detected, each detected
    variable mapped to its placeholder, and is never empty, whatever the
    framework.  [generateVercelJsonFile], the generator of the
    orchestrator and of the free endpoint, is empty exactly when the
    framework is not Next.js. *)
Theorem vercel_generators (analysis : RepoAnalysis) :
  member "outputDirectory" (vercelConfigObject analysis)
    = Some (JS.JStr (getOutputDirectory (framework analysis)))
  /\ member "framework" (vercelConfigObject analysis)
     = Some (JS.JStr (getFrameworkConfig (framework analysis)))
  /\ (member "env" (vercelConfigObject analysis) <> None <-> envVarsDetected analysis <> [])
  /\ (forall v, In v (envVarsDetected analysis) ->
        member "env" (vercelConfigObject analysis)
          = Some (JS.JRec (envPlaceholders (envVarsDetected analysis)))
        /\ JS.prop (envPlaceholders (envVarsDetected analysis)) v = Some ("@" +:+ v))
  /\ generateVercelConfig analysis <> ""
  /\ (generateVercelJsonFile analysis = "" <-> framework analysis <> "Next.js").
Proof.
  split; [apply vercelConfig_tables |]. split; [apply vercelConfig_tables |].
  pose proof (vercelConfig_env analysis) as Henv.
  split; [| split; [| split; [| apply generateVercelJsonFile_empty]]].
  - rewrite Henv. destruct (envVarsDetected analysis); simpl; split; congruence.
  - intros v Hv. rewrite Henv.
    destruct (envVarsDetected analysis) as [| v0 vars] eqn:Hvars; [destruct Hv |].
    split; [reflexivity |].
    unfold envPlaceholders. rewrite prop_placeholders.
    replace (existsb (String.eqb v) (v0 :: vars)) with true; [reflexivity |].
    symmetry. apply existsb_exists. exists v. split; [assumption | apply String.eqb_refl].
  - apply stringify_pretty_object_nonempty.
Qed.

Lemma vercel_generators_witness :
  member "env" (vercelConfigObject analysis_env)
    = Some (JS.JRec (envPlaceholders (envVarsDetected analysis_env)))
  /\ JS.prop (envPlaceholders (envVarsDetected analysis_env)) "DB_HOST" = Some "@DB_HOST".
Proof.
  apply (vercel_generators analysis_env). simpl. right. left. reflexivity.
Defined.

(** ** The content agent *)

Section ContentAgent.

Import OpenAIAgent.

Variable JSON_parse : string -> Completion JS.Rec.
Variable github : GitHubClient.
Variables owner repo : string.
Variable analysis : RepoAnalysis.

#[local] Abbreviation runToolCalls := (runToolCalls JSON_parse github).
#[local] Abbreviation agentLoop := (agentLoop JSON_parse github repo analysis).

Lemma runToolCalls_iterations calls st :
  iterations (fst (runToolCalls calls st)) = iterations st.
Proof.
  revert st. induction calls as [| tc calls IH]; intros st; simpl; [reflexivity |].
  destruct (negb (tc_type tc =? "function")%string); [apply IH |].
  destruct (JSON_parse (fn_arguments tc)); [| reflexivity].
  rewrite IH. reflexivity.
Qed.

Lemma runToolCalls_parsed calls st :
  Forall (fun tc => tc_type tc = "function" ->
                    exists args, JSON_parse (fn_arguments tc) = Return args) calls ->
  snd (runToolCalls calls st) = None.
Proof.
  intros H. revert st. induction H as [| tc calls Htc _ IH]; intros st; simpl; [reflexivity |].
  destruct (String.eqb_spec (tc_type tc) "function") as [Hty | Hty]; simpl; [| apply IH].
  destruct (Htc Hty) as [args ->]. apply IH.
Qed.

(** One unfolding of the loop. *)
Lemma agentLoop_unfold script st :
  agentLoop script st
  = if (iterations st <? maxIterations)%nat then
      match script with
      | [] => (tick st, Throw "Error: Connection error.")
      | Throw err :: _ => (tick st, Throw err)
      | Return message :: script' =>
          let st1 := push (AssistantTurn message) (tick st) in
          match tool_calls message with
          | None | Some [] =>
              (onStep "OpenAI generation complete" (Some "Parsing response") st1,
               Return (parseAgentResponse (JS.or_else (content message) "") analysis repo))
          | Some calls =>
              match runToolCalls calls st1 with
              | (st', Some err) => (st', Throw err)
              | (st', None) => agentLoop script' st'
              end
          end
      end
    else (st, Return (generateFallbackResult analysis repo)).
Proof. destruct script as [| [m | err] script']; reflexivity. Qed.

(** The round counter never passes the bound. *)
Lemma agentLoop_bounded script st :
  (iterations st <= maxIterations)%nat ->
  (iterations (fst (agentLoop script st)) <= maxIterations)%nat.
Proof.
  revert st. induction script as [| r script IH]; intros st Hst;
    rewrite agentLoop_unfold;
    destruct (Nat.ltb_spec (iterations st) maxIterations) as [Hlt | Hge];
    try exact Hst.
  - simpl. lia.
  - destruct r as [m | err]; [| simpl; lia].
    cbv zeta.
    destruct (tool_calls m) as [[| c calls] |]; try (simpl; lia).
    pose proof (runToolCalls_iterations (c :: calls) (push (AssistantTurn m) (tick st))) as Hit.
    destruct (runToolCalls (c :: calls) (push (AssistantTurn m) (tick st))) as [st' [err |]];
      simpl in Hit.
    + simpl. lia.
    + apply IH. lia.
Qed.

(** Rounds of runnable tool calls up to the bound end in the fallback. *)
Lemma agentLoop_tool_rounds rs rest st :
  Forall (toolRound JSON_parse) rs ->
  (iterations st + length rs = maxIterations)%nat ->
  snd (agentLoop (rs ++ rest) st) = Return (generateFallbackResult analysis repo)
  /\ iterations (fst (agentLoop (rs ++ rest) st)) = maxIterations.
Proof.
  intros H. revert st. induction H as [| r rs Hr _ IH]; intros st Hlen;
    rewrite agentLoop_unfold; simpl in Hlen.
  - destruct (Nat.ltb_spec (iterations st) maxIterations) as [Hlt | Hge]; [lia |].
    split; [reflexivity | simpl; lia].
  - destruct (Nat.ltb_spec (iterations st) maxIterations) as [Hlt | Hge]; [| lia].
    cbn [app].
    destruct r as [m | err]; [| destruct Hr].
    unfold toolRound in Hr. cbv zeta.
    destruct (tool_calls m) as [[| c calls] |]; [destruct Hr | | destruct Hr].
    pose proof (runToolCalls_iterations (c :: calls) (push (AssistantTurn m) (tick st))) as Hit.
    pose proof (runToolCalls_parsed (c :: calls) (push (AssistantTurn m) (tick st)) Hr)
      as Hok.
    destruct (runToolCalls (c :: calls) (push (AssistantTurn m) (tick st))) as [st' res];
      simpl in Hit, Hok. subst res.
    apply IH. simpl in Hit. lia.
Qed.

End ContentAgent.


(** ** The orchestrator *)

Lemma String_of_nat_inj (n m : nat) :
  JS.String_of_nat n = JS.String_of_nat m -> n = m.
Proof.
  unfold JS.String_of_nat. intros H.
  assert (Hnil : forall k, Nat.to_uint k <> Decimal.Nil).
  { intros k Hk.
    pose proof (DecimalNat.Unsigned.to_of (Nat.to_uint k)) as Hto.
    rewrite DecimalNat.Unsigned.of_to in Hto.
    rewrite Hk in Hto. symmetry in Hto. revert Hto. apply DecimalFacts.unorm_nonnil. }
  apply (f_equal NilZero.uint_of_string) in H.
  rewrite !NilZero.usu in H by apply Hnil.
  injection H as H. apply DecimalNat.Unsigned.to_uint_inj. exact H.
Qed.

Lemma statusStep_refl s : statusStep s s.
Proof. left. reflexivity. Qed.

Lemma statusStep_trans a b c : statusStep a b -> statusStep b c -> statusStep a c.
Proof. unfold statusStep. intros [-> | [-> | ->]] [-> | [-> | ->]]; auto. Qed.

Section StepList.

Import Orchestrator.

Lemma StepInv_initial : StepInv initial.
Proof.
  split; simpl; try reflexivity; try (intros; contradiction).
  - intros i j e e' _ H. rewrite lookup_nil in H. discriminate H.
  - intros i e H. rewrite lookup_nil in H. discriminate H.
Qed.

Lemma StepInv_id_at st k x :
  StepInv st -> st_steps st !! k = Some x -> id x = JS.String_of_nat (S k).
Proof.
  intros Hinv Hk.
  assert (H : map id (st_steps st) !! k = Some (id x)).
  { change (map id (st_steps st)) with (id <$> st_steps st).
    rewrite list_lookup_fmap, Hk. reflexivity. }
  rewrite (inv_ids st Hinv) in H.
  change (map JS.String_of_nat (seq 1 (stepCounter st)))
    with (JS.String_of_nat <$> seq 1 (stepCounter st)) in H.
  rewrite list_lookup_fmap in H.
  destruct (seq 1 (stepCounter st) !! k) as [n |] eqn:Hn; [| discriminate H].
  apply lookup_seq in Hn as [-> _]. simpl in H. injection H as H. symmetry. exact H.
Qed.

(** The ids of the array are pairwise distinct. *)
Lemma StepInv_ids_distinct st i j s s' :
  StepInv st -> st_steps st !! i = Some s -> st_steps st !! j = Some s' ->
  id s = id s' -> i = j.
Proof.
  intros Hinv Hi Hj Hid.
  rewrite (StepInv_id_at st i s Hinv Hi), (StepInv_id_at st j s' Hinv Hj) in Hid.
  apply String_of_nat_inj in Hid. lia.
Qed.

Lemma StepInv_length st : StepInv st -> length (st_steps st) = stepCounter st.
Proof.
  intros Hinv. pose proof (f_equal (@length _) (inv_ids st Hinv)) as H.
  rewrite !length_map, length_seq in H. exact H.
Qed.

(** The next id is the id of no step of the array and of no event. *)
Lemma StepInv_fresh_step st s :
  StepInv st -> In s (st_steps st) -> id s <> JS.String_of_nat (S (stepCounter st)).
Proof.
  intros Hinv Hin Heq.
  apply list_elem_of_In, list_elem_of_lookup in Hin as [k Hk].
  pose proof (lookup_lt_Some _ _ _ Hk) as Hlt.
  rewrite (StepInv_length st Hinv) in Hlt.
  rewrite (StepInv_id_at st k s Hinv Hk) in Heq.
  apply String_of_nat_inj in Heq. lia.
Qed.

Lemma StepInv_fresh_event st e :
  StepInv st -> In e (emitted st) -> id e <> JS.String_of_nat (S (stepCounter st)).
Proof.
  intros Hinv Hin.
  apply (inv_known st Hinv), in_map_iff in Hin as (s & <- & Hs).
  apply StepInv_fresh_step; assumption.
Qed.

Lemma lookup_snoc {A : Type} (l : list A) (x e : A) (i : nat) :
  (l ++ [x]) !! i = Some e ->
  l !! i = Some e \/ (i = length l /\ e = x).
Proof.
  intros H. apply lookup_app_Some in H as [H | [Hle H]]; [left; exact H | right].
  destruct (i - length l)%nat as [| k] eqn:Hk; simpl in H; [| rewrite lookup_nil in H; discriminate H].
  injection H as <-. split; [lia | reflexivity].
Qed.

Lemma In_lookup {A : Type} (l : list A) (x : A) : In x l <-> exists i, l !! i = Some x.
Proof. rewrite <- list_elem_of_In. apply list_elem_of_lookup. Qed.

Lemma addStep_inv label' detail' st :
  StepInv st -> StepInv (snd (addStep label' running detail' st)).
Proof.
  intros Hinv. unfold addStep. cbn [snd].
  set (new := {| id := JS.String_of_nat (S (stepCounter st)); label := label';
                 status := running; detail := detail' |}).
  assert (Hfresh_e : forall e, In e (emitted st) -> id new <> id e).
  { intros e He Heq. apply (StepInv_fresh_event st e Hinv He). symmetry. exact Heq. }
  assert (Hfresh_s : forall s, In s (st_steps st) -> id new <> id s).
  { intros s Hs Heq. apply (StepInv_fresh_step st s Hinv Hs). symmetry. exact Heq. }
  split; cbn [st_steps stepCounter emitted].
  - rewrite map_app, (inv_ids st Hinv), seq_S, map_app. reflexivity.
  - intros e He. rewrite map_app. apply in_or_app.
    apply in_app_or in He as [He | [<- | []]]; [left | right; left; reflexivity].
    apply (inv_known st Hinv). exact He.
  - intros i j e e' Hij Hi Hj.
    apply lookup_snoc in Hj as [Hj | [-> ->]].
    + apply lookup_snoc in Hi as [Hi | [-> _]].
      * exact (inv_trace st Hinv i j e e' Hij Hi Hj).
      * apply lookup_lt_Some in Hj. lia.
    + apply lookup_snoc in Hi as [Hi | [-> _]]; [| lia].
      intros Heq. exfalso. apply (Hfresh_e e); [| exact Heq].
      apply In_lookup. exists i. exact Hi.
  - intros s e Hs He.
    apply in_app_or in Hs as [Hs | [<- | []]]; apply in_app_or in He as [He | [<- | []]].
    + exact (inv_current st Hinv s e Hs He).
    + intros Heq. exfalso. apply (Hfresh_s s Hs). symmetry. exact Heq.
    + intros Heq. exfalso. apply (Hfresh_e e He). exact Heq.
    + intros _. apply statusStep_refl.
  - intros i e Hi Hfirst.
    apply lookup_snoc in Hi as [Hi | [-> ->]]; [| reflexivity].
    apply (inv_created st Hinv i e Hi).
    intros j e' Hji Hj. apply (Hfirst j e' Hji).
    apply lookup_app_l_Some. exact Hj.
  - intros s Hs. apply in_app_or in Hs as [Hs | [<- | []]].
    + destruct (inv_reported st Hinv s Hs) as (e & He & Heq).
      exists e. split; [apply in_or_app; left; exact He | exact Heq].
    + exists new. split; [apply in_or_app; right; left; reflexivity | reflexivity].
  - intros e He. apply in_app_or in He as [He | [<- | []]]; [| discriminate].
    exact (inv_no_pending st Hinv e He).
  - intros s Hs. apply in_app_or in Hs as [Hs | [<- | []]]; [| discriminate].
    exact (inv_no_pending_steps st Hinv s Hs).
Qed.

Lemma mutateStep_inv i f st :
  StepInv st ->
  (forall s, id (f s) = id s) ->
  (forall s, statusStep (status s) (status (f s))) ->
  (forall s, status s <> pending -> status (f s) <> pending) ->
  StepInv (mutateStep i f st).
Proof.
  intros Hinv Hid Hstep Hpend. unfold mutateStep.
  destruct (st_steps st !! i) as [s |] eqn:Hs; [| exact Hinv].
  assert (Hin_s : In s (st_steps st)) by (apply In_lookup; exists i; exact Hs).
  assert (Hids : map id (<[i := f s]> (st_steps st)) = map id (st_steps st)).
  { change (id <$> <[i := f s]> (st_steps st) = id <$> st_steps st).
    rewrite list_fmap_insert, Hid. apply list_insert_id.
    rewrite list_lookup_fmap, Hs. reflexivity. }
  assert (Hsplit : forall s', In s' (<[i := f s]> (st_steps st)) ->
            s' = f s \/ exists j, j <> i /\ st_steps st !! j = Some s').
  { intros s' Hs'. apply In_lookup in Hs' as [j Hj].
    apply list_lookup_insert_Some in Hj as [(-> & <- & _) | [Hne Hj]];
      [left; reflexivity | right; exists j; split; [congruence | exact Hj]]. }
  assert (Hnew : forall e, In e (emitted st) -> follows e (f s)).
  { intros e He Heq. rewrite Hid in Heq.
    eapply statusStep_trans; [exact (inv_current st Hinv s e Hin_s He Heq) | apply Hstep]. }
  split; cbn [st_steps stepCounter emitted].
  - rewrite Hids. exact (inv_ids st Hinv).
  - intros e He. rewrite Hids.
    apply in_app_or in He as [He | [<- | []]]; [exact (inv_known st Hinv e He) |].
    rewrite Hid. apply in_map. exact Hin_s.
  - intros a b e e' Hab Ha Hb.
    apply lookup_snoc in Hb as [Hb | [-> ->]].
    + apply lookup_snoc in Ha as [Ha | [-> _]].
      * exact (inv_trace st Hinv a b e e' Hab Ha Hb).
      * apply lookup_lt_Some in Hb. lia.
    + apply lookup_snoc in Ha as [Ha | [-> _]]; [| lia].
      apply Hnew. apply In_lookup. exists a. exact Ha.
  - intros s' e Hs' He.
    apply Hsplit in Hs' as [-> | (j & Hne & Hj)];
      apply in_app_or in He as [He | [<- | []]].
    + apply Hnew. exact He.
    + intros _. apply statusStep_refl.
    + apply (inv_current st Hinv s' e); [apply In_lookup; exists j; exact Hj | exact He].
    + intros Heq. exfalso. apply Hne. rewrite Hid in Heq.
      exact (StepInv_ids_distinct st j i s' s Hinv Hj Hs Heq).
  - intros a e Ha Hfirst.
    apply lookup_snoc in Ha as [Ha | [-> ->]].
    + apply (inv_created st Hinv a e Ha).
      intros j e' Hja Hj. apply (Hfirst j e' Hja). apply lookup_app_l_Some. exact Hj.
    + exfalso.
      destruct (inv_reported st Hinv s Hin_s) as (e0 & He0 & Heq0).
      apply In_lookup in He0 as [j Hj].
      apply (Hfirst j e0).
      * apply lookup_lt_Some in Hj. exact Hj.
      * apply lookup_app_l_Some. exact Hj.
      * rewrite Hid. exact Heq0.
  - intros s' Hs'.
    apply Hsplit in Hs' as [-> | (j & _ & Hj)].
    + exists (f s). split; [apply in_or_app; right; left; reflexivity | reflexivity].
    + destruct (inv_reported st Hinv s') as (e & He & Heq);
        [apply In_lookup; exists j; exact Hj |].
      exists e. split; [apply in_or_app; left; exact He | exact Heq].
  - intros e He. apply in_app_or in He as [He | [<- | []]];
      [exact (inv_no_pending st Hinv e He) |].
    apply Hpend. exact (inv_no_pending_steps st Hinv s Hin_s).
  - intros s' Hs'.
    apply Hsplit in Hs' as [-> | (j & _ & Hj)].
    + apply Hpend. exact (inv_no_pending_steps st Hinv s Hin_s).
    + apply (inv_no_pending_steps st Hinv s'). apply In_lookup. exists j. exact Hj.
Qed.

Lemma completeStep_inv i d st : StepInv st -> StepInv (completeStep i d st).
Proof.
  intros Hinv. apply mutateStep_inv; [exact Hinv | reflexivity | |].
  - intros s. right. left. reflexivity.
  - intros s _. discriminate.
Qed.

Lemma failStep_inv i d st : StepInv st -> StepInv (failStep i d st).
Proof.
  intros Hinv. apply mutateStep_inv; [exact Hinv | reflexivity | |].
  - intros s. right. right. reflexivity.
  - intros s _. discriminate.
Qed.

Lemma relabelStep_inv i st call : StepInv st -> StepInv (relabelStep i st call).
Proof.
  intros Hinv. apply mutateStep_inv; [exact Hinv | reflexivity | |].
  - intros s. left. reflexivity.
  - intros s H. exact H.
Qed.

Lemma relabel_all_inv i calls st :
  StepInv st -> StepInv (fold_left (relabelStep i) calls st).
Proof.
  revert st. induction calls as [| call calls IH]; intros st Hinv; simpl; [exact Hinv |].
  apply IH, relabelStep_inv, Hinv.
Qed.

(** *** The shape of the step array *)

Lemma mutateStep_last i f st l s :
  st_steps st = l ++ [s] -> i = length l ->
  st_steps (mutateStep i f st) = l ++ [f s]
  /\ stepCounter (mutateStep i f st) = stepCounter st.
Proof.
  intros Hst ->. unfold mutateStep. rewrite Hst.
  rewrite list_lookup_middle by reflexivity. cbn [st_steps stepCounter].
  split; [| reflexivity].
  rewrite insert_app_r_alt by lia. rewrite Nat.sub_diag. reflexivity.
Qed.

Lemma relabel_all_last i calls st l s :
  st_steps st = l ++ [s] -> i = length l ->
  exists s',
    st_steps (fold_left (relabelStep i) calls st) = l ++ [s']
    /\ stepCounter (fold_left (relabelStep i) calls st) = stepCounter st
    /\ id s' = id s /\ status s' = status s.
Proof.
  revert st s. induction calls as [| call calls IH]; intros st s Hst Hi; simpl.
  - exists s. auto.
  - destruct (mutateStep_last i
                (fun s0 => {| id := id s0; label := fst call; status := status s0;
                              detail := if JS.truthyOpt (snd call) then snd call
                                        else detail s0 |})
                st l s Hst Hi) as [Hsteps Hc].
    destruct (IH (relabelStep i st call) _ Hsteps Hi) as (s' & H1 & H2 & H3 & H4).
    exists s'. repeat split; [exact H1 | | exact H3 | exact H4].
    rewrite H2. exact Hc.
Qed.

Section Stage.

Context {R : Type}.
Variables (label' doneDetail : string) (run : AgentRun R) (st : OState).

Lemma agentStage_result :
  fst (agentStage label' doneDetail run st) = resultOf (outcome run).
Proof. unfold agentStage. cbn. destruct (outcome run); reflexivity. Qed.

Lemma agentStage_inv :
  StepInv st -> StepInv (snd (agentStage label' doneDetail run st)).
Proof.
  intros Hinv. unfold agentStage.
  pose proof (addStep_inv label' None st Hinv) as Hadd.
  destruct (addStep label' running None st) as [step st1]. cbn [snd] in Hadd.
  pose proof (relabel_all_inv step (progress run) st1 Hadd) as Hrel.
  destruct (outcome run); cbn [snd].
  - apply completeStep_inv, Hrel.
  - apply failStep_inv, Hrel.
Qed.

(** A stage appends one step: it carries the next id and ends done or
    error, the error with the failure detail. *)
Lemma agentStage_steps :
  exists s,
    st_steps (snd (agentStage label' doneDetail run st)) = st_steps st ++ [s]
    /\ stepCounter (snd (agentStage label' doneDetail run st)) = S (stepCounter st)
    /\ id s = JS.String_of_nat (S (stepCounter st))
    /\ match outcome run with
       | Return _ => status s = done
       | Throw err =>
           status s = error /\ detail s = Some ("Falling back to templates: " +:+ err)
       end.
Proof.
  unfold agentStage, addStep. cbv zeta. cbn [fst snd].
  set (new := {| id := JS.String_of_nat (S (stepCounter st)); label := label';
                 status := running; detail := None |}).
  set (st1 := {| st_steps := st_steps st ++ [new]; stepCounter := S (stepCounter st);
                 emitted := emitted st ++ [new] |}).
  destruct (relabel_all_last (length (st_steps st)) (progress run) st1 (st_steps st) new
              eq_refl eq_refl) as (s' & Hsteps & Hc & Hid & Hstatus).
  destruct (outcome run) as [r | err]; cbn [snd].
  - destruct (mutateStep_last (length (st_steps st))
                (fun s0 => {| id := id s0; label := label s0; status := done;
                              detail := if JS.truthyOpt (Some doneDetail)
                                        then Some doneDetail else detail s0 |})
                _ _ _ Hsteps eq_refl) as [H1 H2].
    eexists. split; [exact H1 |]. split; [unfold completeStep; rewrite H2; exact Hc |].
    split; [exact Hid | reflexivity].
  - destruct (mutateStep_last (length (st_steps st))
                (fun s0 => {| id := id s0; label := label s0; status := error;
                              detail := Some ("Falling back to templates: " +:+ err) |})
                _ _ _ Hsteps eq_refl) as [H1 H2].
    eexists. split; [exact H1 |]. split; [unfold failStep; rewrite H2; exact Hc |].
    split; [exact Hid | split; reflexivity].
Qed.

End Stage.

Section Run.

Variable generateReadme : string -> RepoAnalysis -> option string -> string.
Variable JSON_parse : string -> option LandingCopy.
Variable analyze : string -> string -> string -> Completion RepoAnalysis.
Variable runBlackboxAgent :
  string -> string -> RepoAnalysis -> string -> AgentRun BlackboxAgent.BlackboxAgentResult.
Variable runOpenAIAgent :
  string -> string -> RepoAnalysis -> string -> AgentRun OpenAIAgent.OpenAIAgentResult.

#[local] Abbreviation merge := (merge generateReadme JSON_parse).
#[local] Abbreviation run :=
  (runOrchestrator generateReadme JSON_parse analyze runBlackboxAgent runOpenAIAgent).

(** The values the merge chooses. *)
Lemma merge_fields options a blackboxResult openaiResult st :
  let r := snd (merge options a blackboxResult openaiResult st) in
  analysis r = a
  /\ provider r
     = match openaiResult, blackboxResult with
       | Some _, _ => openai
       | None, Some _ => blackbox
       | None, None => template
       end
  /\ aiReadme r
     = JS.or_else (option_map OpenAIAgent.readme openaiResult)
         (generateReadme (repo options) a (description options))
  /\ aiLandingPage r
     = buildLandingPage JSON_parse (repo options) a
         (option_map OpenAIAgent.landingPageCopy openaiResult) (description options)
  /\ vercelJson r
     = JS.or_else (option_map BlackboxAgent.vercelConfig blackboxResult)
         (generateVercelJsonFile a)
  /\ envTemplate r
     = JS.or_else (option_map BlackboxAgent.envTemplate blackboxResult)
         (generateEnvTemplate a)
  /\ packageJsonScripts r
     = match blackboxResult with
       | Some b =>
           if (0 <? length (JS.keys (BlackboxAgent.suggestedScripts b)))%nat
           then BlackboxAgent.suggestedScripts b
           else generatePackageJsonScripts a
       | None => generatePackageJsonScripts a
       end
  /\ deploymentRecommendations r
     = match openaiResult with
       | Some o => OpenAIAgent.deploymentRecommendations o
       | None => buildDefaultRecommendations a
       end
  /\ steps r = st_steps (fst (merge options a blackboxResult openaiResult st)).
Proof.
  unfold Orchestrator.merge. cbv zeta. cbn [addStep fst snd].
  repeat split; try reflexivity.
  destruct openaiResult, blackboxResult; reflexivity.
Qed.

Lemma merge_inv options a blackboxResult openaiResult st :
  StepInv st -> StepInv (fst (merge options a blackboxResult openaiResult st)).
Proof.
  intros Hinv. unfold Orchestrator.merge.
  pose proof (addStep_inv "Assembling final output" None st Hinv) as Hadd.
  destruct (addStep "Assembling final output" running None st) as [step st1].
  cbn [fst snd] in *. apply completeStep_inv, Hadd.
Qed.

Lemma merge_steps options a blackboxResult openaiResult st :
  exists s,
    st_steps (fst (merge options a blackboxResult openaiResult st)) = st_steps st ++ [s]
    /\ id s = JS.String_of_nat (S (stepCounter st))
    /\ status s = done.
Proof.
  unfold Orchestrator.merge, addStep, completeStep. cbv zeta. cbn [fst snd].
  match goal with
  | |- context [mutateStep ?i ?f ?st1] =>
      destruct (mutateStep_last i f st1 (st_steps st) _ eq_refl eq_refl) as [H _]
  end.
  eexists. split; [exact H |]. split; reflexivity.
Qed.

(** The run, stage by stage: the state before the merge holds the three
    steps of the analysis and of the two agents. *)
Lemma run_returns options a :
  analyze (githubToken options) (owner options) (repo options) = Return a ->
  let bb := runBlackboxAgent (owner options) (repo options) a (githubToken options) in
  let oa := runOpenAIAgent (owner options) (repo options) a (githubToken options) in
  exists st s1 s2 s3,
    run options
    = (fst (merge options a (resultOf (outcome bb)) (resultOf (outcome oa)) st),
       Return (snd (merge options a (resultOf (outcome bb)) (resultOf (outcome oa)) st)))
    /\ StepInv st
    /\ st_steps st = [s1; s2; s3] /\ stepCounter st = 3%nat
    /\ status s1 = done
    /\ match outcome bb with
       | Return _ => status s2 = done
       | Throw err =>
           status s2 = error /\ detail s2 = Some ("Falling back to templates: " +:+ err)
       end
    /\ match outcome oa with
       | Return _ => status s3 = done
       | Throw err =>
           status s3 = error /\ detail s3 = Some ("Falling back to templates: " +:+ err)
       end.
Proof.
  intros Ha bb oa. unfold runOrchestrator. rewrite Ha.
  unfold addStep at 1. cbv zeta. cbv iota. cbv beta.
  set (st1 := completeStep _ _ _).
  assert (Hinv1 : StepInv st1).
  { apply completeStep_inv.
    apply (addStep_inv "Analyzing repository structure" None initial StepInv_initial). }
  assert (Hst1 : exists s1, st_steps st1 = [s1] /\ stepCounter st1 = 1%nat /\ status s1 = done).
  { eexists. repeat split. }
  destruct Hst1 as (s1 & Hs1 & Hc1 & Hd1).
  fold bb. fold oa.
  pose proof (agentStage_result "Blackbox AI: Deep code analysis"
                "Config & env template generated" bb st1) as Hr2.
  pose proof (agentStage_inv "Blackbox AI: Deep code analysis"
                "Config & env template generated" bb st1 Hinv1) as Hinv2.
  destruct (agentStage_steps "Blackbox AI: Deep code analysis"
              "Config & env template generated" bb st1) as (s2 & Hs2 & Hc2 & _ & Hd2).
  destruct (agentStage "Blackbox AI: Deep code analysis"
              "Config & env template generated" bb st1) as [blackboxResult st2].
  cbn [fst snd] in Hr2, Hinv2, Hs2, Hc2. subst blackboxResult.
  pose proof (agentStage_result "OpenAI: Generating README & landing page"
                "README & landing page ready" oa st2) as Hr3.
  pose proof (agentStage_inv "OpenAI: Generating README & landing page"
                "README & landing page ready" oa st2 Hinv2) as Hinv3.
  destruct (agentStage_steps "OpenAI: Generating README & landing page"
              "README & landing page ready" oa st2) as (s3 & Hs3 & Hc3 & _ & Hd3).
  destruct (agentStage "OpenAI: Generating README & landing page"
              "README & landing page ready" oa st2) as [openaiResult st3].
  cbn [fst snd] in Hr3, Hinv3, Hs3, Hc3. subst openaiResult.
  exists st3, s1, s2, s3.
  split; [destruct (merge _ _ _ _ _); reflexivity |].
  split; [exact Hinv3 |].
  split; [rewrite Hs3, Hs2, Hs1; reflexivity |].
  split; [rewrite Hc3, Hc2, Hc1; reflexivity |].
  split; [exact Hd1 |]. split; [exact Hd2 | exact Hd3].
Qed.

Lemma run_throws options err :
  analyze (githubToken options) (owner options) (repo options) = Throw err ->
  snd (run options) = Throw ("Error: Repository analysis failed: " +:+ err)
  /\ StepInv (fst (run options))
  /\ st_steps (fst (run options))
     = [ {| id := "1"; label := "Analyzing repository structure";
            status := error; detail := Some err |} ].
Proof.
  intros Ha. unfold runOrchestrator. rewrite Ha.
  unfold addStep at 1. cbv zeta. cbv iota. cbv beta. cbn [fst snd].
  split; [reflexivity |]. split; [| reflexivity].
  apply failStep_inv.
  apply (addStep_inv "Analyzing repository structure" None initial StepInv_initial).
Qed.

End Run.

End StepList.

Section Orchestration.

Import Orchestrator.

Variable generateReadme : string -> RepoAnalysis -> option string -> string.
Variable JSON_parse : string -> option LandingCopy.
Variable analyze : string -> string -> string -> Completion RepoAnalysis.
Variable runBlackboxAgent :
  string -> string -> RepoAnalysis -> string -> AgentRun BlackboxAgent.BlackboxAgentResult.
Variable runOpenAIAgent :
  string -> string -> RepoAnalysis -> string -> AgentRun OpenAIAgent.OpenAIAgentResult.

#[local] Abbreviation run :=
  (runOrchestrator generateReadme JSON_parse analyze runBlackboxAgent runOpenAIAgent).

(** C1, amended.  When both agents fail the result has the provider
    template; the README, the Vercel config, the env template and the
    package scripts are what generateReadme, generateVercelJsonFile,
    generateEnvTemplate and generatePackageJsonScripts give for the same
    analysis, repo name and description; the landing page is the page of
    the orchestrator's own builder without AI copy (the repo name as
    headline, the description or else the analysis description as
    subheadline, the three default features); the recommendations are
    the rule-based default list. *)
Theorem orchestrator_fallback (options : OrchestratorOptions) (a : RepoAnalysis)
    (err1 err2 : string) :
  analyze (githubToken options) (owner options) (repo options) = Return a ->
  outcome (runBlackboxAgent (owner options) (repo options) a (githubToken options))
    = Throw err1 ->
  outcome (runOpenAIAgent (owner options) (repo options) a (githubToken options))
    = Throw err2 ->
  exists r,
    snd (run options) = Return r
    /\ analysis r = a
    /\ provider r = template
    /\ aiReadme r = generateReadme (repo options) a (description options)
    /\ aiLandingPage r
       = landingPageHtml (repo options) (repo options)
           (JS.or_else (description options) (Types.description a)) defaultFeatures a
    /\ vercelJson r = generateVercelJsonFile a
    /\ envTemplate r = generateEnvTemplate a
    /\ packageJsonScripts r = generatePackageJsonScripts a
    /\ deploymentRecommendations r = buildDefaultRecommendations a.
Proof.
  intros Ha Hbb Hoa.
  destruct (run_returns generateReadme JSON_parse analyze runBlackboxAgent runOpenAIAgent
              options a Ha) as (st & _ & _ & _ & Hrun & _).
  rewrite Hbb, Hoa in Hrun. cbn [resultOf] in Hrun.
  eexists. split; [rewrite Hrun; reflexivity |].
  destruct (merge_fields generateReadme JSON_parse options a None None st)
    as (H1 & H2 & H3 & H4 & H5 & H6 & H7 & H8 & _).
  repeat split; assumption.
Qed.

(** C2, amended.  When the code-insight agent fails and the content agent
    returns a result, the provider is openai; the README is the content
    agent's unless that is empty, when it is generateReadme's; the landing
    page is built from the content agent's landing copy; the
    recommendations are the content agent's; the Vercel config, the env
    template and the package scripts are those of
    generateVercelJsonFile, generateEnvTemplate and
    generatePackageJsonScripts for the same analysis. *)
Theorem orchestrator_content_agent_only (options : OrchestratorOptions) (a : RepoAnalysis)
    (err : string) (o : OpenAIAgent.OpenAIAgentResult) :
  analyze (githubToken options) (owner options) (repo options) = Return a ->
  outcome (runBlackboxAgent (owner options) (repo options) a (githubToken options))
    = Throw err ->
  outcome (runOpenAIAgent (owner options) (repo options) a (githubToken options))
    = Return o ->
  exists r,
    snd (run options) = Return r
    /\ analysis r = a
    /\ provider r = openai
    /\ aiReadme r
       = (if JS.truthy (OpenAIAgent.readme o) then OpenAIAgent.readme o
          else generateReadme (repo options) a (description options))
    /\ aiLandingPage r
       = buildLandingPage JSON_parse (repo options) a
           (Some (OpenAIAgent.landingPageCopy o)) (description options)
    /\ deploymentRecommendations r = OpenAIAgent.deploymentRecommendations o
    /\ vercelJson r = generateVercelJsonFile a
    /\ envTemplate r = generateEnvTemplate a
    /\ packageJsonScripts r = generatePackageJsonScripts a.
Proof.
  intros Ha Hbb Hoa.
  destruct (run_returns generateReadme JSON_parse analyze runBlackboxAgent runOpenAIAgent
              options a Ha) as (st & _ & _ & _ & Hrun & _).
  rewrite Hbb, Hoa in Hrun. cbn [resultOf] in Hrun.
  eexists. split; [rewrite Hrun; reflexivity |].
  destruct (merge_fields generateReadme JSON_parse options a None (Some o) st)
    as (H1 & H2 & H3 & H4 & H5 & H6 & H7 & H8 & _).
  repeat split; assumption.
Qed.

(** The final state of every run satisfies the invariant. *)
Lemma run_inv (options : OrchestratorOptions) : StepInv (fst (run options)).
Proof.
  destruct (analyze (githubToken options) (owner options) (repo options))
    as [a | err] eqn:Ha.
  - destruct (run_returns generateReadme JSON_parse analyze runBlackboxAgent
                runOpenAIAgent options a Ha) as (st & _ & _ & _ & Hrun & Hinv & _).
    rewrite Hrun. cbn [fst]. apply merge_inv. exact Hinv.
  - apply (run_throws generateReadme JSON_parse analyze runBlackboxAgent runOpenAIAgent
             options err Ha).
Qed.


End Orchestration.

(** *** Closed runs *)

Example analyzer_down_run :
  Orchestrator.runOrchestrator generateReadme_standin JSON_parse_none
    analyzer_down blackbox_down openai_down options_shop
  = ({| Orchestrator.st_steps :=
          [ {| Orchestrator.id := "1";
               Orchestrator.label := "Analyzing repository structure";
               Orchestrator.status := error;
               Orchestrator.detail := Some "HttpError: Bad credentials" |} ];
        Orchestrator.stepCounter := 1;
        Orchestrator.emitted :=
          [ {| Orchestrator.id := "1";
               Orchestrator.label := "Analyzing repository structure";
               Orchestrator.status := running;
               Orchestrator.detail := None |};
            {| Orchestrator.id := "1";
               Orchestrator.label := "Analyzing repository structure";
               Orchestrator.status := error;
               Orchestrator.detail := Some "HttpError: Bad credentials" |} ] |},
     Throw "Error: Repository analysis failed: HttpError: Bad credentials").
Proof. reflexivity. Qed.

Example agents_down_run :
  let st := fst (Orchestrator.runOrchestrator generateReadme_standin JSON_parse_none
                   analyzer_next blackbox_down openai_down options_shop) in
  map (fun s => (Orchestrator.id s, Orchestrator.status s, Orchestrator.detail s))
      (Orchestrator.st_steps st)
  = [ ("1", done, Some "Next.js · Risk: 50%");
      ("2", error, Some "Falling back to templates: TypeError: fetch failed");
      ("3", error, Some "Falling back to templates: Error: Connection error.");
      ("4", done, Some "Generated via template") ]
  /\ map (fun s => (Orchestrator.id s, Orchestrator.status s)) (Orchestrator.emitted st)
     = [ ("1", running); ("1", done);
         ("2", running); ("2", running); ("2", error);
         ("3", running); ("3", running); ("3", error);
         ("4", running); ("4", done) ].
Proof. split; reflexivity. Qed.


(** C1 as stated fails: with both agents down the landing page of the
    result is not the page of the standalone generateLandingPage. *)
Lemma fallback_landing_page_is_not_generateLandingPage :
  exists r,
    snd (Orchestrator.runOrchestrator generateReadme_standin JSON_parse_none
           analyzer_next blackbox_down openai_down options_shop) = Return r
    /\ Orchestrator.provider r = template
    /\ Orchestrator.aiLandingPage r <> generateLandingPage "shop" analysis_next None.
Proof.
  eexists. split; [reflexivity |]. split; [reflexivity |].
  apply String.eqb_neq. vm_compute. reflexivity.
Qed.

Lemma orchestrator_fallback_witness :
  exists r,
    snd (Orchestrator.runOrchestrator generateReadme_standin JSON_parse_none
           analyzer_next blackbox_down openai_down options_shop) = Return r
    /\ Orchestrator.analysis r = analysis_next
    /\ Orchestrator.provider r = template
    /\ Orchestrator.aiReadme r = generateReadme_standin "shop" analysis_next None
    /\ Orchestrator.aiLandingPage r
       = Orchestrator.landingPageHtml "shop" "shop"
           (JS.or_else None (description analysis_next))
           Orchestrator.defaultFeatures analysis_next
    /\ Orchestrator.vercelJson r = generateVercelJsonFile analysis_next
    /\ Orchestrator.envTemplate r = generateEnvTemplate analysis_next
    /\ Orchestrator.packageJsonScripts r = generatePackageJsonScripts analysis_next
    /\ Orchestrator.deploymentRecommendations r
       = Orchestrator.buildDefaultRecommendations analysis_next.
Proof.
  apply (orchestrator_fallback generateReadme_standin JSON_parse_none
           analyzer_next blackbox_down openai_down options_shop analysis_next
           "TypeError: fetch failed" "Error: Connection error.");
    reflexivity.
Defined.

(** C2 as stated fails: the content agent of the sources, answered with a
    fenced README of white space only, returns an empty README, and the
    README of the result is then generateReadme's and not the content
    agent's. *)
Lemma blank_readme_falls_back_to_generateReadme :
  exists o r,
    outcome (openai_blank_readme "acme" "shop" analysis_next "token") = Return o
    /\ snd (Orchestrator.runOrchestrator generateReadme_standin JSON_parse_none
              analyzer_next blackbox_down openai_blank_readme options_shop) = Return r
    /\ Orchestrator.provider r = openai
    /\ OpenAIAgent.readme o = ""
    /\ Orchestrator.aiReadme r = generateReadme_standin "shop" analysis_next None
    /\ Orchestrator.aiReadme r <> OpenAIAgent.readme o.
Proof.
  eexists. eexists. split; [reflexivity |]. split; [reflexivity |].
  split; [reflexivity |]. split; [reflexivity |]. split; [reflexivity |].
  apply String.eqb_neq. vm_compute. reflexivity.
Qed.

Lemma orchestrator_content_agent_only_witness :
  let o := OpenAIAgent.parseAgentResponse answer_plain analysis_next "shop" in
  exists r,
    snd (Orchestrator.runOrchestrator generateReadme_standin JSON_parse_none
           analyzer_next blackbox_down openai_plain options_shop) = Return r
    /\ Orchestrator.analysis r = analysis_next
    /\ Orchestrator.provider r = openai
    /\ Orchestrator.aiReadme r
       = (if JS.truthy (OpenAIAgent.readme o) then OpenAIAgent.readme o
          else generateReadme_standin "shop" analysis_next None)
    /\ Orchestrator.aiLandingPage r
       = Orchestrator.buildLandingPage JSON_parse_none "shop" analysis_next
           (Some (OpenAIAgent.landingPageCopy o)) None
    /\ Orchestrator.deploymentRecommendations r = OpenAIAgent.deploymentRecommendations o
    /\ Orchestrator.vercelJson r = generateVercelJsonFile analysis_next
    /\ Orchestrator.envTemplate r = generateEnvTemplate analysis_next
    /\ Orchestrator.packageJsonScripts r = generatePackageJsonScripts analysis_next.
Proof.
  apply (orchestrator_content_agent_only generateReadme_standin JSON_parse_none
           analyzer_next blackbox_down openai_plain options_shop analysis_next
           "TypeError: fetch failed"
           (OpenAIAgent.parseAgentResponse answer_plain analysis_next "shop"));
    reflexivity.
Defined.


(* ================================================================== *)
(** * Further properties *)

(** ** Strings *)

Lemma append_cons (c : ascii) (s t : string) : String c s +:+ t = String c (s +:+ t).
Proof. reflexivity. Qed.

Lemma append_nil_l (s : string) : "" +:+ s = s.
Proof. reflexivity. Qed.

Lemma append_nil_r (s : string) : s +:+ "" = s.
Proof. induction s as [| c s IH]; [reflexivity | rewrite append_cons, IH; reflexivity]. Qed.

Lemma append_assoc (a b c : string) : (a +:+ b) +:+ c = a +:+ (b +:+ c).
Proof.
  induction a as [| x a IH]; [reflexivity |].
  rewrite !append_cons, IH. reflexivity.
Qed.

Lemma length_append (a b : string) :
  String.length (a +:+ b) = (String.length a + String.length b)%nat.
Proof.
  induction a as [| x a IH]; [reflexivity |].
  rewrite append_cons. simpl. rewrite IH. reflexivity.
Qed.

Lemma rev_app_rev_app (a b c : string) :
  String.rev_app (String.rev_app a b) c = String.rev_app b (a +:+ c).
Proof.
  revert b c. induction a as [| x a IH]; intros b c; [reflexivity |].
  simpl. rewrite IH, append_cons. reflexivity.
Qed.

Lemma rev_rev_app (a : string) : String.rev (String.rev_app a "") = a.
Proof. unfold String.rev. rewrite rev_app_rev_app. simpl. apply append_nil_r. Qed.

(** [split("\n")] cuts at the first line feed. *)
Lemma split_lines_aux_line (a cur rest : string) :
  noNewline a = true ->
  JS.split_lines_aux cur (a +:+ JS.nl +:+ rest)
  = String.rev (String.rev_app a cur) :: JS.split_lines_aux "" rest.
Proof.
  revert cur. induction a as [| c a IH]; intros cur Ha.
  - reflexivity.
  - unfold noNewline in Ha. simpl in Ha. apply andb_true_iff in Ha as [Hc Ha].
    rewrite append_cons. cbn [JS.split_lines_aux].
    unfold RE.isNewline, RE.charIs in Hc. apply negb_true_iff in Hc. rewrite Hc.
    rewrite (IH (String c cur) Ha). reflexivity.
Qed.

Lemma split_lines_line (a rest : string) :
  noNewline a = true ->
  JS.split_lines (a +:+ JS.nl +:+ rest) = a :: JS.split_lines rest.
Proof.
  intros Ha. unfold JS.split_lines. rewrite split_lines_aux_line by exact Ha.
  rewrite rev_rev_app. reflexivity.
Qed.

Lemma split_lines_last (a : string) :
  noNewline a = true -> JS.split_lines a = [a].
Proof.
  intros Ha. unfold JS.split_lines.
  assert (H : forall cur, JS.split_lines_aux cur a = [String.rev (String.rev_app a cur)]).
  { induction a as [| c a IH]; intros cur; [reflexivity |].
    unfold noNewline in Ha. simpl in Ha. apply andb_true_iff in Ha as [Hc Ha].
    cbn [JS.split_lines_aux].
    unfold RE.isNewline, RE.charIs in Hc. apply negb_true_iff in Hc. rewrite Hc.
    apply (IH Ha). }
  rewrite H, rev_rev_app. reflexivity.
Qed.

Lemma allChars_append (p : ascii -> bool) (a b : string) :
  allChars p (a +:+ b) = allChars p a && allChars p b.
Proof.
  induction a as [| c a IH]; [reflexivity |].
  rewrite append_cons. simpl. rewrite IH, andb_assoc. reflexivity.
Qed.

Lemma allChars_impl (p q : ascii -> bool) (s : string) :
  (forall c, p c = true -> q c = true) -> allChars p s = true -> allChars q s = true.
Proof.
  intros Hpq. induction s as [| c s IH]; simpl; [reflexivity |].
  intros H. apply andb_true_iff in H as [Hc Hs].
  rewrite (Hpq c Hc), (IH Hs). reflexivity.
Qed.

(** ** The analyzer, further *)

Lemma span_spec (p : ascii -> bool) (s : string) :
  allChars p (fst (JS.span p s)) = true
  /\ s = fst (JS.span p s) +:+ snd (JS.span p s).
Proof.
  induction s as [| c s [IH1 IH2]]; simpl; [split; reflexivity |].
  destruct (p c) eqn:Hc; [| split; reflexivity].
  destruct (JS.span p s) as [a b]. simpl in *. rewrite Hc, IH1.
  split; [reflexivity | rewrite append_cons; congruence].
Qed.

Lemma span_stops (p : ascii -> bool) (a : string) (c : ascii) (rest : string) :
  allChars p a = true -> p c = false ->
  JS.span p (a +:+ String c rest) = (a, String c rest).
Proof.
  intros Ha Hc. induction a as [| x a IH].
  - rewrite append_nil_l. simpl. rewrite Hc. reflexivity.
  - simpl in Ha. apply andb_true_iff in Ha as [Hx Ha].
    rewrite append_cons. simpl. rewrite Hx, (IH Ha). reflexivity.
Qed.

Lemma matchEnvLine_wellFormed (line name : string) :
  matchEnvLine line = Some name ->
  wellFormedName name = true /\ String.prefix name line = true.
Proof.
  unfold matchEnvLine. destruct line as [| c rest]; [discriminate |].
  destruct (isNameStart c) eqn:Hc; [| discriminate].
  destruct (span_spec isNameChar rest) as [Hall Hrest].
  destruct (JS.span isNameChar rest) as [a b]. simpl in Hall, Hrest.
  destruct (JS.skip_ws b) as [| e ?]; [discriminate |].
  destruct (nat_of_ascii e =? 61)%nat; [| discriminate].
  intros H. injection H as <-. simpl. rewrite Hc, Hall. split; [reflexivity |].
  rewrite Hrest. destruct (ascii_dec c c) as [_ | Hne]; [| congruence].
  clear. induction a as [| x a IH].
  - destruct b; reflexivity.
  - rewrite append_cons. simpl. destruct (ascii_dec x x); [exact IH | congruence].
Qed.

Lemma skip_ws_equals (value : string) :
  JS.skip_ws (String "="%char value) = String "="%char value.
Proof. destruct value as [| c2 [| c3 s3]]; reflexivity. Qed.

Lemma matchEnvLine_assignment (name value : string) :
  wellFormedName name = true ->
  matchEnvLine (name +:+ "=" +:+ value) = Some name.
Proof.
  unfold wellFormedName, matchEnvLine. destruct name as [| c rest]; [discriminate |].
  intros H. apply andb_true_iff in H as [Hc Hrest]. rewrite append_cons.
  rewrite Hc.
  change ("=" +:+ value) with (String "="%char value).
  rewrite (span_stops isNameChar rest "="%char value Hrest eq_refl).
  rewrite skip_ws_equals. reflexivity.
Qed.

Lemma Set_add_spec (vars : list string) (name : string) :
  NoDup vars -> NoDup (Set_add vars name)
  /\ (forall v, In v (Set_add vars name) <-> In v vars \/ v = name).
Proof.
  intros Hnd. unfold Set_add.
  destruct (existsb (String.eqb name) vars) eqn:Hex.
  - split; [exact Hnd |]. intros v. split; [tauto |].
    intros [H | ->]; [exact H |].
    apply existsb_exists in Hex as (x & Hx & Heq).
    apply String.eqb_eq in Heq. subst x. exact Hx.
  - split.
    + apply NoDup_app. split; [exact Hnd |]. split; [| apply NoDup_singleton].
      intros x Hx Hx'. apply list_elem_of_singleton in Hx'. subst x.
      assert (existsb (String.eqb name) vars = true); [| congruence].
      apply existsb_exists. exists name. split; [apply list_elem_of_In, Hx |].
      apply String.eqb_refl.
    + intros v. rewrite in_app_iff. simpl. split; [intros [H | [<- | []]]; auto |].
      intros [H | ->]; auto.
Qed.

Lemma detect_lines_good (lines vars : list string) :
  goodVars vars ->
  goodVars (fold_left (fun vars line =>
                         match matchEnvLine line with
                         | Some name => Set_add vars name
                         | None => vars
                         end) lines vars).
Proof.
  revert vars. induction lines as [| line lines IH]; intros vars Hv; simpl; [exact Hv |].
  apply IH. destruct (matchEnvLine line) as [name |] eqn:Hm; [| exact Hv].
  destruct Hv as [Hnd Hwf]. destruct (Set_add_spec vars name Hnd) as [Hnd' Hin].
  split; [exact Hnd' |].
  apply Forall_forall. intros v Hv. apply list_elem_of_In, Hin in Hv as [Hv | ->].
  - rewrite Forall_forall in Hwf. apply Hwf, list_elem_of_In, Hv.
  - apply (matchEnvLine_wellFormed line name Hm).
Qed.

Lemma detectEnvVars_good (client : GitHubClient) : goodVars (detectEnvVars client).
Proof.
  unfold detectEnvVars.
  assert (H : forall files vars, goodVars vars ->
            goodVars (fold_left
              (fun vars file =>
                 match getFileContent client (Some file) with
                 | Some content =>
                     if JS.truthy content then
                       fold_left (fun vars line =>
                                    match matchEnvLine line with
                                    | Some name => Set_add vars name
                                    | None => vars
                                    end) (JS.split_lines content) vars
                     else vars
                 | None => vars
                 end) files vars)).
  { induction files as [| f files IH]; intros vars Hv; simpl; [exact Hv |].
    apply IH. destruct (getFileContent client (Some f)) as [content |]; [| exact Hv].
    destruct (JS.truthy content); [| exact Hv].
    apply detect_lines_good, Hv. }
  apply H. split; constructor.
Qed.

(** X1.  The env vars an analysis lists are pairwise distinct, and each
    is a name of the pattern: a capital letter or an underscore, then
    capital letters, digits and underscores. *)
Theorem detectEnvVars_distinct_names (JSON_parse : string -> option PackageJson)
    (client : GitHubClient) :
  NoDup (envVarsDetected (analyze JSON_parse client))
  /\ Forall (fun v => wellFormedName v = true) (envVarsDetected (analyze JSON_parse client)).
Proof. unfold analyze. cbn [envVarsDetected]. apply detectEnvVars_good. Qed.

Lemma split_lines_joined (ls : list string) :
  ls <> [] -> Forall (fun l => noNewline l = true) ls ->
  JS.split_lines (JS.join JS.nl ls +:+ JS.nl) = ls ++ [""].
Proof.
  intros Hne Hls. induction Hls as [| x ls Hx Hls IH]; [congruence |].
  destruct ls as [| y ls].
  - unfold JS.join. simpl String.concat.
    rewrite <- (append_nil_r JS.nl) at 1.
    rewrite split_lines_line by exact Hx. reflexivity.
  - unfold JS.join in *. change (String.concat JS.nl (x :: y :: ls))
      with (x +:+ JS.nl +:+ String.concat JS.nl (y :: ls)).
    rewrite !append_assoc. rewrite split_lines_line by exact Hx.
    rewrite IH by discriminate. reflexivity.
Qed.

Lemma getEnvVarHint_one_line (v : string) : noNewline (getEnvVarHint v) = true.
Proof.
  unfold getEnvVarHint.
  repeat match goal with
         | |- context [if ?b then _ else _] => destruct b
         end; reflexivity.
Qed.

Lemma wellFormedName_one_line (v : string) :
  wellFormedName v = true -> noNewline v = true.
Proof.
  unfold wellFormedName, noNewline. destruct v as [| c v]; [discriminate |].
  intros H. apply andb_true_iff in H as [Hc Hv]. simpl.
  apply andb_true_iff. split.
  - unfold isNameStart, isUpper, isUnderscore, RE.isNewline, RE.charIs in *.
    destruct (Nat.eqb_spec (nat_of_ascii c) 10) as [Heq | _]; [| reflexivity].
    rewrite Heq in Hc. discriminate Hc.
  - revert Hv. apply allChars_impl. intros x Hx.
    unfold isNameChar, isUpper, isDigit, isUnderscore, RE.isNewline, RE.charIs in *.
    destruct (Nat.eqb_spec (nat_of_ascii x) 10) as [Heq | _]; [| reflexivity].
    rewrite Heq in Hx. discriminate Hx.
Qed.

Lemma Set_add_fresh (vars : list string) (v : string) :
  ~ In v vars -> Set_add vars v = vars ++ [v].
Proof.
  intros Hv. unfold Set_add.
  destruct (existsb (String.eqb v) vars) eqn:Hex; [| reflexivity].
  exfalso. apply Hv. apply existsb_exists in Hex as (x & Hx & Heq).
  apply String.eqb_eq in Heq. subst x. exact Hx.
Qed.

Lemma detect_assignments (value : string -> string) (vs vars : list string) :
  NoDup (vars ++ vs) -> Forall (fun v => wellFormedName v = true) vs ->
  fold_left (fun vars line =>
               match matchEnvLine line with
               | Some name => Set_add vars name
               | None => vars
               end)
            (map (fun v => v +:+ "=" +:+ value v) vs) vars
  = vars ++ vs.
Proof.
  revert vars. induction vs as [| v vs IH]; intros vars Hnd Hwf; simpl.
  - rewrite app_nil_r. reflexivity.
  - apply Forall_cons in Hwf as [Hv Hwf].
    rewrite (matchEnvLine_assignment v (value v) Hv).
    rewrite Set_add_fresh.
    + rewrite IH; [rewrite <- app_assoc; reflexivity | | exact Hwf].
      rewrite <- app_assoc. exact Hnd.
    + apply NoDup_app in Hnd as (_ & Hdisj & _). intros Hin.
      apply (Hdisj v); [apply list_elem_of_In, Hin | left].
Qed.

Lemma detectEnvVars_env_example (text : string) :
  detectEnvVars (clientOfFiles [(".env.example", text)])
  = if JS.truthy text then
      fold_left (fun vars line =>
                   match matchEnvLine line with
                   | Some name => Set_add vars name
                   | None => vars
                   end) (JS.split_lines text) []
    else [].
Proof. reflexivity. Qed.

Lemma env_template_round_trip (analysis : RepoAnalysis) :
  NoDup (envVarsDetected analysis) ->
  Forall (fun v => wellFormedName v = true) (envVarsDetected analysis) ->
  detectEnvVars (clientOfFiles [(".env.example", generateEnvTemplate analysis)])
  = envVarsDetected analysis.
Proof.
  intros Hnd Hwf. rewrite detectEnvVars_env_example. unfold generateEnvTemplate.
  destruct (envVarsDetected analysis) as [| v vs] eqn:Hvars; [reflexivity |].
  cbn [length Nat.eqb].
  set (lines := map (fun envVar => envVar +:+ "=" +:+ getEnvVarHint envVar) (v :: vs)).
  assert (Hlines : Forall (fun l => noNewline l = true) lines).
  { apply Forall_forall. intros l Hl. apply list_elem_of_In, in_map_iff in Hl as (x & <- & Hx).
    unfold noNewline. rewrite !allChars_append.
    rewrite Forall_forall in Hwf.
    pose proof (wellFormedName_one_line x (Hwf x (proj2 (list_elem_of_In _ _) Hx))) as H1.
    pose proof (getEnvVarHint_one_line x) as H2.
    unfold noNewline in H1, H2. rewrite H1, H2. reflexivity. }
  replace (JS.truthy _) with true by reflexivity.
  rewrite split_lines_line by reflexivity.
  rewrite split_lines_line by reflexivity.
  rewrite <- (append_nil_l (JS.nl +:+ _)).
  rewrite split_lines_line by reflexivity.
  rewrite split_lines_joined; [| discriminate | exact Hlines].
  cbn [fold_left].
  change (matchEnvLine "# Environment variables") with (@None string).
  change (matchEnvLine "# Copy this file to .env.local and fill in the values")
    with (@None string).
  change (matchEnvLine "") with (@None string). cbv iota.
  rewrite fold_left_app. unfold lines.
  rewrite (detect_assignments getEnvVarHint (v :: vs) []); [reflexivity | exact Hnd | exact Hwf].
Qed.

(** X2.  The env template of an analysis reads back as the env vars of
    that analysis: a repository whose only env file is the generated
    template has exactly those env vars detected, in the same order. *)
Theorem env_template_reads_back (JSON_parse : string -> option PackageJson)
    (client : GitHubClient) :
  let a := analyze JSON_parse client in
  detectEnvVars (clientOfFiles [(".env.example", generateEnvTemplate a)])
  = envVarsDetected a.
Proof.
  intros a. destruct (detectEnvVars_good client) as [Hnd Hwf].
  apply env_template_round_trip; assumption.
Qed.

Lemma checkMissingConfigs_length packageJson fw docker :
  (length (checkMissingConfigs packageJson fw docker) <= 4)%nat.
Proof.
  unfold checkMissingConfigs.
  repeat match goal with
         | |- context [if ?b then _ else _] => destruct b
         end; simpl; lia.
Qed.

(** X3.  No analysis reaches the cap of the risk score: at most four
    configs are missing, and the score is at most 20 + 10 + 4 * 5 + 15 =
    65. *)
Theorem analyze_score_at_most_65 (JSON_parse : string -> option PackageJson)
    (client : GitHubClient) :
  let a := analyze JSON_parse client in
  (length (missingConfigs a) <= 4)%nat
  /\ (0 <= deploymentRiskScore a <= 65)%Z.
Proof.
  intros a. subst a. unfold analyze. cbn [missingConfigs deploymentRiskScore].
  set (pj := getPackageJson JSON_parse client).
  set (fw := detectFramework pj).
  pose proof (checkMissingConfigs_length pj fw (hasDockerfile client)) as Hlen.
  split; [exact Hlen |].
  unfold calculateRiskScore.
  cbn [rp_buildScript rp_hasDocker rp_missingConfigsCount rp_envVarsCount].
  repeat match goal with
         | |- context [if ?b then _ else _] => destruct b
         end; lia.
Qed.

Lemma script_truthy_normal (packageJson : option PackageJson) (name : string) :
  JS.truthyOpt
    match script packageJson name with
    | Some s => if JS.truthy s then Some s else None
    | None => None
    end
  = JS.truthyOpt (script packageJson name).
Proof.
  destruct (script packageJson name) as [s |]; [| reflexivity].
  simpl. destruct (JS.truthy s) eqn:Hs; [simpl; exact Hs | reflexivity].
Qed.

Ltac in_literals :=
  simpl; rewrite ?list_elem_of_In; simpl;
  intuition (try discriminate; try congruence).

Ltac nodup_literals :=
  repeat (apply NoDup_cons; split; [in_literals |]); apply NoDup_nil; exact I.

Lemma checkMissingConfigs_members packageJson fw docker :
  let missing := checkMissingConfigs packageJson fw docker in
  (In "build script" missing <-> JS.truthyOpt (script packageJson "build") = false)
  /\ (In "start script" missing <-> JS.truthyOpt (script packageJson "start") = false)
  /\ (In "dev script" missing <->
      docker = false /\ JS.truthyOpt (script packageJson "dev") = false)
  /\ (In "next.config.js" missing -> fw = "Next.js")
  /\ NoDup missing.
Proof.
  unfold checkMissingConfigs.
  destruct (fw =? "Next.js")%string eqn:Hfw.
  - apply String.eqb_eq in Hfw.
    destruct (JS.truthyOpt (script packageJson "build")),
             (JS.truthyOpt (script packageJson "start")),
             docker,
             (JS.truthyOpt (script packageJson "dev")),
             (negb (JS.includes (stringifyPackageJson packageJson) "next.config"));
      cbn [negb andb app];
      (split; [in_literals | split; [in_literals | split; [in_literals |
         split; [intros _; exact Hfw | nodup_literals]]]]).
  - destruct (JS.truthyOpt (script packageJson "build")),
             (JS.truthyOpt (script packageJson "start")),
             docker,
             (JS.truthyOpt (script packageJson "dev"));
      cbn [negb andb app];
      (split; [in_literals | split; [in_literals | split; [in_literals |
         split; [in_literals | nodup_literals]]]]).
Qed.

(** X4.  The fields of an analysis agree with each other.  The build
    script is absent exactly when build script is listed as missing;
    dev script is never listed for a repository with a Dockerfile;
    next.config.js is listed for Next.js only; no config is listed
    twice. *)
Theorem analyze_missing_configs (JSON_parse : string -> option PackageJson)
    (client : GitHubClient) :
  let a := analyze JSON_parse client in
  (In "build script" (missingConfigs a) <-> buildScript a = None)
  /\ (hasDocker a = true -> ~ In "dev script" (missingConfigs a))
  /\ (In "next.config.js" (missingConfigs a) -> framework a = "Next.js")
  /\ NoDup (missingConfigs a).
Proof.
  intros a. subst a. unfold analyze.
  cbn [missingConfigs buildScript hasDocker framework].
  set (pj := getPackageJson JSON_parse client).
  destruct (checkMissingConfigs_members pj (detectFramework pj) (hasDockerfile client))
    as (Hb & _ & Hd & Hn & Hnd).
  split; [| split; [| split]]; [| | exact Hn | exact Hnd].
  - rewrite Hb. destruct (script pj "build") as [s |]; simpl; [| tauto].
    destruct (JS.truthy s); split; congruence.
  - intros Hdocker Hin. apply Hd in Hin as [Hf _]. congruence.
Qed.

Lemma prop_not_key (r : JS.Rec) (k : string) :
  ~ In k (JS.keys r) -> JS.prop r k = None.
Proof.
  induction r as [| [k0 v0] r IH]; simpl; [reflexivity |].
  intros H. destruct (String.eqb_spec k0 k) as [-> | _]; [tauto |].
  apply IH. tauto.
Qed.

Lemma prop_spread (o r : JS.Rec) (k : string) :
  NoDup (JS.keys r) ->
  JS.prop (JS.spread o (Some r)) k
  = match JS.prop r k with
    | Some v => Some v
    | None => JS.prop o k
    end.
Proof.
  unfold JS.spread. revert o. induction r as [| [k0 v0] r IH]; intros o Hnd; simpl.
  - reflexivity.
  - simpl in Hnd. apply NoDup_cons in Hnd as [Hk0 Hnd].
    rewrite (IH _ Hnd), prop_assign.
    destruct (String.eqb_spec k0 k) as [-> | _]; [| reflexivity].
    rewrite prop_not_key; [reflexivity |].
    intros H. apply Hk0, list_elem_of_In, H.
Qed.

Lemma prop_spread_opt (o : JS.Rec) (src : option JS.Rec) (k : string) :
  distinctKeys src ->
  JS.prop (JS.spread o src) k
  = match propOpt src k with
    | Some v => Some v
    | None => JS.prop o k
    end.
Proof.
  destruct src as [r |]; [apply prop_spread | reflexivity].
Qed.

(** X5.  In the merged dependency map an entry of devDependencies
    overrides the entry of dependencies with the same name, and a name
    that only dependencies has keeps its entry there. *)
Theorem mergedDeps_lookup (pj : PackageJson) (k : string) :
  distinctKeys (dependencies pj) -> distinctKeys (devDependencies pj) ->
  JS.prop (mergedDeps pj) k
  = match propOpt (devDependencies pj) k with
    | Some v => Some v
    | None => propOpt (dependencies pj) k
    end.
Proof.
  intros Hdeps Hdev. unfold mergedDeps.
  rewrite (prop_spread_opt _ (devDependencies pj) k Hdev).
  rewrite (prop_spread_opt [] (dependencies pj) k Hdeps).
  destruct (propOpt (dependencies pj) k); reflexivity.
Qed.

Lemma mergedDeps_lookup_witness :
  JS.prop (mergedDeps manifest_overridden) "next" = Some "14.0.0"
  /\ JS.prop (mergedDeps manifest_overridden) "express" = Some "4.18.2".
Proof.
  split.
  - apply (mergedDeps_lookup manifest_overridden "next"); simpl; nodup_literals.
  - apply (mergedDeps_lookup manifest_overridden "express"); simpl; nodup_literals.
Defined.

(** X6.  Backend detection is a fixed priority list with first match
    wins over the merged dependency map; the result is Frontend when no
    manifest exists, when the manifest has neither dependencies nor
    devDependencies, and when no marker has a non-empty entry. *)
Theorem detectBackendType_priority (pj : PackageJson) :
  detectBackendType None = "Frontend"
  /\ detectBackendType (Some pj)
     = (if noDependencyMaps (Some pj) then "Frontend"
        else firstBackendMarker (mergedDeps pj))
  /\ (JS.truthyOpt (JS.prop (mergedDeps pj) "express") = true ->
      detectBackendType (Some pj) = "Express")
  /\ (Forall (fun m => JS.truthyOpt (JS.prop (mergedDeps pj) (fst m)) = false)
             backendMarkers ->
      detectBackendType (Some pj) = "Frontend").
Proof.
  assert (Heq : detectBackendType (Some pj)
                = if noDependencyMaps (Some pj) then "Frontend"
                  else firstBackendMarker (mergedDeps pj)).
  { unfold detectBackendType, firstBackendMarker.
    destruct (noDependencyMaps (Some pj)); [reflexivity |].
    cbn [find backendMarkers fst snd].
    repeat match goal with
           | |- context [JS.truthyOpt ?x] => destruct (JS.truthyOpt x); [reflexivity |]
           end.
    reflexivity. }
  split; [reflexivity |]. split; [exact Heq |]. rewrite Heq. split.
  - intros Hexpress.
    destruct (noDependencyMaps (Some pj)) eqn:Hmaps.
    + rewrite (mergedDeps_without_maps pj Hmaps) in Hexpress. discriminate Hexpress.
    + unfold firstBackendMarker. cbn [find backendMarkers fst snd].
      rewrite Hexpress. reflexivity.
  - intros Hnone. destruct (noDependencyMaps (Some pj)); [reflexivity |].
    unfold firstBackendMarker.
    destruct (find _ backendMarkers) as [m |] eqn:Hfind; [| reflexivity].
    apply find_some in Hfind as [Hin Htrue].
    rewrite Forall_forall in Hnone. rewrite (Hnone m) in Htrue; [discriminate Htrue |].
    apply list_elem_of_In. exact Hin.
Qed.

Lemma detectBackendType_priority_witness :
  detectBackendType (Some manifest_overridden) = "Express"
  /\ detectBackendType (Some manifest_next_react) = "Frontend".
Proof.
  split.
  - apply (detectBackendType_priority manifest_overridden). reflexivity.
  - apply (detectBackendType_priority manifest_next_react). repeat constructor.
Defined.

Lemma analyze_missing_configs_witness :
  In "build script" (missingConfigs analysis_next).
Proof.
  apply (analyze_missing_configs (JSON_parse_at manifest_next_text manifest_next)
           (clientOfFiles [("package.json", manifest_next_text)])).
  reflexivity.
Defined.

(** ** The template generators, further *)

(** X7.  Package scripts are suggested only when the analysis has no
    build script, and only for Next.js and React; a suggestion always
    names build, start and dev, in that order. *)
Theorem generatePackageJsonScripts_cases (analysis : RepoAnalysis) :
  (generatePackageJsonScripts analysis <> [] <->
   JS.truthyOpt (buildScript analysis) = false
   /\ (framework analysis = "Next.js" \/ framework analysis = "React"))
  /\ (generatePackageJsonScripts analysis = []
      \/ JS.keys (generatePackageJsonScripts analysis) = ["build"; "start"; "dev"]).
Proof.
  unfold generatePackageJsonScripts.
  destruct (JS.truthyOpt (buildScript analysis)); cbn [negb].
  - split; [| left; reflexivity]. split; [congruence | intros [H _]; discriminate H].
  - destruct (String.eqb_spec (framework analysis) "Next.js") as [Hn | Hn].
    + split; [| right; reflexivity]. split; [auto | discriminate].
    + destruct (String.eqb_spec (framework analysis) "React") as [Hr | Hr].
      * split; [| right; reflexivity]. split; [auto | discriminate].
      * split; [| left; reflexivity]. split; [congruence | intros [_ [H | H]]; congruence].
Qed.

Lemma prefix_append (p t : string) : String.prefix p (p +:+ t) = true.
Proof.
  induction p as [| c p IH]; [destruct t; reflexivity |].
  rewrite append_cons. simpl. destruct (ascii_dec c c); [apply IH | congruence].
Qed.

Lemma drop_append (p t : string) : JS.drop (String.length p) (p +:+ t) = t.
Proof.
  induction p as [| c p IH]; [reflexivity |]. rewrite append_cons. simpl. apply IH.
Qed.

Lemma replace_first_prefix (pat s : string) :
  JS.replace_first pat "" (pat +:+ s) = s.
Proof.
  assert (Hunfold : forall t, String.prefix pat t = true ->
            JS.replace_first pat "" t = "" +:+ JS.drop (String.length pat) t).
  { intros t Ht. destruct t; unfold JS.replace_first; fold JS.replace_first;
      rewrite Ht; reflexivity. }
  rewrite Hunfold by apply prefix_append. rewrite drop_append. apply append_nil_l.
Qed.

(** X8.  The build command of generateVercelConfig always starts with
    npm run.  A build script that itself starts with npm run is taken
    as it is, without a second prefix; an absent or empty build script
    gives npm run build. *)
Theorem vercelConfig_buildCommand (analysis : RepoAnalysis) :
  exists command,
    member "buildCommand" (vercelConfigObject analysis) = Some (JS.JStr command)
    /\ String.prefix "npm run " command = true
    /\ (JS.truthyOpt (buildScript analysis) = false -> command = "npm run build")
    /\ (forall rest, buildScript analysis = Some ("npm run " +:+ rest) ->
          command = "npm run " +:+ rest).
Proof.
  unfold vercelConfigObject.
  set (command := match buildScript analysis with
                  | Some s => if JS.truthy s
                              then "npm run " +:+ JS.replace_first "npm run " "" s
                              else "npm run build"
                  | None => "npm run build"
                  end).
  exists command. split; [destruct (0 <? _)%nat; reflexivity |].
  subst command. destruct (buildScript analysis) as [s |]; cbn [JS.truthyOpt].
  - destruct (JS.truthy s) eqn:Hs.
    + split; [apply prefix_append |]. split; [discriminate |].
      intros rest H. injection H as ->. rewrite replace_first_prefix. reflexivity.
    + split; [reflexivity |]. split; [reflexivity |].
      intros rest H. injection H as ->. discriminate Hs.
  - split; [reflexivity |]. split; [reflexivity | discriminate].
Qed.

Lemma vercelConfig_buildCommand_witness :
  exists command,
    member "buildCommand" (vercelConfigObject analysis_scripted) = Some (JS.JStr command)
    /\ command = "npm run compile".
Proof.
  destruct (vercelConfig_buildCommand analysis_scripted) as (command & H1 & _ & _ & H2).
  exists command. split; [exact H1 |]. apply (H2 "compile"). reflexivity.
Defined.

(** ** The content agent, further *)

Section ContentAgentRuns.

Import OpenAIAgent.

Variable JSON_parse : string -> Completion JS.Rec.
Variable github : GitHubClient.
Variables owner repo : string.
Variable analysis : RepoAnalysis.

#[local] Abbreviation runToolCalls := (runToolCalls JSON_parse github).
#[local] Abbreviation agentLoop := (agentLoop JSON_parse github repo analysis).
#[local] Abbreviation runOpenAIAgent :=
  (runOpenAIAgent JSON_parse github owner repo analysis).
#[local] Abbreviation rounds := (rounds JSON_parse github owner repo analysis).

(** The tool loop only adds to the transcript and to the progress
    calls. *)
Lemma runToolCalls_extends calls st :
  exists answers calls',
    messages (fst (runToolCalls calls st)) = messages st ++ answers
    /\ reported (fst (runToolCalls calls st)) = reported st ++ calls'
    /\ (snd (runToolCalls calls st) = None ->
        map answered answers = map (fun tc => Some (tc_id tc)) (List.filter isFunctionCall calls)
        /\ length calls' = length (List.filter isFunctionCall calls)).
Proof.
  revert st. induction calls as [| tc calls IH]; intros st.
  - exists [], []. simpl. rewrite !app_nil_r. repeat split; reflexivity.
  - simpl. change (isFunctionCall tc) with (tc_type tc =? "function")%string.
    destruct (tc_type tc =? "function")%string; cbn [negb].
    + destruct (JSON_parse (fn_arguments tc)) as [args | err].
      * match goal with
        | |- context [OpenAIAgent.runToolCalls _ _ calls ?st1] =>
            destruct (IH st1) as (answers & calls' & Hm & Hr & Hok)
        end.
        eexists (_ :: answers), (_ :: calls').
        rewrite Hm, Hr. cbn [push onStep messages reported].
        rewrite <- !app_assoc. cbn [app].
        split; [reflexivity |]. split; [reflexivity |].
        intros Hnone. destruct (Hok Hnone) as [H1 H2].
        cbn [map answered length]. rewrite H1, H2. split; reflexivity.
      * exists [], []. cbn [fst snd]. rewrite !app_nil_r.
        split; [reflexivity |]. split; [reflexivity |]. discriminate.
    + apply IH.
Qed.

(** Rounds of runnable tool calls below the bound are passed, one
    request each. *)
Lemma agentLoop_skips rs rest st :
  Forall (toolRound JSON_parse) rs ->
  (iterations st + length rs <= maxIterations)%nat ->
  exists st' more,
    agentLoop (rs ++ rest) st = agentLoop rest st'
    /\ iterations st' = (iterations st + length rs)%nat
    /\ reported st' = reported st ++ more.
Proof.
  intros H. revert st. induction H as [| r rs Hr _ IH]; intros st Hlen.
  - exists st, []. cbn [app length]. rewrite Nat.add_0_r, app_nil_r. repeat split.
  - cbn [length] in Hlen. cbn [app]. rewrite agentLoop_unfold.
    destruct (Nat.ltb_spec (iterations st) maxIterations) as [Hlt | Hge]; [| lia].
    destruct r as [m | err]; [| destruct Hr].
    unfold toolRound in Hr. cbv zeta.
    destruct (tool_calls m) as [[| c calls] |]; [destruct Hr | | destruct Hr].
    pose proof (runToolCalls_iterations JSON_parse github (c :: calls)
                  (push (AssistantTurn m) (tick st))) as Hit.
    pose proof (runToolCalls_parsed JSON_parse github (c :: calls)
                  (push (AssistantTurn m) (tick st)) Hr) as Hok.
    destruct (runToolCalls_extends (c :: calls) (push (AssistantTurn m) (tick st)))
      as (answers & calls' & _ & Hrep & _).
    destruct (runToolCalls (c :: calls) (push (AssistantTurn m) (tick st))) as [st1 res].
    cbn [fst snd] in Hit, Hok, Hrep. subst res. cbn [iterations push tick] in Hit.
    destruct (IH st1) as (st' & more & Hrun & Hits & Hreps); [lia |].
    exists st', (calls' ++ more). split; [exact Hrun |]. split; [simpl; lia |].
    rewrite Hreps, Hrep. cbn [reported push tick]. rewrite app_assoc. reflexivity.
Qed.

(** X9.  A final answer ends the run.  When fewer than 8 rounds of
    runnable tool calls come first, the run returns what
    parseAgentResponse makes of the answer (of the empty text when the
    answer has no content), it has made one request more than there were
    tool rounds, and its last progress call announces the parsing;
    responses scripted after the answer are never requested. *)
Theorem runOpenAIAgent_final_answer
    (rs rest : list (Completion AssistantMessage)) (m : AssistantMessage) :
  Forall (toolRound JSON_parse) rs ->
  (length rs < 8)%nat ->
  finalAnswer m ->
  let run := runOpenAIAgent (rs ++ Return m :: rest) in
  outcome run = Return (parseAgentResponse (JS.or_else (content m) "") analysis repo)
  /\ rounds (rs ++ Return m :: rest) = S (length rs)
  /\ last (progress run) = Some ("OpenAI generation complete", Some "Parsing response").
Proof.
  intros Hrs Hlen Hm. unfold OpenAIAgent.rounds, OpenAIAgent.runOpenAIAgent, runLoop.
  destruct (agentLoop_skips rs (Return m :: rest) (initialState owner repo analysis) Hrs)
    as (st' & more & Hrun & Hits & _).
  { cbn [initialState onStep iterations]. unfold maxIterations. lia. }
  rewrite Hrun. cbn [initialState onStep iterations] in Hits.
  rewrite agentLoop_unfold.
  destruct (Nat.ltb_spec (iterations st') maxIterations) as [Hlt | Hge];
    [| unfold maxIterations in Hge; lia].
  cbv zeta. unfold finalAnswer in Hm.
  destruct (tool_calls m) as [[| c calls] |]; [| destruct Hm |];
    cbn [fst snd progress outcome reported onStep iterations push tick];
    (split; [reflexivity |]; split; [lia |]; apply last_snoc).
Qed.

(** X10.  A rejected completion request ends the run with the same
    failure: after fewer than 8 rounds of runnable tool calls the promise
    rejects with the error of the request, one request after the tool
    rounds, and no result is built, neither a parsed one nor the
    fallback. *)
Theorem runOpenAIAgent_rejected_request
    (rs rest : list (Completion AssistantMessage)) (err : string) :
  Forall (toolRound JSON_parse) rs ->
  (length rs < 8)%nat ->
  outcome (runOpenAIAgent (rs ++ Throw err :: rest)) = Throw err
  /\ rounds (rs ++ Throw err :: rest) = S (length rs).
Proof.
  intros Hrs Hlen. unfold OpenAIAgent.rounds, OpenAIAgent.runOpenAIAgent, runLoop.
  destruct (agentLoop_skips rs (Throw err :: rest) (initialState owner repo analysis) Hrs)
    as (st' & more & Hrun & Hits & _).
  { cbn [initialState onStep iterations]. unfold maxIterations. lia. }
  rewrite Hrun. cbn [initialState onStep iterations] in Hits.
  rewrite agentLoop_unfold.
  destruct (Nat.ltb_spec (iterations st') maxIterations) as [Hlt | Hge];
    [| unfold maxIterations in Hge; lia].
  cbn [fst snd outcome iterations tick]. split; [reflexivity | lia].
Qed.

(** The loop only adds to the progress calls. *)
Lemma agentLoop_reported script st :
  exists more, reported (fst (agentLoop script st)) = reported st ++ more.
Proof.
  revert st. induction script as [| r script IH]; intros st; rewrite agentLoop_unfold;
    destruct (iterations st <? maxIterations)%nat;
    try (exists []; cbn [fst reported tick]; rewrite app_nil_r; reflexivity).
  destruct r as [m | err];
    [| exists []; cbn [fst reported tick]; rewrite app_nil_r; reflexivity].
  cbv zeta.
  destruct (tool_calls m) as [[| c calls] |];
    try (eexists [_]; reflexivity).
  destruct (runToolCalls_extends (c :: calls) (push (AssistantTurn m) (tick st)))
    as (answers & calls' & _ & Hrep & _).
  destruct (runToolCalls (c :: calls) (push (AssistantTurn m) (tick st))) as [st1 [e |]];
    cbn [fst] in Hrep |- *.
  - exists calls'. exact Hrep.
  - destruct (IH st1) as [more Hmore]. exists (calls' ++ more).
    rewrite Hmore, Hrep. cbn [reported push tick]. rewrite app_assoc. reflexivity.
Qed.

(** X11.  Whatever the completion endpoint answers, and also when the run
    fails, the first progress call of the content agent is the one that
    announces the connection and the model. *)
Theorem runOpenAIAgent_first_report (script : list (Completion AssistantMessage)) :
  exists more,
    progress (runOpenAIAgent script)
    = ("Connecting to OpenAI", Some "Using gpt-4o-mini") :: more.
Proof.
  unfold OpenAIAgent.runOpenAIAgent, runLoop.
  destruct (agentLoop_reported script (initialState owner repo analysis)) as [more Hmore].
  destruct (agentLoop script (initialState owner repo analysis)) as [st res].
  exists more. exact Hmore.
Qed.

(** X12.  In a round whose arguments all parse, every tool call of the
    type function is answered by one tool message with the id of the
    call, in the order of the calls, and is reported by one progress
    call; a tool call of another type gets no answer and no report. *)
Theorem runToolCalls_answers (calls : list ToolCall) (st : LoopState) :
  snd (runToolCalls calls st) = None ->
  exists answers calls',
    messages (fst (runToolCalls calls st)) = messages st ++ answers
    /\ map answered answers = map (fun tc => Some (tc_id tc)) (List.filter isFunctionCall calls)
    /\ reported (fst (runToolCalls calls st)) = reported st ++ calls'
    /\ length calls' = length (List.filter isFunctionCall calls).
Proof.
  intros Hnone.
  destruct (runToolCalls_extends calls st) as (answers & calls' & Hm & Hr & Hok).
  destruct (Hok Hnone) as [H1 H2].
  exists answers, calls'. repeat split; assumption.
Qed.

End ContentAgentRuns.

Lemma runOpenAIAgent_final_answer_witness :
  outcome (OpenAIAgent.runOpenAIAgent JSON_parse_empty_object (clientOfFiles []) "acme" "shop"
             analysis_react ([round_list_root; round_list_root] ++ [Return answer_message]))
  = Return (OpenAIAgent.parseAgentResponse answer_plain analysis_react "shop")
  /\ OpenAIAgent.rounds JSON_parse_empty_object (clientOfFiles []) "acme" "shop"
       analysis_react ([round_list_root; round_list_root] ++ [Return answer_message]) = 3%nat.
Proof.
  destruct (runOpenAIAgent_final_answer JSON_parse_empty_object (clientOfFiles []) "acme" "shop"
              analysis_react [round_list_root; round_list_root] [] answer_message)
    as (H1 & H2 & _).
  - repeat constructor; intros _; exists []; reflexivity.
  - simpl. lia.
  - exact I.
  - split; [exact H1 | exact H2].
Defined.

Lemma runOpenAIAgent_rejected_request_witness :
  outcome (OpenAIAgent.runOpenAIAgent JSON_parse_empty_object (clientOfFiles []) "acme" "shop"
             analysis_react ([round_list_root] ++ [Throw "Error: 429 Rate limit reached"]))
  = Throw "Error: 429 Rate limit reached"
  /\ OpenAIAgent.rounds JSON_parse_empty_object (clientOfFiles []) "acme" "shop"
       analysis_react ([round_list_root] ++ [Throw "Error: 429 Rate limit reached"]) = 2%nat.
Proof.
  apply (runOpenAIAgent_rejected_request JSON_parse_empty_object (clientOfFiles []) "acme"
           "shop" analysis_react [round_list_root] [] "Error: 429 Rate limit reached").
  - repeat constructor; intros _; exists []; reflexivity.
  - simpl. lia.
Defined.

Lemma runToolCalls_answers_witness :
  exists answers calls',
    OpenAIAgent.messages
      (fst (OpenAIAgent.runToolCalls JSON_parse_empty_object (clientOfFiles []) calls_mixed
              (OpenAIAgent.initialState "acme" "shop" analysis_react)))
    = OpenAIAgent.messages (OpenAIAgent.initialState "acme" "shop" analysis_react) ++ answers
    /\ map answered answers = [Some "call_b"]
    /\ OpenAIAgent.reported
         (fst (OpenAIAgent.runToolCalls JSON_parse_empty_object (clientOfFiles []) calls_mixed
                 (OpenAIAgent.initialState "acme" "shop" analysis_react)))
       = OpenAIAgent.reported (OpenAIAgent.initialState "acme" "shop" analysis_react) ++ calls'
    /\ length calls' = 1%nat.
Proof.
  apply (runToolCalls_answers JSON_parse_empty_object (clientOfFiles []) calls_mixed
           (OpenAIAgent.initialState "acme" "shop" analysis_react)).
  reflexivity.
Defined.

Lemma units_continuation (c : ascii) : JS.isContinuation c = true -> JS.units c = 0%nat.
Proof.
  unfold JS.isContinuation, JS.units. intros H. apply andb_true_iff in H as [H1 H2].
  apply Nat.leb_le in H1.
  destruct (Nat.ltb_spec (nat_of_ascii c) 128) as [Hlt | _]; [lia |].
  rewrite H2. reflexivity.
Qed.

Lemma units_lead (c : ascii) :
  JS.isContinuation c = false -> JS.units c = 1%nat \/ JS.units c = 2%nat.
Proof.
  unfold JS.isContinuation, JS.units. intros H.
  destruct (Nat.ltb_spec (nat_of_ascii c) 128) as [Hlt | Hge]; [left; reflexivity |].
  destruct (Nat.ltb_spec (nat_of_ascii c) 192) as [Hlt' | Hge'].
  - apply Nat.leb_le in Hge. rewrite Hge in H. discriminate H.
  - destruct (nat_of_ascii c <? 240)%nat; [left | right]; reflexivity.
Qed.

Lemma units_of_continuation_byte (k : nat) :
  (k < 64)%nat -> JS.units (ascii_of_nat (128 + k)) = 0%nat.
Proof.
  intros Hk. apply units_continuation. unfold JS.isContinuation.
  rewrite nat_ascii_embedding by lia.
  apply andb_true_iff. split; [apply Nat.leb_le | apply Nat.ltb_lt]; lia.
Qed.

Lemma length16_highSurrogate (b1 b2 b3 : ascii) :
  JS.length16 (JS.highSurrogate b1 b2 b3) = 1%nat.
Proof.
  unfold JS.highSurrogate. cbv zeta. cbn [JS.length16].
  rewrite !units_of_continuation_byte by (apply Nat.mod_upper_bound; lia).
  reflexivity.
Qed.

Example slice16_between_surrogates :
  JS.slice16 1 "😀"
  = String (ascii_of_nat 237) (String (ascii_of_nat 160) (String (ascii_of_nat 189) "")).
Proof. reflexivity. Qed.

Example slice16_accented : JS.slice16 2 "élan" = "él" /\ JS.length16 "élan" = 4%nat.
Proof. split; reflexivity. Qed.

Lemma length16_append (a b : string) :
  JS.length16 (a +:+ b) = (JS.length16 a + JS.length16 b)%nat.
Proof.
  induction a as [| c a IH]; [reflexivity |].
  rewrite append_cons. cbn [JS.length16]. rewrite IH. lia.
Qed.

(** A slice at a position inside the text has that many code units. *)
Lemma length16_slice16 (s : string) :
  forall n, (n <= JS.length16 s)%nat -> JS.length16 (JS.slice16 n s) = n.
Proof.
  induction s as [| c s IH]; intros n Hn; cbn [JS.length16] in Hn.
  - simpl. lia.
  - cbn [JS.slice16]. destruct (JS.isContinuation c) eqn:Hc.
    + rewrite (units_continuation c Hc) in Hn. cbn [JS.length16].
      rewrite (units_continuation c Hc), IH by exact Hn. reflexivity.
    + destruct n as [| n']; [reflexivity |].
      destruct (units_lead c Hc) as [Hu | Hu]; rewrite Hu in Hn |- *; cbn [Nat.eqb].
      * cbn [JS.length16]. rewrite Hu, IH by lia. reflexivity.
      * destruct n' as [| n'']; [apply length16_highSurrogate |].
        cbn [JS.length16]. rewrite Hu, IH by lia. reflexivity.
Qed.

(** X13.  read_repo_file hands a file of at most 3000 UTF-16 code units
    back unchanged and cuts a longer one to its first 3000 code units
    followed by the truncation mark, 3015 code units in all; a file that
    is absent or empty gives the message File not found with the path of
    the call. *)
Theorem executeTool_read_truncates (args : JS.Rec) (github : GitHubClient) :
  let result := OpenAIAgent.executeTool "read_repo_file" args github in
  let notFound := "File not found: " +:+ default "undefined" (JS.prop args "path") in
  match getFileContent github (JS.prop args "path") with
  | None => result = notFound
  | Some text =>
      (text = "" -> result = notFound)
      /\ (text <> "" -> (JS.length16 text <= 3000)%nat -> result = text)
      /\ ((3000 < JS.length16 text)%nat ->
          result = JS.slice16 3000 text +:+ JS.nl +:+ "...[truncated]"
          /\ JS.length16 result = 3015%nat)
  end.
Proof.
  intros result notFound. subst result notFound. unfold OpenAIAgent.executeTool.
  cbn [String.eqb Ascii.eqb Bool.eqb andb]. cbv iota. cbv zeta.
  destruct (getFileContent github (JS.prop args "path")) as [text |];
    [| destruct (JS.prop args "path"); reflexivity].
  destruct text as [| c text].
  - split; [intros _; destruct (JS.prop args "path"); reflexivity |].
    split; [congruence | simpl; lia].
  - cbn [JS.truthy]. split; [discriminate |].
    destruct (Nat.ltb_spec 3000 (JS.length16 (String c text))) as [Hlong | Hshort].
    + split; [lia |]. intros _. split; [reflexivity |].
      rewrite !length16_append, length16_slice16 by lia. reflexivity.
    + split; [reflexivity | lia].
Qed.

Lemma executeTool_read_truncates_witness :
  JS.length16
    (OpenAIAgent.executeTool "read_repo_file" [("path", "data.txt")]
       (clientOfFiles [("data.txt", long_file)])) = 3015%nat
  /\ OpenAIAgent.executeTool "read_repo_file" [("path", "notes.txt")]
       (clientOfFiles [("notes.txt", accented_file)]) = accented_file.
Proof.
  split.
  - apply (executeTool_read_truncates [("path", "data.txt")]
             (clientOfFiles [("data.txt", long_file)])).
    vm_compute. lia.
  - apply (executeTool_read_truncates [("path", "notes.txt")]
             (clientOfFiles [("notes.txt", accented_file)])).
    + discriminate.
    + vm_compute. lia.
Defined.

(** ** The orchestrator, further *)

(** X15.  buildDefaultRecommendations always gives exactly three
    recommendations.  The rule-based ones come first; a list of fewer
    than three is filled with the defaults at the positions still free,
    so a default is skipped when a rule-based line holds its position. *)
Theorem buildDefaultRecommendations_three (analysis : RepoAnalysis) :
  let rules := Orchestrator.buildDefaultRecommendationsRules analysis in
  length (Orchestrator.buildDefaultRecommendations analysis) = 3%nat
  /\ Orchestrator.buildDefaultRecommendations analysis
     = firstn 3 (rules ++ skipn (length rules) Orchestrator.recommendationDefaults).
Proof.
  intros rules. unfold Orchestrator.buildDefaultRecommendations. fold rules.
  destruct rules as [| r1 [| r2 [| r3 rules]]]; split; reflexivity.
Qed.

Section StepEvents.

Import Orchestrator.

Lemma AgentStep_eta (s : AgentStep) :
  {| id := id s; label := label s; status := status s; detail := detail s |} = s.
Proof. destruct s; reflexivity. Qed.

Lemma route_onStep_fresh (steps : list AgentStep) (step : AgentStep) :
  (forall s, In s steps -> id s <> id step) ->
  AgentRoute.onStep steps step = steps ++ [step].
Proof.
  induction steps as [| s steps IH]; intros Hfresh; simpl.
  - rewrite AgentStep_eta. reflexivity.
  - destruct (String.eqb_spec (id s) (id step)) as [Heq | _].
    + exfalso. apply (Hfresh s); [left; reflexivity | exact Heq].
    + rewrite IH; [reflexivity |]. intros s' Hs'. apply Hfresh. right. exact Hs'.
Qed.

Lemma route_onStep_known (steps : list AgentStep) (i : nat) (s step : AgentStep) :
  steps !! i = Some s ->
  id step = id s ->
  (forall j s', steps !! j = Some s' -> id s' = id s -> j = i) ->
  AgentRoute.onStep steps step = <[i := step]> steps.
Proof.
  revert i. induction steps as [| s0 steps IH]; intros i Hi Hid Hfirst.
  - rewrite lookup_nil in Hi. discriminate Hi.
  - simpl. destruct (String.eqb_spec (id s0) (id step)) as [Heq | Hne].
    + assert (Hi0 : 0%nat = i) by (apply (Hfirst 0%nat s0); [reflexivity | congruence]).
      subst i. simpl. rewrite Heq, AgentStep_eta. reflexivity.
    + destruct i as [| i]; [simpl in Hi; congruence |].
      simpl. rewrite (IH i); [reflexivity | exact Hi | exact Hid |].
      intros j s' Hj Hs'. specialize (Hfirst (S j) s' Hj Hs'). lia.
Qed.

Lemma recorded_snoc (events : list AgentStep) (e : AgentStep) :
  AgentRoute.recorded (events ++ [e]) = AgentRoute.onStep (AgentRoute.recorded events) e.
Proof. unfold AgentRoute.recorded. rewrite fold_left_app. reflexivity. Qed.

Lemma addStep_recorded label' detail' st :
  StepInv st -> Recorded st -> Recorded (snd (addStep label' running detail' st)).
Proof.
  intros Hinv Hrec. unfold Recorded, addStep. cbn [snd emitted st_steps].
  rewrite recorded_snoc, Hrec. apply route_onStep_fresh.
  intros s Hs. cbn [id]. apply (StepInv_fresh_step st s Hinv Hs).
Qed.

Lemma mutateStep_recorded i f st :
  StepInv st -> (forall s, id (f s) = id s) -> Recorded st -> Recorded (mutateStep i f st).
Proof.
  intros Hinv Hid Hrec. unfold Recorded, mutateStep.
  destruct (st_steps st !! i) as [s |] eqn:Hs; [| exact Hrec].
  cbn [emitted st_steps]. rewrite recorded_snoc, Hrec.
  apply (route_onStep_known (st_steps st) i s (f s) Hs (Hid s)).
  intros j s' Hj Heq. exact (StepInv_ids_distinct st j i s' s Hinv Hj Hs Heq).
Qed.

Lemma relabel_all_recorded i calls st :
  StepInv st -> Recorded st -> Recorded (fold_left (relabelStep i) calls st).
Proof.
  revert st. induction calls as [| call calls IH]; intros st Hinv Hrec; simpl; [exact Hrec |].
  apply IH; [apply relabelStep_inv, Hinv |].
  apply mutateStep_recorded; [exact Hinv | reflexivity | exact Hrec].
Qed.

(** The calls of [onStep] that a mutation of the last step adds. *)
Lemma mutateStep_last_event i f st l s :
  st_steps st = l ++ [s] -> i = length l ->
  emitted (mutateStep i f st) = emitted st ++ [f s].
Proof.
  intros Hst ->. unfold mutateStep. rewrite Hst.
  rewrite list_lookup_middle by reflexivity. reflexivity.
Qed.

Lemma relabel_all_events i calls st l s :
  st_steps st = l ++ [s] -> i = length l ->
  length (emitted (fold_left (relabelStep i) calls st))
  = (length (emitted st) + length calls)%nat.
Proof.
  revert st s. induction calls as [| call calls IH]; intros st s Hst Hi; simpl; [lia |].
  destruct (mutateStep_last i
              (fun s0 => {| id := id s0; label := fst call; status := status s0;
                            detail := if JS.truthyOpt (snd call) then snd call
                                      else detail s0 |})
              st l s Hst Hi) as [Hsteps _].
  rewrite (IH (relabelStep i st call) _ Hsteps Hi).
  unfold relabelStep. rewrite (mutateStep_last_event i _ st l s Hst Hi).
  rewrite length_app. simpl. lia.
Qed.

Section StageEvents.

Context {R : Type}.
Variables (label' doneDetail : string) (run : AgentRun R) (st : OState).

Lemma agentStage_recorded :
  StepInv st -> Recorded st -> Recorded (snd (agentStage label' doneDetail run st)).
Proof.
  intros Hinv Hrec. unfold agentStage.
  pose proof (addStep_inv label' None st Hinv) as Hadd.
  pose proof (addStep_recorded label' None st Hinv Hrec) as Hradd.
  destruct (addStep label' running None st) as [step st1]. cbn [snd] in Hadd, Hradd.
  pose proof (relabel_all_inv step (progress run) st1 Hadd) as Hrel.
  pose proof (relabel_all_recorded step (progress run) st1 Hadd Hradd) as Hrrel.
  destruct (outcome run); cbn [snd];
    (apply mutateStep_recorded; [exact Hrel | reflexivity | exact Hrrel]).
Qed.

(** A stage calls [onStep] once for the new step, once for every
    progress call of the agent and once at the end. *)
Lemma agentStage_events :
  length (emitted (snd (agentStage label' doneDetail run st)))
  = (length (emitted st) + 2 + length (progress run))%nat.
Proof.
  unfold agentStage, addStep. cbv zeta.
  set (new := {| id := JS.String_of_nat (S (stepCounter st)); label := label';
                 status := running; detail := None |}).
  set (st1 := {| st_steps := st_steps st ++ [new]; stepCounter := S (stepCounter st);
                 emitted := emitted st ++ [new] |}).
  pose proof (relabel_all_events (length (st_steps st)) (progress run) st1 (st_steps st) new
                eq_refl eq_refl) as Hlen.
  destruct (relabel_all_last (length (st_steps st)) (progress run) st1 (st_steps st) new
              eq_refl eq_refl) as (s' & Hsteps & _).
  destruct (outcome run) as [r | err]; cbn [snd]; unfold completeStep, failStep;
    rewrite (mutateStep_last_event _ _ _ _ _ Hsteps eq_refl), length_app, Hlen;
    subst st1; cbn [emitted]; rewrite length_app; simpl; lia.
Qed.

End StageEvents.

End StepEvents.

Section OrchestratorRuns.

Import Orchestrator.

Variable generateReadme : string -> RepoAnalysis -> option string -> string.
Variable JSON_parse : string -> option LandingCopy.
Variable analyze : string -> string -> string -> Completion RepoAnalysis.
Variable runBlackboxAgent :
  string -> string -> RepoAnalysis -> string -> AgentRun BlackboxAgent.BlackboxAgentResult.
Variable runOpenAIAgent :
  string -> string -> RepoAnalysis -> string -> AgentRun OpenAIAgent.OpenAIAgentResult.

#[local] Abbreviation merge := (merge generateReadme JSON_parse).
#[local] Abbreviation run :=
  (runOrchestrator generateReadme JSON_parse analyze runBlackboxAgent runOpenAIAgent).

Lemma merge_events options a blackboxResult openaiResult st :
  StepInv st -> Recorded st ->
  let st' := fst (merge options a blackboxResult openaiResult st) in
  Recorded st'
  /\ length (emitted st') = (length (emitted st) + 2)%nat
  /\ last (emitted st')
     = Some {| id := JS.String_of_nat (S (stepCounter st));
               label := "Assembling final output"; status := done;
               detail :=
                 Some ("Generated via "
                       +:+ providerName
                             (provider (snd (merge options a blackboxResult openaiResult st)))) |}.
Proof.
  intros Hinv Hrec.
  pose proof (addStep_inv "Assembling final output" None st Hinv) as Hadd.
  pose proof (addStep_recorded "Assembling final output" None st Hinv Hrec) as Hradd.
  unfold Orchestrator.merge. unfold addStep in *. cbv zeta. cbn [fst snd] in *.
  set (new := {| id := JS.String_of_nat (S (stepCounter st));
                 label := "Assembling final output"; status := running; detail := None |})
    in *.
  set (st1 := {| st_steps := st_steps st ++ [new]; stepCounter := S (stepCounter st);
                 emitted := emitted st ++ [new] |}) in *.
  split; [apply mutateStep_recorded; [exact Hadd | reflexivity | exact Hradd] |].
  unfold completeStep.
  rewrite (mutateStep_last_event _ _ st1 (st_steps st) new eq_refl eq_refl).
  split; [rewrite length_app; subst st1; cbn [emitted]; rewrite length_app; simpl; lia |].
  rewrite last_snoc. cbn [provider JS.truthyOpt JS.truthy].
  destruct openaiResult, blackboxResult; reflexivity.
Qed.

(** The run up to the merge, with the calls of [onStep] so far. *)
Lemma run_returns_events options a :
  analyze (githubToken options) (owner options) (repo options) = Return a ->
  let bb := runBlackboxAgent (owner options) (repo options) a (githubToken options) in
  let oa := runOpenAIAgent (owner options) (repo options) a (githubToken options) in
  exists st,
    run options
    = (fst (merge options a (resultOf (outcome bb)) (resultOf (outcome oa)) st),
       Return (snd (merge options a (resultOf (outcome bb)) (resultOf (outcome oa)) st)))
    /\ StepInv st /\ Recorded st
    /\ stepCounter st = 3%nat
    /\ length (emitted st) = (6 + length (progress bb) + length (progress oa))%nat.
Proof.
  intros Ha bb oa. unfold runOrchestrator. rewrite Ha.
  pose proof (addStep_inv "Analyzing repository structure" None initial StepInv_initial)
    as Hinv0.
  assert (Hrec0 : Recorded (snd (addStep "Analyzing repository structure" running None initial))).
  { apply addStep_recorded; [exact StepInv_initial | reflexivity]. }
  unfold addStep in Hinv0, Hrec0. unfold addStep at 1. cbv zeta.
  cbn [fst snd] in Hinv0, Hrec0. cbv iota. cbv beta.
  set (st1 := completeStep _ _ _).
  assert (Hinv1 : StepInv st1) by (apply completeStep_inv; exact Hinv0).
  assert (Hrec1 : Recorded st1)
    by (apply mutateStep_recorded; [exact Hinv0 | reflexivity | exact Hrec0]).
  assert (Hlen1 : length (emitted st1) = 2%nat) by reflexivity.
  assert (Hc1 : stepCounter st1 = 1%nat) by reflexivity.
  clearbody st1. fold bb. fold oa.
  pose proof (agentStage_result "Blackbox AI: Deep code analysis"
                "Config & env template generated" bb st1) as Hr2.
  pose proof (agentStage_inv "Blackbox AI: Deep code analysis"
                "Config & env template generated" bb st1 Hinv1) as Hinv2.
  pose proof (agentStage_recorded "Blackbox AI: Deep code analysis"
                "Config & env template generated" bb st1 Hinv1 Hrec1) as Hrec2.
  pose proof (agentStage_events "Blackbox AI: Deep code analysis"
                "Config & env template generated" bb st1) as Hlen2.
  destruct (agentStage_steps "Blackbox AI: Deep code analysis"
              "Config & env template generated" bb st1) as (s2 & _ & Hc2 & _).
  destruct (agentStage "Blackbox AI: Deep code analysis"
              "Config & env template generated" bb st1) as [blackboxResult st2].
  cbn [fst snd] in Hr2, Hinv2, Hrec2, Hlen2, Hc2. subst blackboxResult.
  pose proof (agentStage_result "OpenAI: Generating README & landing page"
                "README & landing page ready" oa st2) as Hr3.
  pose proof (agentStage_inv "OpenAI: Generating README & landing page"
                "README & landing page ready" oa st2 Hinv2) as Hinv3.
  pose proof (agentStage_recorded "OpenAI: Generating README & landing page"
                "README & landing page ready" oa st2 Hinv2 Hrec2) as Hrec3.
  pose proof (agentStage_events "OpenAI: Generating README & landing page"
                "README & landing page ready" oa st2) as Hlen3.
  destruct (agentStage_steps "OpenAI: Generating README & landing page"
              "README & landing page ready" oa st2) as (s3 & _ & Hc3 & _).
  destruct (agentStage "OpenAI: Generating README & landing page"
              "README & landing page ready" oa st2) as [openaiResult st3].
  cbn [fst snd] in Hr3, Hinv3, Hrec3, Hlen3, Hc3. subst openaiResult.
  exists st3.
  split; [destruct (merge _ _ _ _ _); reflexivity |].
  split; [exact Hinv3 |]. split; [exact Hrec3 |]. split; lia.
Qed.

(** The calls of [onStep] of a run. *)
Lemma run_events options :
  Recorded (fst (run options))
  /\ match analyze (githubToken options) (owner options) (repo options) with
     | Throw err => length (emitted (fst (run options))) = 2%nat
     | Return a =>
         let bb := runBlackboxAgent (owner options) (repo options) a (githubToken options) in
         let oa := runOpenAIAgent (owner options) (repo options) a (githubToken options) in
         length (emitted (fst (run options)))
         = (8 + length (progress bb) + length (progress oa))%nat
         /\ forall r, snd (run options) = Return r ->
              last (emitted (fst (run options)))
              = Some {| id := "4"; label := "Assembling final output"; status := done;
                        detail := Some ("Generated via " +:+ providerName (provider r)) |}
     end.
Proof.
  destruct (analyze (githubToken options) (owner options) (repo options))
    as [a | err] eqn:Ha.
  - destruct (run_returns_events options a Ha) as (st & Hrun & Hinv & Hrec & Hc & Hlen).
    set (bb := resultOf _) in Hrun. set (oa := resultOf _) in Hrun.
    destruct (merge_events options a bb oa st Hinv Hrec) as (Hrec4 & Hlen4 & Hlast).
    rewrite Hrun. cbn [fst snd]. cbv zeta.
    split; [exact Hrec4 |]. split; [lia |].
    intros r Hr. injection Hr as <-. rewrite Hlast, Hc. reflexivity.
  - unfold runOrchestrator. rewrite Ha. unfold addStep. cbv zeta. cbn [fst snd].
    split; [| reflexivity].
    apply mutateStep_recorded; [| reflexivity |].
    + apply (addStep_inv "Analyzing repository structure" None initial StepInv_initial).
    + apply (addStep_recorded "Analyzing repository structure" None initial
               StepInv_initial). reflexivity.
Qed.

(** X16.  The step array that the agent route rebuilds from the calls of
    onStep is, at the end of every run, the step array of the
    orchestrator: when the promise returns it is the steps of the
    result, and when the analysis fails it is the one step of the
    analysis, with the status error and the failure as detail. *)
Theorem route_steps_agree (options : OrchestratorOptions) :
  let steps := AgentRoute.recorded (emitted (fst (run options))) in
  steps = st_steps (fst (run options))
  /\ match snd (run options) with
     | Return r => steps = Orchestrator.steps r
     | Throw _ =>
         exists err,
           analyze (githubToken options) (owner options) (repo options) = Throw err
           /\ steps = [ {| id := "1"; label := "Analyzing repository structure";
                           status := error; detail := Some err |} ]
     end.
Proof.
  intros steps. subst steps.
  destruct (run_events options) as [Hrec _]. unfold Recorded in Hrec.
  split; [exact Hrec |]. rewrite Hrec.
  destruct (analyze (githubToken options) (owner options) (repo options))
    as [a | err] eqn:Ha.
  - destruct (run_returns generateReadme JSON_parse analyze runBlackboxAgent
                runOpenAIAgent options a Ha) as (st & _ & _ & _ & Hrun & _).
    set (bb := resultOf _) in Hrun. set (oa := resultOf _) in Hrun.
    destruct (merge_fields generateReadme JSON_parse options a bb oa st)
      as (_ & _ & _ & _ & _ & _ & _ & _ & Hst).
    rewrite Hrun. cbn [fst snd]. symmetry. exact Hst.
  - destruct (run_throws generateReadme JSON_parse analyze runBlackboxAgent runOpenAIAgent
                options err Ha) as (Hthrow & _ & Hsteps).
    rewrite Hthrow. exists err. split; [reflexivity | exact Hsteps].
Qed.

(** X18.  When the code-insight agent returns, its texts win over the
    static generators unless they are empty: the Vercel config and the
    env template are the agent's when not empty, and the package scripts
    are the agent's when it suggests at least one.  The provider is
    openai when the content agent returned too, and blackbox when it
    threw; the README, the landing copy and the recommendations follow
    the content agent alone. *)
Theorem orchestrator_code_agent_result (options : OrchestratorOptions) (a : RepoAnalysis)
    (b : BlackboxAgent.BlackboxAgentResult) :
  analyze (githubToken options) (owner options) (repo options) = Return a ->
  outcome (runBlackboxAgent (owner options) (repo options) a (githubToken options))
    = Return b ->
  let oa := resultOf (outcome (runOpenAIAgent (owner options) (repo options) a
                                 (githubToken options))) in
  exists r,
    snd (run options) = Return r
    /\ provider r = match oa with Some _ => openai | None => blackbox end
    /\ vercelJson r
       = (if JS.truthy (BlackboxAgent.vercelConfig b) then BlackboxAgent.vercelConfig b
          else generateVercelJsonFile a)
    /\ envTemplate r
       = (if JS.truthy (BlackboxAgent.envTemplate b) then BlackboxAgent.envTemplate b
          else generateEnvTemplate a)
    /\ packageJsonScripts r
       = match BlackboxAgent.suggestedScripts b with
         | [] => generatePackageJsonScripts a
         | _ :: _ => BlackboxAgent.suggestedScripts b
         end
    /\ aiReadme r
       = JS.or_else (option_map OpenAIAgent.readme oa)
           (generateReadme (repo options) a (description options))
    /\ aiLandingPage r
       = buildLandingPage JSON_parse (repo options) a
           (option_map OpenAIAgent.landingPageCopy oa) (description options)
    /\ deploymentRecommendations r
       = match oa with
         | Some o => OpenAIAgent.deploymentRecommendations o
         | None => buildDefaultRecommendations a
         end.
Proof.
  intros Ha Hbb oa.
  destruct (run_returns generateReadme JSON_parse analyze runBlackboxAgent runOpenAIAgent
              options a Ha) as (st & _ & _ & _ & Hrun & _).
  rewrite Hbb in Hrun. cbn [resultOf] in Hrun. fold oa in Hrun.
  eexists. split; [rewrite Hrun; reflexivity |].
  destruct (merge_fields generateReadme JSON_parse options a (Some b) oa st)
    as (_ & H2 & H3 & H4 & H5 & H6 & H7 & H8 & _).
  split; [rewrite H2; destruct oa; reflexivity |].
  split; [exact H5 |]. split; [exact H6 |].
  split; [rewrite H7; destruct (BlackboxAgent.suggestedScripts b); reflexivity |].
  split; [exact H3 |]. split; [exact H4 | exact H8].
Qed.

(** X19.  Landing copy that JSON.parse rejects is ignored: the page is
    the one built without copy, with the repo name as headline, the
    description or else the analysis description as subheadline and the
    three default features; an empty copy is not parsed at all. *)
Theorem buildLandingPage_ignores_bad_copy
    (repoName : string) (a : RepoAnalysis) (copy : string) (description' : option string) :
  (copy <> "" -> JSON_parse copy = None) ->
  buildLandingPage JSON_parse repoName a (Some copy) description'
  = landingPageHtml repoName repoName
      (JS.or_else description' (Types.description a)) defaultFeatures a
  /\ buildLandingPage JSON_parse repoName a (Some copy) description'
     = buildLandingPage JSON_parse repoName a None description'.
Proof.
  intros Hbad. unfold buildLandingPage.
  destruct copy as [| c copy]; cbn [JS.truthy].
  - split; reflexivity.
  - rewrite Hbad by discriminate. split; reflexivity.
Qed.

End OrchestratorRuns.

Lemma orchestrator_code_agent_result_witness :
  exists r,
    snd (Orchestrator.runOrchestrator generateReadme_standin JSON_parse_none analyzer_next
           blackbox_up openai_down options_shop) = Return r
    /\ Orchestrator.provider r = blackbox
    /\ Orchestrator.vercelJson r = "{}"
    /\ Orchestrator.envTemplate r = generateEnvTemplate analysis_next
    /\ Orchestrator.packageJsonScripts r = [("build", "next build")].
Proof.
  destruct (orchestrator_code_agent_result generateReadme_standin JSON_parse_none
              analyzer_next blackbox_up openai_down options_shop analysis_next _ eq_refl eq_refl)
    as (r & H1 & H2 & H3 & H4 & H5 & _).
  exists r. repeat split; assumption.
Defined.

Lemma buildLandingPage_ignores_bad_copy_witness :
  Orchestrator.buildLandingPage JSON_parse_none "shop" analysis_next (Some "{headline") None
  = Orchestrator.buildLandingPage JSON_parse_none "shop" analysis_next None None.
Proof.
  apply (buildLandingPage_ignores_bad_copy JSON_parse_none "shop" analysis_next "{headline" None).
  reflexivity.
Defined.

(** ** The code-insight agent *)

Example matchBraces_greedy :
  Blackbox.matchBraces "see {a} and {b} here" = Some "{a} and {b}".
Proof. reflexivity. Qed.

Example matchBraces_unclosed : Blackbox.matchBraces "} then {" = None.
Proof. reflexivity. Qed.

Example stripFences_env :
  RE.trim (Blackbox.stripFences 0 ("```env" +:+ JS.nl +:+ "API_KEY=" +:+ JS.nl +:+ "```"))
  = "API_KEY=".
Proof. reflexivity. Qed.

Example generateDefaultEnvTemplate_two_vars :
  Blackbox.generateDefaultEnvTemplate analysis_env
  = "# Environment Variables" +:+ JS.nl
    +:+ "# Copy this file to .env.local and fill in the values" +:+ JS.nl
    +:+ JS.nl +:+ "API_KEY=" +:+ JS.nl +:+ "DB_HOST=".
Proof. reflexivity. Qed.

Example runBlackboxAgent_fenced :
  outcome (Blackbox.runBlackboxAgent JSON_parse_nothing (clientOfFiles []) (Some "key")
             fetch_fenced "acme" "shop" analysis_env)
  = Return {| BlackboxAgent.codeInsights := "The code base is small.";
              BlackboxAgent.vercelConfig :=
                "{ " +:+ JS.dq +:+ "framework" +:+ JS.dq +:+ ": " +:+ JS.dq +:+ "nextjs"
                +:+ JS.dq +:+ " }";
              BlackboxAgent.envTemplate := "API_KEY=";
              BlackboxAgent.riskAssessment := "";
              BlackboxAgent.suggestedScripts := [] |}.
Proof. vm_compute. reflexivity. Qed.

Section CodeInsightAgent.

Import Blackbox.

Variable JSON_parse : string -> option unknown.
Variable github : GitHubClient.
Variable apiKey : option string.
Variable fetch : string -> nat -> Completion HttpResponse.

#[local] Abbreviation callBlackbox := (callBlackbox apiKey fetch).
#[local] Abbreviation runBlackboxAgent := (runBlackboxAgent JSON_parse github apiKey fetch).

Lemma truthyOpt_default (x : option string) :
  JS.truthyOpt x = true -> default "" x <> "".
Proof. destruct x as [[| c s] |]; simpl; congruence. Qed.

(** X20.  callBlackbox returns only with an API key and a response that
    is ok, and what it returns is never the empty text: without a key it
    throws before any request, and a response without a usable answer
    makes it throw. *)
Theorem callBlackbox_answer (prompt : string) (maxTokens : nat) (answer : string) :
  callBlackbox prompt maxTokens = Return answer ->
  answer <> ""
  /\ JS.truthyOpt apiKey = true
  /\ exists r, fetch prompt maxTokens = Return r /\ ok r = true.
Proof.
  unfold Blackbox.callBlackbox.
  destruct (JS.truthyOpt apiKey); cbn [negb]; [| discriminate].
  destruct (fetch prompt maxTokens) as [r | err]; [| discriminate].
  destruct (ok r) eqn:Hok; cbn [negb].
  - destruct (json r) as [data | err]; [| discriminate].
    cbv zeta.
    match goal with |- context [JS.truthyOpt ?x] => destruct (JS.truthyOpt x) eqn:Hfirst end.
    + intros H. injection H as <-.
      split; [apply truthyOpt_default, Hfirst |]. split; [reflexivity |].
      exists r. split; [reflexivity | exact Hok].
    + destruct (JS.truthyOpt (response data)) eqn:Hresp; [| discriminate].
      intros H. injection H as <-.
      split; [apply truthyOpt_default, Hresp |]. split; [reflexivity |].
      exists r. split; [reflexivity | exact Hok].
  - destruct (text r); discriminate.
Qed.

Lemma uptoLast_nonempty (p : ascii -> bool) (s m : string) :
  uptoLast p s = Some m -> m <> "".
Proof.
  destruct s as [| c s]; simpl; [discriminate |].
  destruct (uptoLast p s); [| destruct (p c)]; intros H; inversion H; discriminate.
Qed.

Lemma matchBraces_nonempty (s m : string) : matchBraces s = Some m -> m <> "".
Proof.
  unfold matchBraces. destruct (fromFirst isOpenBrace s); [| discriminate].
  apply uptoLast_nonempty.
Qed.

Lemma generateDefaultVercelConfig_nonempty (analysis : RepoAnalysis) :
  generateDefaultVercelConfig analysis <> "".
Proof. apply stringify_pretty_object_nonempty. Qed.

(** The three stages of a run. *)
Lemma runBlackboxAgent_stages (owner repo : string) (analysis : RepoAnalysis) :
  exists found warning,
    runBlackboxAgent owner repo analysis
    = {| progress :=
           [ ("Blackbox AI: Reading repository", Some "Fetching key files");
             ("Blackbox AI: Analyzing code", Some "Deep dependency analysis") ]
           ++ warning
           ++ [ ("Blackbox AI: Generating Vercel config", Some "Creating deployment config");
                ("Blackbox AI: Generating env template", Some "Creating .env.example") ];
         outcome :=
           Return
             {| BlackboxAgent.codeInsights := insights found;
                BlackboxAgent.vercelConfig :=
                  match callBlackbox (vercelPrompt analysis) 500 with
                  | Return vercelResponse =>
                      match matchBraces vercelResponse with
                      | Some m => m
                      | None => generateDefaultVercelConfig analysis
                      end
                  | Throw _ => generateDefaultVercelConfig analysis
                  end;
                BlackboxAgent.envTemplate :=
                  match callBlackbox (envPrompt analysis) 400 with
                  | Return answer => RE.trim (stripFences 0 answer)
                  | Throw _ => generateDefaultEnvTemplate analysis
                  end;
                BlackboxAgent.riskAssessment := risks found;
                BlackboxAgent.suggestedScripts := scripts found |} |}
    /\ match callBlackbox
               (analysisPrompt owner repo analysis
                  (JS.join JS.nl (getFileTree github 1))
                  (getFileContent github (Some "package.json"))
                  (readEntry github entryFiles))
               1500 with
       | Return _ => warning = []
       | Throw err =>
           warning = [("Blackbox AI: Analysis warning", Some err)]
           /\ found
              = {| insights :=
                     framework analysis +:+ " project analyzed. "
                     +:+ (if (0 <? length (missingConfigs analysis))%nat
                          then "Some configurations are missing."
                          else "Configuration looks good.");
                   risks := ""; scripts := [] |}
       end.
Proof.
  unfold Blackbox.runBlackboxAgent. cbv zeta.
  destruct (callBlackbox _ 1500) as [analysisResponse | err].
  - destruct (truthy (extractJSON JSON_parse analysisResponse));
      eexists; exists []; split; reflexivity.
  - eexists. eexists [_]. split; [reflexivity |]. split; reflexivity.
Qed.

Lemma runBlackboxAgent_result (owner repo : string) (analysis : RepoAnalysis) :
  exists b,
    outcome (runBlackboxAgent owner repo analysis) = Return b
    /\ BlackboxAgent.vercelConfig b <> "".
Proof.
  destruct (runBlackboxAgent_stages owner repo analysis) as (found & warning & Hrun & _).
  rewrite Hrun. cbn [outcome]. eexists. split; [reflexivity |].
  cbn [BlackboxAgent.vercelConfig].
  destruct (callBlackbox (vercelPrompt analysis) 500) as [vercelResponse | err];
    [| apply generateDefaultVercelConfig_nonempty].
  destruct (matchBraces vercelResponse) as [m |] eqn:Hm;
    [exact (matchBraces_nonempty _ _ Hm) | apply generateDefaultVercelConfig_nonempty].
Qed.

(** X21.  runBlackboxAgent never rejects: every call of the endpoint is
    guarded, so the promise returns a result whatever the endpoint does.
    The Vercel config of the result is never empty, and the agent makes
    four progress calls, or five with the warning of a failed analysis
    call. *)
Theorem runBlackboxAgent_returns (owner repo : string) (analysis : RepoAnalysis) :
  exists b,
    outcome (runBlackboxAgent owner repo analysis) = Return b
    /\ BlackboxAgent.vercelConfig b <> ""
    /\ (4 <= length (progress (runBlackboxAgent owner repo analysis)) <= 5)%nat.
Proof.
  destruct (runBlackboxAgent_stages owner repo analysis) as (found & warning & Hrun & Hw).
  rewrite Hrun. cbn [outcome progress]. eexists. split; [reflexivity |].
  cbn [BlackboxAgent.vercelConfig]. split.
  - destruct (callBlackbox (vercelPrompt analysis) 500) as [vercelResponse | err];
      [| apply generateDefaultVercelConfig_nonempty].
    destruct (matchBraces vercelResponse) as [m |] eqn:Hm;
      [exact (matchBraces_nonempty _ _ Hm) | apply generateDefaultVercelConfig_nonempty].
  - destruct (callBlackbox _ 1500); [subst warning | destruct Hw as [-> _]]; simpl; lia.
Qed.

(** X22.  A stage whose call fails falls back to its own default, and
    the other stages are not touched: a failed analysis call gives the
    insight sentence built from the analysis, no risk assessment, no
    scripts and the warning as progress call; a failed config call gives
    generateDefaultVercelConfig; a failed env call gives
    generateDefaultEnvTemplate. *)
Theorem runBlackboxAgent_failed_calls (owner repo : string) (analysis : RepoAnalysis) :
  exists b,
    outcome (runBlackboxAgent owner repo analysis) = Return b
    /\ (forall err,
          callBlackbox
            (analysisPrompt owner repo analysis
               (JS.join JS.nl (getFileTree github 1))
               (getFileContent github (Some "package.json"))
               (readEntry github entryFiles))
            1500 = Throw err ->
          BlackboxAgent.codeInsights b
          = framework analysis +:+ " project analyzed. "
            +:+ (if (0 <? length (missingConfigs analysis))%nat
                 then "Some configurations are missing."
                 else "Configuration looks good.")
          /\ BlackboxAgent.riskAssessment b = ""
          /\ BlackboxAgent.suggestedScripts b = []
          /\ In ("Blackbox AI: Analysis warning", Some err)
                (progress (runBlackboxAgent owner repo analysis)))
    /\ (forall err, callBlackbox (vercelPrompt analysis) 500 = Throw err ->
          BlackboxAgent.vercelConfig b = generateDefaultVercelConfig analysis)
    /\ (forall err, callBlackbox (envPrompt analysis) 400 = Throw err ->
          BlackboxAgent.envTemplate b = generateDefaultEnvTemplate analysis).
Proof.
  destruct (runBlackboxAgent_stages owner repo analysis) as (found & warning & Hrun & Hw).
  rewrite Hrun. cbn [outcome progress]. eexists. split; [reflexivity |].
  cbn [BlackboxAgent.codeInsights BlackboxAgent.riskAssessment BlackboxAgent.suggestedScripts
       BlackboxAgent.vercelConfig BlackboxAgent.envTemplate].
  split; [| split].
  - intros err Herr. rewrite Herr in Hw. destruct Hw as [-> ->]. cbn [insights risks scripts].
    repeat split. simpl. auto.
  - intros err ->. reflexivity.
  - intros err ->. reflexivity.
Qed.

End CodeInsightAgent.

Lemma callBlackbox_answer_witness :
  "The code base is small." <> ""
  /\ JS.truthyOpt (Some "key") = true
  /\ exists r, fetch_fenced "Hello" 1500 = Return r /\ Blackbox.ok r = true.
Proof.
  apply (callBlackbox_answer (Some "key") fetch_fenced "Hello" 1500 "The code base is small.").
  reflexivity.
Defined.

Lemma runBlackboxAgent_failed_calls_witness :
  exists b,
    outcome (Blackbox.runBlackboxAgent JSON_parse_nothing (clientOfFiles []) None fetch_fenced
               "acme" "shop" analysis_env) = Return b
    /\ BlackboxAgent.codeInsights b = "Vue project analyzed. Some configurations are missing."
    /\ BlackboxAgent.vercelConfig b = Blackbox.generateDefaultVercelConfig analysis_env
    /\ BlackboxAgent.envTemplate b = Blackbox.generateDefaultEnvTemplate analysis_env.
Proof.
  destruct (runBlackboxAgent_failed_calls JSON_parse_nothing (clientOfFiles []) None
              fetch_fenced "acme" "shop" analysis_env) as (b & Hb & H1 & H2 & H3).
  exists b. split; [exact Hb |].
  split; [apply (H1 "Error: BLACKBOX_API_KEY is not set"); reflexivity |].
  split; [apply (H2 "Error: BLACKBOX_API_KEY is not set"); reflexivity |].
  apply (H3 "Error: BLACKBOX_API_KEY is not set"); reflexivity.
Defined.

Lemma split_lines_join (ls : list string) :
  ls <> [] -> Forall (fun l => noNewline l = true) ls ->
  JS.split_lines (JS.join JS.nl ls) = ls.
Proof.
  intros Hne Hls. induction Hls as [| x ls Hx Hls IH]; [congruence |].
  destruct ls as [| y ls].
  - unfold JS.join. simpl String.concat. apply split_lines_last. exact Hx.
  - unfold JS.join in *. change (String.concat JS.nl (x :: y :: ls))
      with (x +:+ JS.nl +:+ String.concat JS.nl (y :: ls)).
    rewrite split_lines_line by exact Hx.
    rewrite IH by discriminate. reflexivity.
Qed.

Lemma default_env_template_round_trip (analysis : RepoAnalysis) :
  NoDup (envVarsDetected analysis) ->
  Forall (fun v => wellFormedName v = true) (envVarsDetected analysis) ->
  detectEnvVars (clientOfFiles [(".env.example", Blackbox.generateDefaultEnvTemplate analysis)])
  = envVarsDetected analysis.
Proof.
  intros Hnd Hwf. rewrite detectEnvVars_env_example.
  unfold Blackbox.generateDefaultEnvTemplate. cbv zeta.
  set (vars := envVarsDetected analysis) in *.
  set (tail := if (length vars =? 0)%nat then _ else _).
  assert (Hvars : Forall (fun l => noNewline l = true) (map (fun v => v +:+ "=") vars)).
  { apply Forall_forall. intros l Hl. apply list_elem_of_In, in_map_iff in Hl as (x & <- & Hx).
    unfold noNewline. rewrite allChars_append.
    rewrite Forall_forall in Hwf.
    pose proof (wellFormedName_one_line x (Hwf x (proj2 (list_elem_of_In _ _) Hx))) as H1.
    unfold noNewline in H1. rewrite H1. reflexivity. }
  assert (Hlines : Forall (fun l => noNewline l = true) tail).
  { subst tail. destruct (length vars =? 0)%nat.
    - apply Forall_app. split; [| repeat constructor].
      apply Forall_app. split; [repeat constructor | exact Hvars].
    - apply Forall_app. split; [repeat constructor | exact Hvars]. }
  assert (Htail : exists rest,
            tail = "# Environment Variables"
                   :: "# Copy this file to .env.local and fill in the values" :: "" :: rest
            /\ fold_left (fun vars line =>
                            match matchEnvLine line with
                            | Some name => Set_add vars name
                            | None => vars
                            end) rest [] = vars).
  { subst tail. destruct vars as [| v vs] eqn:Hv.
    - eexists. split; reflexivity.
    - eexists. split; [reflexivity |].
      rewrite <- Hv in *.
      replace (map (fun v0 => v0 +:+ "=") vars)
        with (map (fun v0 => v0 +:+ "=" +:+ (fun _ : string => "") v0) vars)
        by (apply map_ext; intros x; rewrite append_nil_r; reflexivity).
      apply (detect_assignments (fun _ => "") vars []); [exact Hnd | exact Hwf]. }
  destruct Htail as (rest & Htail & Hfold).
  rewrite split_lines_join; [| rewrite Htail; discriminate | exact Hlines].
  rewrite Htail. replace (JS.truthy _) with true by reflexivity.
  cbn [fold_left].
  change (matchEnvLine "# Environment Variables") with (@None string).
  change (matchEnvLine "# Copy this file to .env.local and fill in the values")
    with (@None string).
  change (matchEnvLine "") with (@None string). cbv iota.
  exact Hfold.
Qed.

(** X23.  The default env template of the code-insight agent reads back
    as the env vars of the analysis: a repository whose only env file is
    that template has exactly those env vars detected, in the same
    order, and none when the template has only its comment lines. *)
Theorem default_env_template_reads_back (JSON_parse : string -> option PackageJson)
    (client : GitHubClient) :
  let a := analyze JSON_parse client in
  detectEnvVars (clientOfFiles [(".env.example", Blackbox.generateDefaultEnvTemplate a)])
  = envVarsDetected a.
Proof.
  intros a. destruct (detectEnvVars_good client) as [Hnd Hwf].
  apply default_env_template_round_trip; assumption.
Qed.

(** X24.  The lookup tables of the two config generators disagree.  The
    framework names agree except for Nuxt and Gatsby, which only the
    agent's default config knows; the output directories agree except
    for Svelte and Nuxt. *)
Theorem vercel_tables_compared (fw : string) :
  (Blackbox.getVercelFramework fw = getFrameworkConfig fw <-> fw <> "Nuxt" /\ fw <> "Gatsby")
  /\ (Blackbox.getOutputDir fw = getOutputDirectory fw <-> fw <> "Svelte" /\ fw <> "Nuxt").
Proof.
  assert (Hcase : In fw ["Next.js"; "React"; "Vue"; "Svelte"; "Astro"; "Nuxt"; "Gatsby"; "Vite"]
                  \/ ~ In fw ["Next.js"; "React"; "Vue"; "Svelte"; "Astro"; "Nuxt"; "Gatsby";
                              "Vite"]).
  { destruct (in_dec string_dec fw
                ["Next.js"; "React"; "Vue"; "Svelte"; "Astro"; "Nuxt"; "Gatsby"; "Vite"]);
      [left | right]; assumption. }
  destruct Hcase as [Hin | Hout].
  - simpl in Hin.
    repeat (destruct Hin as [<- | Hin];
            [vm_compute; split; split;
             solve [ intros _; split; discriminate
                   | intros H; discriminate H
                   | intros [H1 H2]; congruence
                   | reflexivity ] |]).
    destruct Hin.
  - assert (Hne : forall s, In s ["Next.js"; "React"; "Vue"; "Svelte"; "Astro"; "Nuxt";
                                   "Gatsby"; "Vite"] -> (s =? fw)%string = false
                                                        /\ (fw =? s)%string = false).
    { intros s Hs. split; apply String.eqb_neq; intros E; apply Hout; congruence. }
    unfold Blackbox.getVercelFramework, Blackbox.getOutputDir, getFrameworkConfig,
      getOutputDirectory. cbn [JS.prop].
    repeat match goal with
           | |- context [(?s =? fw)%string] =>
               rewrite (proj1 (Hne s ltac:(simpl; tauto)))
           | |- context [(fw =? ?s)%string] =>
               rewrite (proj2 (Hne s ltac:(simpl; tauto)))
           end.
    cbn. split; split; try reflexivity; intros _; split; intros E; apply Hout; rewrite E;
      simpl; tauto.
Qed.

Example getFileTree_one_level :
  getFileTree (clientOfListings listings_nested) 1
  = ["README.md"; "src/index.ts"; "package.json"].
Proof. reflexivity. Qed.

(** ** The file tree *)

Section FileTree.

Variable client : GitHubClient.

Lemma fold_visit (deeper : nat) :
  (forall path files,
     traverse client deeper path files = files ++ traverse client deeper path []) ->
  forall l acc,
    fold_left
      (fun files item =>
         if (entry_type item =? "dir")%string && (0 <? deeper)%nat
         then traverse client deeper (entry_path item) files
         else if (entry_type item =? "file")%string
              then files ++ [entry_path item] else files) l acc
    = acc ++ flat_map (visit client deeper) l.
Proof.
  intros Hpush. induction l as [| item l IHl]; intros acc; simpl;
    [rewrite app_nil_r; reflexivity |].
  rewrite IHl. unfold visit at 2.
  destruct ((entry_type item =? "dir")%string && (0 <? deeper)%nat).
  - rewrite (Hpush (entry_path item) acc), <- app_assoc. reflexivity.
  - destruct (entry_type item =? "file")%string; [| reflexivity].
    rewrite <- app_assoc. reflexivity.
Qed.

(** A traversal only pushes: what the array held stays in front. *)
Lemma traverse_pushes (levels : nat) :
  forall path files,
    traverse client levels path files = files ++ traverse client levels path [].
Proof.
  induction levels as [| deeper IH]; intros path files; simpl.
  - rewrite app_nil_r. reflexivity.
  - destruct (getRepoContents client path) as [[contents | p c] |];
      try (rewrite app_nil_r; reflexivity).
    rewrite (fold_visit deeper IH contents files), (fold_visit deeper IH contents []).
    reflexivity.
Qed.

Lemma traverse_listing (deeper : nat) (path : string) :
  traverse client (S deeper) path []
  = match getRepoContents client path with
    | Some (Listing contents) => flat_map (visit client deeper) contents
    | _ => []
    end.
Proof.
  simpl. destruct (getRepoContents client path) as [[contents | p c] |]; try reflexivity.
  apply (fold_visit deeper (traverse_pushes deeper) contents []).
Qed.

Lemma traverse_deeper (levels : nat) :
  forall path,
    sublist (traverse client levels path []) (traverse client (S levels) path []).
Proof.
  induction levels as [| deeper IH]; intros path; [apply sublist_nil_l |].
  rewrite !traverse_listing.
  destruct (getRepoContents client path) as [[contents | p c] |]; try apply sublist_nil_l.
  induction contents as [| item l IHl]; simpl; [constructor |].
  apply sublist_app; [| exact IHl].
  unfold visit.
  destruct (String.eqb_spec (entry_type item) "dir") as [Hdir | Hdir]; cbn [andb].
  - destruct deeper as [| deeper']; cbn [Nat.ltb Nat.leb].
    + rewrite Hdir. apply sublist_nil_l.
    + apply IH.
  - reflexivity.
Qed.

(** X26.  A deeper file tree only adds files: the tree up to a depth is
    a sublist of the tree up to the next depth, with the order kept.
    At depth 0 the tree is the files of the root listing, and it is
    empty when the root cannot be listed. *)
Theorem getFileTree_deeper (maxDepth : nat) :
  sublist (getFileTree client maxDepth) (getFileTree client (S maxDepth))
  /\ getFileTree client 0
     = match getRepoContents client "" with
       | Some (Listing contents) =>
           map entry_path
             (List.filter (fun item => (entry_type item =? "file")%string) contents)
       | _ => []
       end.
Proof.
  split; [apply traverse_deeper |].
  unfold getFileTree. rewrite traverse_listing.
  destruct (getRepoContents client "") as [[contents | p c] |]; try reflexivity.
  induction contents as [| item l IHl]; simpl; [reflexivity |].
  rewrite IHl. unfold visit. rewrite andb_false_r.
  destruct (entry_type item =? "file")%string; reflexivity.
Qed.

End FileTree.

(** X27.  What an analysis can hold: the framework is one of ten names
    and the backend one of nine, the package manager is always npm, a
    build script is never the empty text, and the description is made of
    the three names. *)
Theorem analyze_ranges (JSON_parse : string -> option PackageJson) (client : GitHubClient) :
  let a := analyze JSON_parse client in
  In (framework a) frameworkNames
  /\ In (backendType a) backendNames
  /\ packageManager a = "npm"
  /\ buildScript a <> Some ""
  /\ description a = framework a +:+ " project with npm and " +:+ backendType a.
Proof.
  intros a. subst a. unfold analyze.
  cbn [framework backendType packageManager buildScript description].
  set (pj := getPackageJson JSON_parse client).
  split; [| split; [| split; [| split]]].
  - unfold detectFramework.
    repeat match goal with
           | |- context [if ?b then _ else _] => destruct b
           | |- context [match ?x with Some _ => _ | None => _ end] => destruct x
           end; simpl; tauto.
  - unfold detectBackendType.
    repeat match goal with
           | |- context [if ?b then _ else _] => destruct b
           | |- context [match ?x with Some _ => _ | None => _ end] => destruct x
           end; simpl; tauto.
  - destruct pj; reflexivity.
  - destruct (script pj "build") as [[| c s] |]; simpl; congruence.
  - destruct pj; reflexivity.
Qed.

Lemma stripFences_plain (s : string) :
  allChars (fun c => negb (isBackquote c)) s = true -> Blackbox.stripFences 0 s = s.
Proof.
  induction s as [| c s IH]; intros Hs; [reflexivity |].
  simpl in Hs. apply andb_true_iff in Hs as [Hc Hs].
  cbn [Blackbox.stripFences].
  assert (Hfence : Blackbox.fenceLength (String c s) = None).
  { unfold Blackbox.fenceLength. cbn [String.prefix].
    destruct (ascii_dec "`"%char c) as [<- | _]; [discriminate Hc | reflexivity]. }
  rewrite Hfence, IH by exact Hs. reflexivity.
Qed.

(** X28.  The clean-up of the env stage leaves an answer without
    backquotes as it is, up to the trimming: when the env call returns
    such an answer the env template of the result is the trimmed
    answer. *)
Theorem runBlackboxAgent_plain_env
    (JSON_parse : string -> option Blackbox.unknown) (github : GitHubClient)
    (apiKey : option string) (fetch : string -> nat -> Completion Blackbox.HttpResponse)
    (owner repo : string) (analysis : RepoAnalysis) (answer : string) :
  Blackbox.callBlackbox apiKey fetch (Blackbox.envPrompt analysis) 400 = Return answer ->
  allChars (fun c => negb (isBackquote c)) answer = true ->
  exists b,
    outcome (Blackbox.runBlackboxAgent JSON_parse github apiKey fetch owner repo analysis)
    = Return b
    /\ BlackboxAgent.envTemplate b = RE.trim answer.
Proof.
  intros Hcall Hplain.
  destruct (runBlackboxAgent_stages JSON_parse github apiKey fetch owner repo analysis)
    as (found & warning & Hrun & _).
  rewrite Hrun. cbn [outcome]. eexists. split; [reflexivity |].
  cbn [BlackboxAgent.envTemplate]. rewrite Hcall, stripFences_plain by exact Hplain.
  reflexivity.
Qed.

Lemma runBlackboxAgent_plain_env_witness :
  exists b,
    outcome (Blackbox.runBlackboxAgent JSON_parse_nothing (clientOfFiles []) (Some "key")
               (fun _ _ => answer_of (" PORT=3000" +:+ JS.nl)) "acme" "shop" analysis_env)
    = Return b
    /\ BlackboxAgent.envTemplate b = "PORT=3000".
Proof.
  apply (runBlackboxAgent_plain_env JSON_parse_nothing (clientOfFiles []) (Some "key")
           (fun _ _ => answer_of (" PORT=3000" +:+ JS.nl)) "acme" "shop" analysis_env
           (" PORT=3000" +:+ JS.nl)).
  - reflexivity.
  - reflexivity.
Defined.

(* ================================================================== *)
(** ** The runs with the callback of the caller *)

Section ObservedAgent.

Import OpenAIAgent.

Variable parse : string -> Completion Blackbox.unknown.
Variable github : GitHubClient.
Variables owner repo : string.
Variable analysis : RepoAnalysis.
Variable onStep : option Observed.AgentCallback.

#[local] Abbreviation report := (Observed.report onStep).
#[local] Abbreviation runToolCallsO := (Observed.runToolCalls parse github onStep).
#[local] Abbreviation agentLoopO := (Observed.agentLoop parse github repo analysis onStep).

Lemma report_iterations label detail st :
  iterations (fst (report label detail st)) = iterations st.
Proof. unfold Observed.report. destruct onStep; reflexivity. Qed.

Lemma report_returns label detail st :
  returnsIfGiven onStep -> snd (report label detail st) = None.
Proof.
  unfold Observed.report, returnsIfGiven. destruct onStep as [callback |]; [| reflexivity].
  intros H. cbn [snd]. apply H.
Qed.

Lemma observed_runToolCalls_iterations calls st :
  iterations (fst (runToolCallsO calls st)) = iterations st.
Proof.
  revert st. induction calls as [| tc calls IH]; intros st; simpl; [reflexivity |].
  destruct (negb (tc_type tc =? "function")%string); [apply IH |].
  destruct (parse (fn_arguments tc)) as [args | err]; [| reflexivity].
  pose proof (report_iterations
                ("Reading "
                 +:+ JS.or_else (JS.prop (Blackbox.recordOr (Some args)) "path") "repo files")
                (Some ("Tool: " +:+ fn_name tc)) st) as Hrep.
  destruct onStep as [callback |].
  - destruct args; cbn [Observed.path]; try reflexivity;
      match goal with
      | |- context [Observed.report ?o ?l ?d ?s] =>
          destruct (Observed.report o l d s) as [st1 [err |]] eqn:E
      end; cbn [fst] in Hrep |- *;
      try (rewrite IH; cbn [iterations push]); congruence.
  - rewrite IH. reflexivity.
Qed.

Lemma observed_runToolCalls_objects calls st :
  returnsIfGiven onStep ->
  Forall (fun tc => tc_type tc = "function" ->
                    exists args, parse (fn_arguments tc) = Return args
                                 /\ args <> Blackbox.UNull) calls ->
  snd (runToolCallsO calls st) = None.
Proof.
  intros Hret H. revert st.
  induction H as [| tc calls Htc _ IH]; intros st; simpl; [reflexivity |].
  destruct (String.eqb_spec (tc_type tc) "function") as [Hty | Hty]; simpl; [| apply IH].
  destruct (Htc Hty) as (args & -> & Hnull).
  assert (Hreading :
            match onStep with
            | Some _ =>
                match Observed.path args with
                | Return p =>
                    report ("Reading " +:+ JS.or_else p "repo files")
                           (Some ("Tool: " +:+ fn_name tc)) st
                | Throw err => (st, Some err)
                end
            | None => (st, None)
            end
            = (fst (report
                      ("Reading "
                       +:+ JS.or_else (JS.prop (Blackbox.recordOr (Some args)) "path")
                             "repo files")
                      (Some ("Tool: " +:+ fn_name tc)) st), None)).
  { pose proof (report_returns
                  ("Reading "
                   +:+ JS.or_else (JS.prop (Blackbox.recordOr (Some args)) "path")
                         "repo files")
                  (Some ("Tool: " +:+ fn_name tc)) st Hret) as Hnone.
    destruct onStep as [callback |] eqn:Hon.
    - destruct args; try congruence; cbn [Observed.path];
        destruct (Observed.report _ _ _ _) as [st1 res]; cbn [snd fst] in *; subst res;
        reflexivity.
    - reflexivity. }
  rewrite Hreading. apply IH.
Qed.

Lemma observed_agentLoop_unfold script st :
  agentLoopO script st
  = if (iterations st <? maxIterations)%nat then
      match script with
      | [] => (tick st, Throw "Error: Connection error.")
      | Throw err :: _ => (tick st, Throw err)
      | Return message :: script' =>
          let st1 := push (AssistantTurn message) (tick st) in
          match tool_calls message with
          | None | Some [] =>
              match report "OpenAI generation complete" (Some "Parsing response") st1 with
              | (st2, Some err) => (st2, Throw err)
              | (st2, None) =>
                  (st2, Return (parseAgentResponse (JS.or_else (content message) "")
                                  analysis repo))
              end
          | Some calls =>
              match runToolCallsO calls st1 with
              | (st', Some err) => (st', Throw err)
              | (st', None) => agentLoopO script' st'
              end
          end
      end
    else (st, Return (generateFallbackResult analysis repo)).
Proof. destruct script as [| [m | err] script']; reflexivity. Qed.

Lemma observed_agentLoop_bounded script st :
  (iterations st <= maxIterations)%nat ->
  (iterations (fst (agentLoopO script st)) <= maxIterations)%nat.
Proof.
  revert st. induction script as [| r script IH]; intros st Hst;
    rewrite observed_agentLoop_unfold;
    destruct (Nat.ltb_spec (iterations st) maxIterations) as [Hlt | Hge];
    try exact Hst.
  - simpl. lia.
  - destruct r as [m | err]; [| simpl; lia].
    cbv zeta.
    assert (Hfinal :
              (iterations
                 (fst match report "OpenAI generation complete" (Some "Parsing response")
                              (push (AssistantTurn m) (tick st)) with
                      | (st2, Some err) => (st2, Throw err)
                      | (st2, None) =>
                          (st2, Return (parseAgentResponse (JS.or_else (content m) "")
                                          analysis repo))
                      end) <= maxIterations)%nat).
    { pose proof (report_iterations "OpenAI generation complete" (Some "Parsing response")
                    (push (AssistantTurn m) (tick st))) as Hrep.
      destruct (report _ _ _) as [st2 [err |]]; cbn [fst] in *; rewrite Hrep; simpl; lia. }
    destruct (tool_calls m) as [[| c calls] |]; try exact Hfinal.
    pose proof (observed_runToolCalls_iterations (c :: calls)
                  (push (AssistantTurn m) (tick st))) as Hit.
    destruct (runToolCallsO (c :: calls) (push (AssistantTurn m) (tick st)))
      as [st' [err |]]; simpl in Hit.
    + simpl. lia.
    + apply IH. lia.
Qed.

Lemma observed_agentLoop_tool_rounds rs rest st :
  returnsIfGiven onStep ->
  Forall (objectRound parse) rs ->
  (iterations st + length rs = maxIterations)%nat ->
  snd (agentLoopO (rs ++ rest) st) = Return (generateFallbackResult analysis repo)
  /\ iterations (fst (agentLoopO (rs ++ rest) st)) = maxIterations.
Proof.
  intros Hret H. revert st. induction H as [| r rs Hr _ IH]; intros st Hlen;
    rewrite observed_agentLoop_unfold; simpl in Hlen.
  - destruct (Nat.ltb_spec (iterations st) maxIterations) as [Hlt | Hge]; [lia |].
    split; [reflexivity | simpl; lia].
  - destruct (Nat.ltb_spec (iterations st) maxIterations) as [Hlt | Hge]; [| lia].
    cbn [app].
    destruct r as [m | err]; [| destruct Hr].
    unfold objectRound in Hr. cbv zeta.
    destruct (tool_calls m) as [[| c calls] |]; [destruct Hr | | destruct Hr].
    pose proof (observed_runToolCalls_iterations (c :: calls)
                  (push (AssistantTurn m) (tick st))) as Hit.
    pose proof (observed_runToolCalls_objects (c :: calls)
                  (push (AssistantTurn m) (tick st)) Hret Hr) as Hok.
    destruct (runToolCallsO (c :: calls) (push (AssistantTurn m) (tick st))) as [st' res];
      simpl in Hit, Hok. subst res.
    apply IH. simpl in Hit. lia.
Qed.

End ObservedAgent.

Example null_arguments_with_callback :
  outcome (Observed.runOpenAIAgent parse_empty_or_null (clientOfFiles []) "acme" "shop"
             analysis_react (Some (fun _ => None)) [round_null_arguments])
  = Throw Observed.nullPath
  /\ Observed.rounds parse_empty_or_null (clientOfFiles []) "acme" "shop"
       analysis_react (Some (fun _ => None)) [round_null_arguments] = 1%nat.
Proof. split; vm_compute; reflexivity. Qed.

Example null_arguments_without_callback :
  outcome (Observed.runOpenAIAgent parse_empty_or_null (clientOfFiles []) "acme" "shop"
             analysis_react None (repeat round_null_arguments 8))
  = Return (OpenAIAgent.generateFallbackResult analysis_react "shop").
Proof. vm_compute. reflexivity. Qed.



(** The runs of the first part are the observed runs with a callback
    that returns. *)
Section ReturningCallback.

Import OpenAIAgent.

Variable parse : string -> Completion Blackbox.unknown.
Variable github : GitHubClient.
Variables owner repo : string.
Variable analysis : RepoAnalysis.
Variable callback : Observed.AgentCallback.
Hypothesis callback_returns : returns callback.

Lemma observed_runToolCalls_returning calls st :
  Observed.runToolCalls parse github (Some callback) calls st
  = OpenAIAgent.runToolCalls (Observed.parseArguments parse) github calls st.
Proof.
  revert st. induction calls as [| tc calls IH]; intros st; simpl; [reflexivity |].
  destruct (negb (tc_type tc =? "function")%string); [apply IH |].
  unfold Observed.parseArguments.
  destruct (parse (fn_arguments tc)) as [args | err]; [| reflexivity].
  destruct args; cbn [Observed.path Observed.report Observed.executeTool];
    try reflexivity; rewrite callback_returns; apply IH.
Qed.

Lemma observed_agentLoop_returning script st :
  Observed.agentLoop parse github repo analysis (Some callback) script st
  = OpenAIAgent.agentLoop (Observed.parseArguments parse) github repo analysis script st.
Proof.
  revert st. induction script as [| r script IH]; intros st;
    rewrite observed_agentLoop_unfold, agentLoop_unfold;
    destruct (iterations st <? maxIterations)%nat; try reflexivity.
  destruct r as [m | err]; [| reflexivity]. cbv zeta.
  destruct (tool_calls m) as [[| c calls] |];
    try (cbn [Observed.report]; rewrite callback_returns; reflexivity).
  rewrite observed_runToolCalls_returning.
  destruct (OpenAIAgent.runToolCalls _ _ _ _) as [st' [err |]]; [reflexivity | apply IH].
Qed.

Lemma observed_runOpenAIAgent_returning script :
  Observed.runOpenAIAgent parse github owner repo analysis (Some callback) script
  = OpenAIAgent.runOpenAIAgent (Observed.parseArguments parse) github owner repo analysis
      script.
Proof.
  unfold Observed.runOpenAIAgent, OpenAIAgent.runOpenAIAgent, Observed.runLoop,
    OpenAIAgent.runLoop.
  cbn [Observed.report]. rewrite callback_returns.
  rewrite observed_agentLoop_returning. reflexivity.
Qed.

End ReturningCallback.

Section ObservedOrchestrator.

Import Orchestrator.

Variable generateReadme : string -> RepoAnalysis -> option string -> string.
Variable JSON_parse : string -> option LandingCopy.
Variable analyze : string -> string -> string -> Completion RepoAnalysis.
Variable runBlackboxAgent :
  string -> string -> RepoAnalysis -> string -> AgentRun BlackboxAgent.BlackboxAgentResult.
Variable runOpenAIAgent :
  string -> string -> RepoAnalysis -> string -> AgentRun OpenAIAgent.OpenAIAgentResult.
Variable onStep : Observed.Callback.

#[local] Abbreviation observed :=
  (Observed.runOrchestrator generateReadme JSON_parse analyze runBlackboxAgent
     runOpenAIAgent onStep).
#[local] Abbreviation run :=
  (runOrchestrator generateReadme JSON_parse analyze runBlackboxAgent runOpenAIAgent).

Lemma replay_returning step calls st :
  returns onStep ->
  Observed.replay onStep step calls st = (fold_left (relabelStep step) calls st, None).
Proof.
  intros Hret. revert st. induction calls as [| call calls IH]; intros st; simpl;
    [reflexivity |].
  unfold Observed.notify. rewrite Hret. apply IH.
Qed.

Lemma observed_agentStage_returning {R : Type} label' doneDetail (agent : AgentRun R) st :
  returns onStep ->
  Observed.agentStage onStep label' doneDetail agent st
  = (snd (agentStage label' doneDetail agent st),
     Return (fst (agentStage label' doneDetail agent st))).
Proof.
  intros Hret. unfold Observed.agentStage, agentStage.
  destruct (addStep label' running None st) as [step st1].
  unfold Observed.notify. rewrite Hret, replay_returning by exact Hret.
  destruct (outcome agent); rewrite Hret; reflexivity.
Qed.

Lemma observed_run_returning options :
  returns onStep -> observed options = run options.
Proof.
  intros Hret. unfold Observed.runOrchestrator, runOrchestrator.
  destruct (addStep "Analyzing repository structure" running None initial) as [step st1].
  unfold Observed.notify. rewrite Hret.
  destruct (analyze (githubToken options) (owner options) (repo options)) as [a | err];
    [| rewrite Hret; reflexivity].
  rewrite Hret.
  rewrite observed_agentStage_returning by exact Hret.
  destruct (agentStage "Blackbox AI: Deep code analysis" _ _ _) as [blackboxResult st2].
  cbn [fst snd].
  rewrite observed_agentStage_returning by exact Hret.
  destruct (agentStage "OpenAI: Generating README & landing page" _ _ _)
    as [openaiResult st3].
  cbn [fst snd]. unfold Observed.notify. rewrite Hret.
  destruct (merge _ _ _ _ _ _ _) as [st4 result]. rewrite Hret. reflexivity.
Qed.

(** A stage rejects only with what the callback threw. *)
Lemma observed_agentStage_throws {R : Type} label' doneDetail (agent : AgentRun R) st e :
  snd (Observed.agentStage onStep label' doneDetail agent st) = Throw e ->
  exists calls, onStep calls = Some e.
Proof.
  unfold Observed.agentStage.
  destruct (addStep label' running None st) as [step st1].
  unfold Observed.notify.
  destruct (onStep (emitted st1)) as [err |] eqn:H1;
    [intros H; injection H as <-; eexists; exact H1 |].
  destruct (Observed.replay onStep step (progress agent) st1) as [st2 interrupted].
  assert (Hcaught : forall (result : option R) err st',
            snd (let st'' := failStep step ("Falling back to templates: " +:+ err) st' in
                 match onStep (emitted st'') with
                 | Some err' => (st'', Throw err')
                 | None => (st'', Return result)
                 end) = Throw e ->
            exists calls, onStep calls = Some e).
  { intros result err st'. cbv zeta.
    destruct (onStep (emitted (failStep step _ st'))) as [err' |] eqn:H2;
      [intros H; injection H as <-; eexists; exact H2 | discriminate]. }
  destruct interrupted as [err |]; [apply Hcaught |].
  destruct (outcome agent) as [result | err]; [| apply Hcaught].
  destruct (onStep (emitted (completeStep step (Some doneDetail) st2))) as [err |];
    [apply Hcaught | discriminate].
Qed.

Lemma observed_run_throws options e :
  snd (observed options) = Throw e ->
  (exists err,
     analyze (githubToken options) (owner options) (repo options) = Throw err
     /\ e = "Error: Repository analysis failed: " +:+ err)
  \/ (exists calls err,
        onStep calls = Some err
        /\ (e = err \/ e = "Error: Repository analysis failed: " +:+ err)).
Proof.
  unfold Observed.runOrchestrator.
  destruct (addStep "Analyzing repository structure" running None initial) as [step st1].
  unfold Observed.notify.
  destruct (onStep (emitted st1)) as [err |] eqn:H1.
  { intros H. injection H as <-. right. exists (emitted st1), err. auto. }
  assert (Hcaught : forall err st' (thrown : option (list AgentStep)),
            match thrown with
            | Some calls => onStep calls = Some err
            | None => analyze (githubToken options) (owner options) (repo options) = Throw err
            end ->
            snd (let st'' := failStep step err st' in
                 match onStep (emitted st'') with
                 | Some err' => (st'', Throw err')
                 | None => (st'', Throw ("Error: Repository analysis failed: " +:+ err))
                 end : OState * Completion AgentResult) = Throw e ->
            (exists err0,
               analyze (githubToken options) (owner options) (repo options) = Throw err0
               /\ e = "Error: Repository analysis failed: " +:+ err0)
            \/ (exists calls err0,
                  onStep calls = Some err0
                  /\ (e = err0 \/ e = "Error: Repository analysis failed: " +:+ err0))).
  { intros err st' thrown Hthrown. cbv zeta.
    destruct (onStep (emitted (failStep step err st'))) as [err' |] eqn:H2.
    - intros H. injection H as <-. right. exists (emitted (failStep step err st')), err'. auto.
    - intros H. injection H as <-. destruct thrown as [calls |].
      + right. exists calls, err. auto.
      + left. exists err. auto. }
  destruct (analyze (githubToken options) (owner options) (repo options)) as [a | err] eqn:Ha;
    [| apply (Hcaught err st1 None); reflexivity].
  match goal with
  | |- context [completeStep step ?d st1] => set (st2 := completeStep step d st1)
  end.
  destruct (onStep (emitted st2)) as [err |] eqn:H2;
    [apply (Hcaught err st2 (Some (emitted st2))); exact H2 |].
  pose proof (observed_agentStage_throws "Blackbox AI: Deep code analysis"
                "Config & env template generated"
                (runBlackboxAgent (owner options) (repo options) a (githubToken options))
                st2) as Hbb.
  destruct (Observed.agentStage onStep "Blackbox AI: Deep code analysis" _ _ st2)
    as [st3 [blackboxResult | err]]; cbn [snd] in Hbb.
  2: { intros H. injection H as <-. destruct (Hbb err eq_refl) as [calls Hc].
       right. exists calls, err. auto. }
  pose proof (observed_agentStage_throws "OpenAI: Generating README & landing page"
                "README & landing page ready"
                (runOpenAIAgent (owner options) (repo options) a (githubToken options))
                st3) as Hoa.
  destruct (Observed.agentStage onStep "OpenAI: Generating README & landing page" _ _ st3)
    as [st4 [openaiResult | err]]; cbn [snd] in Hoa.
  2: { intros H. injection H as <-. destruct (Hoa err eq_refl) as [calls Hc].
       right. exists calls, err. auto. }
  destruct (onStep (emitted (snd (addStep "Assembling final output" running None st4))))
    as [err |] eqn:H5.
  { intros H. injection H as <-. right. eexists. exists err. split; [exact H5 | auto]. }
  destruct (merge _ _ _ _ _ _ _) as [st5 result].
  destruct (onStep (emitted st5)) as [err |] eqn:H6; [| discriminate].
  intros H. injection H as <-. right. exists (emitted st5), err. auto.
Qed.


End ObservedOrchestrator.



Lemma visible_no_space (c : ascii) :
  isVisible c = true ->
  JS.ws1 c = false
  /\ (forall c2, JS.ws2 c c2 = false)
  /\ (forall c2 c3, JS.ws3 c c2 c3 = false)
  /\ RE.isNewline c = false.
Proof.
  unfold isVisible, JS.ws1, JS.ws2, JS.ws3, RE.isNewline, RE.charIs. cbv zeta. intros H.
  apply andb_true_iff in H as [H1 H2]. apply Nat.leb_le in H1. apply Nat.ltb_lt in H2.
  assert (Hne : forall k, (k < 33 \/ 127 <= k)%nat -> (nat_of_ascii c =? k)%nat = false).
  { intros k Hk. apply Nat.eqb_neq. lia. }
  assert (Hle : (nat_of_ascii c <=? 13)%nat = false) by (apply Nat.leb_gt; lia).
  rewrite Hle, !Hne by lia. rewrite andb_false_r.
  repeat split; intros; rewrite ?Hne by lia; reflexivity.
Qed.

Lemma class_run_visible (c : ascii) (s : string) :
  isVisible c = true -> RE.class_run (fun _ => false) (String c s) = ([], String c s).
Proof.
  intros Hc. destruct (visible_no_space c Hc) as (H1 & H2 & H3 & _).
  cbn [RE.class_run orb]. rewrite H1.
  destruct s as [| c2 [| c3 s]]; try reflexivity; rewrite H2; try reflexivity.
  rewrite H3. reflexivity.
Qed.

Lemma class_run_space (s : string) :
  RE.class_run (fun _ => false) (String " " s)
  = let '(r, t) := RE.class_run (fun _ => false) s in (" " :: r, t).
Proof. reflexivity. Qed.

Lemma skip_ws_visible (c : ascii) (s : string) :
  isVisible c = true -> JS.skip_ws (String c s) = String c s.
Proof.
  intros Hc. destruct (visible_no_space c Hc) as (H1 & H2 & H3 & _).
  cbn [JS.skip_ws]. rewrite H1.
  destruct s as [| c2 [| c3 s]]; try reflexivity; rewrite H2; try reflexivity.
  rewrite H3. reflexivity.
Qed.

Lemma span_line (a tail : string) :
  noNewline a = true ->
  tail = "" \/ (exists rest, tail = JS.nl +:+ rest) ->
  JS.span (fun c => negb (RE.isNewline c)) (a +:+ tail) = (a, tail).
Proof.
  intros Ha [-> | [rest ->]].
  - rewrite append_nil_r. pose proof (span_spec (fun c => negb (RE.isNewline c)) a) as [_ H].
    clear H. induction a as [| x a IH]; [reflexivity |].
    unfold noNewline in Ha. simpl in Ha. apply andb_true_iff in Ha as [Hx Ha].
    simpl. rewrite Hx, (IH Ha). reflexivity.
  - apply span_stops; [exact Ha | reflexivity].
Qed.

Lemma matchRec_line (item : ascii * string) (tail : string) :
  numbered item = true ->
  tail = "" \/ (exists rest, tail = JS.nl +:+ rest) ->
  OpenAIAgent.matchRec (numberedLine item +:+ tail) = Some (numberedLine item).
Proof.
  destruct item as [d body]. unfold numbered, numberedLine. cbn [fst snd].
  intros H Htail. apply andb_true_iff in H as [Hd Hbody].
  destruct body as [| c body]; [discriminate |].
  apply andb_true_iff in Hbody as [Hc Hline].
  rewrite !append_cons. cbn [OpenAIAgent.matchRec].
  rewrite Hd. replace (RE.charIs 46 ".") with true by reflexivity. cbn [andb].
  rewrite (class_run_space (String c (body +:+ tail))).
  rewrite (class_run_visible c (body +:+ tail) Hc).
  rewrite <- (append_cons c body tail).
  rewrite (span_line (String c body) tail); [| | exact Htail].
  - reflexivity.
  - unfold noNewline. simpl. destruct (visible_no_space c Hc) as (_ & _ & _ & Hnl).
    rewrite Hnl. exact Hline.
Qed.

(** Characters of a match still to pass are passed. *)
Lemma matchAll_skip (m : string -> option string) (a s : string) :
  OpenAIAgent.matchAll m (String.length a) (a +:+ s) = OpenAIAgent.matchAll m 0 s.
Proof.
  induction a as [| c a IH]; [rewrite append_nil_l; destruct s; reflexivity |].
  rewrite append_cons. simpl. exact IH.
Qed.

Lemma matchAll_line (item : ascii * string) (tail : string) :
  numbered item = true ->
  tail = "" \/ (exists rest, tail = JS.nl +:+ rest) ->
  OpenAIAgent.matchAll OpenAIAgent.matchRec 0 (numberedLine item +:+ tail)
  = numberedLine item :: OpenAIAgent.matchAll OpenAIAgent.matchRec 0 tail.
Proof.
  intros Hitem Htail. pose proof (matchRec_line item tail Hitem Htail) as Hm.
  unfold numberedLine in *. rewrite append_cons in *.
  cbn [OpenAIAgent.matchAll]. rewrite Hm. f_equal.
  set (line := String "."%char (String " "%char (snd item))).
  replace (String.length (String (fst item) line) - 1)%nat with (String.length line)
    by (simpl; lia).
  apply matchAll_skip.
Qed.

Lemma matchAll_newline (s : string) :
  OpenAIAgent.matchAll OpenAIAgent.matchRec 0 (JS.nl +:+ s)
  = OpenAIAgent.matchAll OpenAIAgent.matchRec 0 s.
Proof.
  change (JS.nl +:+ s) with (String (ascii_of_nat 10) s).
  destruct s as [| c s]; reflexivity.
Qed.

Lemma matchAll_lines (items : list (ascii * string)) :
  Forall (fun item => numbered item = true) items ->
  OpenAIAgent.matchAll OpenAIAgent.matchRec 0 (JS.join JS.nl (map numberedLine items))
  = map numberedLine items.
Proof.
  intros H. induction H as [| item items Hitem _ IH]; [reflexivity |].
  destruct items as [| item2 items].
  - unfold JS.join. simpl String.concat.
    rewrite <- (append_nil_r (numberedLine item)).
    rewrite (matchAll_line item "" Hitem) by (left; reflexivity). reflexivity.
  - unfold JS.join in *.
    change (String.concat JS.nl (map numberedLine (item :: item2 :: items)))
      with (numberedLine item +:+ JS.nl
            +:+ String.concat JS.nl (map numberedLine (item2 :: items))).
    rewrite (matchAll_line item _ Hitem) by (right; eexists; reflexivity).
    rewrite matchAll_newline, IH. reflexivity.
Qed.

Lemma recommendation_of_line (item : ascii * string) :
  numbered item = true ->
  RE.trim (JS.skip_ws (JS.drop 2 (numberedLine item))) = RE.trim (snd item).
Proof.
  destruct item as [d body]. unfold numbered, numberedLine. cbn [fst snd].
  intros H. apply andb_true_iff in H as [_ Hbody].
  destruct body as [| c body]; [discriminate |].
  apply andb_true_iff in Hbody as [Hc _].
  cbn [JS.drop]. 
  change (JS.skip_ws (String " " (String c body))) with (JS.skip_ws (String c body)).
  unfold RE.trim. rewrite !(skip_ws_visible c body Hc). reflexivity.
Qed.

Lemma In_firstn {A : Type} (n : nat) (l : list A) (x : A) : In x (firstn n l) -> In x l.
Proof.
  revert l. induction n as [| n IH]; intros [| y l]; simpl; try tauto.
  intros [H | H]; [left; exact H | right; apply IH, H].
Qed.

(** X14.  parseAgentResponse always gives between one and three
    deployment recommendations.  They are the first three matches of
    the numbered-line pattern in the order of the answer, each without
    its number and trimmed, and the three defaults when there is no
    match.  For an answer that is a list of numbered lines they are the
    trimmed texts of its first three lines. *)
Theorem parseAgentResponse_recommendations
    (text : string) (analysis : RepoAnalysis) (repoName : string) :
  let recs (answer : string) :=
    OpenAIAgent.deploymentRecommendations
      (OpenAIAgent.parseAgentResponse answer analysis repoName) in
  (1 <= length (recs text) <= 3)%nat
  /\ (OpenAIAgent.matchAll OpenAIAgent.matchRec 0 text = [] ->
      recs text
      = [ "Ensure all environment variables are set in your deployment platform";
          "Run `" +:+ packageManager analysis +:+ " run build` before deploying";
          "Set NODE_ENV=production in your deployment environment" ])
  /\ (OpenAIAgent.matchAll OpenAIAgent.matchRec 0 text <> [] ->
      recs text
      = map (fun r => RE.trim (JS.skip_ws (JS.drop 2 r)))
            (firstn 3 (OpenAIAgent.matchAll OpenAIAgent.matchRec 0 text)))
  /\ (forall items,
        items <> [] -> Forall (fun item => numbered item = true) items ->
        recs (JS.join JS.nl (map numberedLine items))
        = map (fun item => RE.trim (snd item)) (firstn 3 items)).
Proof.
  assert (Hfound : forall answer,
            OpenAIAgent.matchAll OpenAIAgent.matchRec 0 answer <> [] ->
            OpenAIAgent.deploymentRecommendations
              (OpenAIAgent.parseAgentResponse answer analysis repoName)
            = map (fun r => RE.trim (JS.skip_ws (JS.drop 2 r)))
                  (firstn 3 (OpenAIAgent.matchAll OpenAIAgent.matchRec 0 answer))).
  { intros answer Hne. unfold OpenAIAgent.parseAgentResponse. cbv zeta.
    cbn [OpenAIAgent.deploymentRecommendations].
    destruct (OpenAIAgent.matchAll OpenAIAgent.matchRec 0 answer) as [| m found];
      [congruence | reflexivity]. }
  cbv zeta. split; [| split; [| split]].
  - unfold OpenAIAgent.parseAgentResponse. cbv zeta.
    cbn [OpenAIAgent.deploymentRecommendations].
    set (found := OpenAIAgent.matchAll OpenAIAgent.matchRec 0 text).
    destruct (Nat.ltb_spec 0 (length (map (fun r => RE.trim (JS.skip_ws (JS.drop 2 r)))
                                        (firstn 3 found)))) as [Hpos | Hzero].
    + split; [exact Hpos |]. rewrite length_map, length_firstn. lia.
    + simpl. lia.
  - unfold OpenAIAgent.parseAgentResponse. cbv zeta.
    cbn [OpenAIAgent.deploymentRecommendations]. intros ->. reflexivity.
  - apply Hfound.
  - intros items Hne Hitems.
    rewrite Hfound; rewrite (matchAll_lines items Hitems);
      [| destruct items; [congruence | discriminate]].
    rewrite firstn_map, map_map. apply map_ext_in. intros item Hin.
    apply recommendation_of_line.
    rewrite Forall_forall in Hitems. apply Hitems, list_elem_of_In.
    apply (In_firstn 3 items). exact Hin.
Qed.

Lemma parseAgentResponse_recommendations_witness :
  OpenAIAgent.deploymentRecommendations
    (OpenAIAgent.parseAgentResponse
       (JS.join JS.nl
          (map numberedLine
             [ ("1"%char, "Set the env vars"); ("2"%char, "Run the build");
               ("3"%char, "Add a health check"); ("4"%char, "Pin the Node version") ]))
       analysis_react "shop")
  = ["Set the env vars"; "Run the build"; "Add a health check"].
Proof.
  apply (parseAgentResponse_recommendations "" analysis_react "shop").
  - discriminate.
  - repeat constructor.
Defined.

Section ObservedEvents.

Import Orchestrator.

Variable generateReadme : string -> RepoAnalysis -> option string -> string.
Variable JSON_parse : string -> option LandingCopy.
Variable analyze : string -> string -> string -> Completion RepoAnalysis.
Variable runBlackboxAgent :
  string -> string -> RepoAnalysis -> string -> AgentRun BlackboxAgent.BlackboxAgentResult.
Variable runOpenAIAgent :
  string -> string -> RepoAnalysis -> string -> AgentRun OpenAIAgent.OpenAIAgentResult.
Variable onStep : Observed.Callback.

#[local] Abbreviation observed :=
  (Observed.runOrchestrator generateReadme JSON_parse analyze runBlackboxAgent
     runOpenAIAgent onStep).

(** X17.  The number of calls of onStep in a run.  With a callback that
    returns from every call it is two when the analysis fails, and
    otherwise eight and one for every progress call of the two agents,
    whether they return or throw; the last call of a run that returns
    shows step 4 done, with the provider of the result in its detail.  A
    callback that throws in its first call is called once, and the run
    rejects with what it threw. *)
Theorem runOrchestrator_events (options : OrchestratorOptions) :
  (returns onStep ->
   match analyze (githubToken options) (owner options) (repo options) with
   | Throw err => length (emitted (fst (observed options))) = 2%nat
   | Return a =>
       let bb := runBlackboxAgent (owner options) (repo options) a (githubToken options) in
       let oa := runOpenAIAgent (owner options) (repo options) a (githubToken options) in
       length (emitted (fst (observed options)))
       = (8 + length (progress bb) + length (progress oa))%nat
       /\ forall r, snd (observed options) = Return r ->
            last (emitted (fst (observed options)))
            = Some {| id := "4"; label := "Assembling final output"; status := done;
                      detail := Some ("Generated via " +:+ providerName (provider r)) |}
   end)
  /\ (forall first err,
        first = {| id := "1"; label := "Analyzing repository structure";
                   status := running; detail := None |} ->
        onStep [first] = Some err ->
        emitted (fst (observed options)) = [first]
        /\ snd (observed options) = Throw err).
Proof.
  split.
  - intros Hret.
    rewrite (observed_run_returning generateReadme JSON_parse analyze runBlackboxAgent
               runOpenAIAgent onStep options Hret).
    exact (proj2 (run_events generateReadme JSON_parse analyze runBlackboxAgent
                    runOpenAIAgent options)).
  - intros first err -> Hthrows. unfold Observed.runOrchestrator, addStep. cbv zeta.
    unfold Observed.notify. cbn [emitted initial app].
    change (JS.String_of_nat (S (stepCounter initial))) with "1".
    rewrite Hthrows. split; reflexivity.
Qed.

End ObservedEvents.

Lemma runOrchestrator_events_witness :
  length (Orchestrator.emitted
            (fst (Observed.runOrchestrator generateReadme_standin JSON_parse_none
                    analyzer_next blackbox_down openai_down (fun _ => None) options_shop)))
  = 10%nat
  /\ Orchestrator.emitted
       (fst (Observed.runOrchestrator generateReadme_standin JSON_parse_none
               analyzer_next blackbox_down openai_down
               (throwsAt 1 "Error: listener failed") options_shop))
     = [ {| Orchestrator.id := "1";
            Orchestrator.label := "Analyzing repository structure";
            Orchestrator.status := running; Orchestrator.detail := None |} ].
Proof.
  destruct (runOrchestrator_events generateReadme_standin JSON_parse_none analyzer_next
              blackbox_down openai_down (fun _ => None) options_shop) as [H _].
  destruct (runOrchestrator_events generateReadme_standin JSON_parse_none analyzer_next
              blackbox_down openai_down (throwsAt 1 "Error: listener failed") options_shop)
    as [_ H'].
  split.
  - apply (H (fun _ => eq_refl)).
  - apply (H' _ "Error: listener failed" eq_refl eq_refl).
Defined.

Section ObservedCodeAgent.

Import Orchestrator.

Variable generateReadme : string -> RepoAnalysis -> option string -> string.
Variable JSON_parse : string -> option LandingCopy.
Variable analyze : string -> string -> string -> Completion RepoAnalysis.
Variable runOpenAIAgent :
  string -> string -> RepoAnalysis -> string -> AgentRun OpenAIAgent.OpenAIAgentResult.
Variable parse : string -> option Blackbox.unknown.
Variable clientFor : string -> string -> string -> GitHubClient.
Variable apiKey : option string.
Variable fetch : string -> nat -> Completion Blackbox.HttpResponse.
Variable onStep : Observed.Callback.

#[local] Abbreviation agent := (codeInsightAgent parse clientFor apiKey fetch).
#[local] Abbreviation observed :=
  (Observed.runOrchestrator generateReadme JSON_parse analyze agent runOpenAIAgent onStep).


End ObservedCodeAgent.


(** A callback that throws in its fourth call, the first progress call
    of the code-insight agent, makes that agent reject: its step ends
    with the status error and, the content agent failing too, the
    provider is template. *)
Example callback_fails_code_agent :
  exists r s1 s2 s3 s4,
    snd (Observed.runOrchestrator generateReadme_standin JSON_parse_none analyzer_next
           (codeInsightAgent JSON_parse_nothing (fun _ _ _ => clientOfFiles []) None fetch_down)
           openai_down (throwsAt 4 "Error: listener failed") options_shop) = Return r
    /\ Orchestrator.provider r = template
    /\ Orchestrator.steps r = [s1; s2; s3; s4]
    /\ Orchestrator.status s2 = error
    /\ Orchestrator.detail s2 = Some "Falling back to templates: Error: listener failed".
Proof.
  eexists. eexists. eexists. eexists. eexists.
  split; [vm_compute; reflexivity |]. repeat split.
Qed.
